(** * USB gadget Fastboot driver: a shallow embedding of
      [bdk/usb/usb_gadget_fastboot.c] and the properties of its protocol
      engine.

    The C file keeps one session structure, steps an RX and a TX state
    machine once per loop tick and talks to the USB stack through
    non-blocking primitives.  Here the session structure, the function-local
    static timers and the log of calls made to the outside are one record
    ([world]); every C function is a function on worlds; the answers of the
    outside (return codes, received bytes, timer values) come from an
    [oracle] that is indexed by the number of calls made so far. *)

From Stdlib Require Import ZArith String Ascii Bool List Lia.
Import ListNotations.
Open Scope Z_scope.

(** ** Enumerations *)

Inductive fastboot_status : Type :=
| FASTBOOT_STATUS_NORMAL
| FASTBOOT_STATUS_PROTOCOL_RESET
| FASTBOOT_STATUS_INVALID_STATE
| FASTBOOT_STATUS_USB_ERROR
| FASTBOOT_STATUS_REBOOT_BOOTLOADER.

(** The integer value the C compiler gives each enumerator. *)
Definition status_val (s : fastboot_status) : Z :=
  match s with
  | FASTBOOT_STATUS_NORMAL => 0
  | FASTBOOT_STATUS_PROTOCOL_RESET => 1
  | FASTBOOT_STATUS_INVALID_STATE => 2
  | FASTBOOT_STATUS_USB_ERROR => 3
  | FASTBOOT_STATUS_REBOOT_BOOTLOADER => 4
  end.

Definition status_eqb (a b : fastboot_status) : bool :=
  status_val a =? status_val b.

Inductive fastboot_rx_state : Type :=
| FASTBOOT_RX_STATE_INVALID
| FASTBOOT_RX_STATE_IDLE
| FASTBOOT_RX_STATE_COMMAND
| FASTBOOT_RX_STATE_DOWNLOAD
| FASTBOOT_RX_STATE_WAITING_TX_FOR_PROCESS
| FASTBOOT_RX_STATE_WAITING_TX_FOR_REBOOT_BOOTLOADER.

Inductive fastboot_tx_state : Type :=
| FASTBOOT_TX_STATE_INVALID
| FASTBOOT_TX_STATE_IDLE
| FASTBOOT_TX_STATE_SEND_RESPONSE.

Inductive fastboot_response_type : Type :=
| FASTBOOT_RESPONSE_INFO
| FASTBOOT_RESPONSE_FAIL
| FASTBOOT_RESPONSE_OKAY
| FASTBOOT_RESPONSE_DATA.

Inductive fastboot_disposition : Type :=
| FASTBOOT_DISPOSITION_NORMAL
| FASTBOOT_DISPOSITION_DOWNLOAD
| FASTBOOT_DISPOSITION_REBOOT_BOOTLOADER.

(** ** Bytes, C strings and fixed-size buffers *)

Definition NUL : ascii := zero.

Definition code (c : ascii) : Z := Z.of_N (N_of_ascii c).

Definition str (s : string) : list ascii := list_ascii_of_string s.

(** [unsigned] arithmetic on [u32]. *)
Definition u32 (x : Z) : Z := x mod 2 ^ 32.

(** The bytes of a C string: everything before the first NUL. *)
Fixpoint cstr (buf : list ascii) : list ascii :=
  match buf with
  | [] => []
  | c :: rest => if Ascii.eqb c NUL then [] else c :: cstr rest
  end.

Definition strlen (buf : list ascii) : Z := Z.of_nat (length (cstr buf)).

(** Reading one byte of a C string; past the stored bytes lies the
    terminator. *)
Definition peek (buf : list ascii) : ascii := hd NUL buf.

(** [strncmp a b n]: the difference of the first bytes that differ among
    the first [n], zero when there is none or both strings end first. *)
Fixpoint strncmp (a b : list ascii) (n : nat) : Z :=
  match n with
  | O => 0
  | S n' =>
      let ca := peek a in
      let cb := peek b in
      if negb (Ascii.eqb ca cb) then code ca - code cb
      else if Ascii.eqb ca NUL then 0
      else strncmp (tl a) (tl b) n'
  end.

(** [strcmp] compares until a difference or the common terminator; no
    string here is longer than its list. *)
Definition strcmp (a b : list ascii) : Z :=
  strncmp a b (S (Nat.max (length a) (length b))).

(** Storing [data] into [buf] from index [off] on.  A store that runs past
    the end of [buf] makes the list longer: the model keeps the bytes C
    would put behind the array. *)
Definition write_at (buf : list ascii) (off : nat) (data : list ascii)
  : list ascii :=
  firstn off buf ++ data ++ skipn (off + length data) buf.

(** [strcpy dst src]: the string and its terminator. *)
Definition strcpy (dst src : list ascii) : list ascii :=
  write_at dst 0 (cstr src ++ [NUL]).

(** The [n] bytes [strncpy] stores: at most [n] bytes of the string, then
    NULs up to [n]. *)
Definition strncpy_bytes (src : list ascii) (n : nat) : list ascii :=
  let body := firstn n (cstr src) in
  body ++ repeat NUL (n - length body).

Definition strncpy (dst : list ascii) (off : nat) (src : list ascii)
  (n : nat) : list ascii :=
  write_at dst off (strncpy_bytes src n).

(** [strncat dst src n]: at most [n] bytes of [src] appended at the end of
    the string in [dst], and then always a terminator. *)
Definition strncat (dst src : list ascii) (n : nat) : list ascii :=
  write_at dst (length (cstr dst)) (firstn n (cstr src) ++ [NUL]).

(** Modelled from the spec: [s_printf] of utils/sprintf.h with the formats
    ["%08X"] and ["%08x"], which is not among the sources; the spec gives
    its output as 8 uppercase, respectively 8 lowercase, hex digits of the
    32-bit argument. *)
Definition hex_digit (upper : bool) (d : Z) : ascii :=
  if d <? 10 then ascii_of_N (Z.to_N (48 + d))
  else ascii_of_N (Z.to_N ((if upper then 55 else 87) + d)).

Fixpoint hex_digits (upper : bool) (n : nat) (v : Z) : list ascii :=
  match n with
  | O => []
  | S n' => hex_digit upper ((v / 16 ^ Z.of_nat n') mod 16)
            :: hex_digits upper n' v
  end.

Definition s_printf_08X (v : Z) : list ascii := hex_digits true 8 v ++ [NUL].
Definition s_printf_08x (v : Z) : list ascii := hex_digits false 8 v ++ [NUL].


(** ** The outside: calls and their answers *)

(** What [set_text] is given.  The formatted texts keep their arguments. *)
Inductive text : Type :=
| TEXT_STARTED_USB
| TEXT_DOWNLOADING (head_kib size_kib : Z)
| TEXT_STATES (rx_state_name tx_state_name : string)
| TEXT_ENDED
| TEXT_ENDED_PROTOCOL_RESET
| TEXT_ENDED_INVALID_STATE (rx : fastboot_rx_state) (tx : fastboot_tx_state)
| TEXT_ENDED_USB_ERROR
| TEXT_ENDED_REBOOTING
| TEXT_TIMED_OUT.

(** Where an OUT transfer is to be stored. *)
Inductive read_target : Type :=
| INTO_RX_BUFFER
| INTO_DOWNLOAD_BUFFER (offset : Z).

(** One entry of the log per call that leaves the driver, named after the
    function called, with its arguments and its answer.  [G_handle_command]
    is a ghost entry: it marks the entry of the command interpreter and
    records the two machine states found there. *)
Inductive event : Type :=
| E_set_text (t : text)
| E_usb_device_init (rc : Z)
| E_usbd_end (a b : bool)
| E_usb_device_ep0_initialize (rc : Z)
| E_usbd_handle_ep0_pending_control_transfer (r : bool)
| E_usb_device_get_suspended (r : bool)
| E_usb_device_read_ep1_out (target : read_target) (len : Z) (rc : Z)
| E_usb_device_write_ep1_in (frame : list ascii) (rc : Z)
| E_usb_device_ep1_out_reading_poll (rc : Z) (bytes : list ascii)
| E_usb_device_ep1_in_writing_poll (rc : Z)
| E_get_tmr_ms (t : Z)
| E_minerva_periodic_training
| E_system_maintenance (b : bool)
| E_reload_nyx
| G_handle_command (rx : fastboot_rx_state) (tx : fastboot_tx_state).

(** The answer to a call: each call reads the field of its result type. *)
Record reply : Type := {
  rc : Z;              (* int results: 0 ok, 3 still active, else error *)
  flag : bool;         (* bool results *)
  bytes : list ascii;  (* what an OUT transfer delivered *)
  tmr : Z              (* get_tmr_ms *)
}.

(** The answers, by the number of calls logged before. *)
Definition oracle : Type := nat -> reply.

(** ** The session *)

(** [usbd_gadget_fastboot_t], then the two statics of
    [_system_maintenance], the length asked of the OUT transfer in flight,
    and the log.  The function pointers and the label of the structure are
    the calls of the log.  [tx_length] is written by the transport alone
    and read by nobody, and the bytes of a download go to the RAM disk:
    the model keeps neither. *)
Record world : Type := {
  status : fastboot_status;
  rx_state : fastboot_rx_state;
  tx_state : fastboot_tx_state;
  tight_turnaround : bool;
  rx_buffer : list ascii;           (* char [64 + 1] *)
  rx_length : Z;
  download_head : Z;
  download_size : Z;
  download_amount : Z;
  tx_buffer : list ascii;           (* char [64 + 1] *)
  tx_length : Z;
  timer_dram : Z;
  timer_status_bar : Z;
  ep1_out_len : Z;
  log : list event
}.

Definition set_status (v : fastboot_status) (w : world) : world :=
  Build_world v (rx_state w) (tx_state w) (tight_turnaround w) (rx_buffer w)
    (rx_length w) (download_head w) (download_size w) (download_amount w)
    (tx_buffer w) (tx_length w) (timer_dram w) (timer_status_bar w)
    (ep1_out_len w) (log w).

Definition set_rx_state (v : fastboot_rx_state) (w : world) : world :=
  Build_world (status w) v (tx_state w) (tight_turnaround w) (rx_buffer w)
    (rx_length w) (download_head w) (download_size w) (download_amount w)
    (tx_buffer w) (tx_length w) (timer_dram w) (timer_status_bar w)
    (ep1_out_len w) (log w).

Definition set_tx_state (v : fastboot_tx_state) (w : world) : world :=
  Build_world (status w) (rx_state w) v (tight_turnaround w) (rx_buffer w)
    (rx_length w) (download_head w) (download_size w) (download_amount w)
    (tx_buffer w) (tx_length w) (timer_dram w) (timer_status_bar w)
    (ep1_out_len w) (log w).

Definition set_tight_turnaround (v : bool) (w : world) : world :=
  Build_world (status w) (rx_state w) (tx_state w) v (rx_buffer w)
    (rx_length w) (download_head w) (download_size w) (download_amount w)
    (tx_buffer w) (tx_length w) (timer_dram w) (timer_status_bar w)
    (ep1_out_len w) (log w).

Definition set_rx (buf : list ascii) (len : Z) (w : world) : world :=
  Build_world (status w) (rx_state w) (tx_state w) (tight_turnaround w) buf
    len (download_head w) (download_size w) (download_amount w)
    (tx_buffer w) (tx_length w) (timer_dram w) (timer_status_bar w)
    (ep1_out_len w) (log w).

Definition set_download (head size amount : Z) (w : world) : world :=
  Build_world (status w) (rx_state w) (tx_state w) (tight_turnaround w)
    (rx_buffer w) (rx_length w) head size amount
    (tx_buffer w) (tx_length w) (timer_dram w) (timer_status_bar w)
    (ep1_out_len w) (log w).

Definition set_tx_buffer (buf : list ascii) (w : world) : world :=
  Build_world (status w) (rx_state w) (tx_state w) (tight_turnaround w)
    (rx_buffer w) (rx_length w) (download_head w) (download_size w)
    (download_amount w) buf (tx_length w) (timer_dram w)
    (timer_status_bar w) (ep1_out_len w) (log w).

Definition set_timers (dram bar : Z) (w : world) : world :=
  Build_world (status w) (rx_state w) (tx_state w) (tight_turnaround w)
    (rx_buffer w) (rx_length w) (download_head w) (download_size w)
    (download_amount w) (tx_buffer w) (tx_length w) dram bar
    (ep1_out_len w) (log w).

Definition set_ep1_out_len (v : Z) (w : world) : world :=
  Build_world (status w) (rx_state w) (tx_state w) (tight_turnaround w)
    (rx_buffer w) (rx_length w) (download_head w) (download_size w)
    (download_amount w) (tx_buffer w) (tx_length w) (timer_dram w)
    (timer_status_bar w) v (log w).

(** Appending one call to the log. *)
Definition emit (e : event) (w : world) : world :=
  Build_world (status w) (rx_state w) (tx_state w) (tight_turnaround w)
    (rx_buffer w) (rx_length w) (download_head w) (download_size w)
    (download_amount w) (tx_buffer w) (tx_length w) (timer_dram w)
    (timer_status_bar w) (ep1_out_len w) (log w ++ [e]).

(** [FASTBOOT_COMMAND_BUFFER_SIZE] *)
Definition FASTBOOT_COMMAND_BUFFER_SIZE : Z := 64.

(** [sizeof(fastboot->rx_buffer)], [sizeof(fastboot->tx_buffer)] *)
Definition BUFFER_BYTES : nat := 65.

(** ** The status ratchet *)

(** [fastboot_set_status]: the result and the session after the call. *)
Definition fastboot_set_status (w : world) (new_status : fastboot_status)
  : bool * world :=
  if status_val (status w) <=? status_val new_status
  then (true, set_status new_status w)
  else (false, w).

(** ** The driver *)

(** What the driver takes from the headers that are not among the sources
    and from the hardware: [RAM_DISK_SZ] (the download capacity),
    [USB_EP_BUFFER_MAX_SIZE], and the answers of the outside. *)
Record platform : Type := {
  fastboot_download_capacity : Z;
  USB_EP_BUFFER_MAX_SIZE : Z;
  answer : oracle
}.

Section Driver.

Variable p : platform.

(** The answer to the call about to be logged. *)
Definition next_reply (w : world) : reply := answer p (length (log w)).

(** [fastboot_handle_ep0_ctrl] *)
Definition fastboot_handle_ep0_ctrl (w : world) : world :=
  let r := next_reply w in
  let w := emit (E_usbd_handle_ep0_pending_control_transfer (flag r)) w in
  if flag r
  then snd (fastboot_set_status w FASTBOOT_STATUS_PROTOCOL_RESET)
  else w.

(** *** RX state entry *)

Definition fastboot_rx_enter_idle (w : world) : world :=
  set_rx_state FASTBOOT_RX_STATE_IDLE w.

Definition fastboot_rx_enter_command (w : world) : world :=
  let r := next_reply w in
  let w := emit (E_usb_device_read_ep1_out INTO_RX_BUFFER
                   FASTBOOT_COMMAND_BUFFER_SIZE (rc r))
             (set_ep1_out_len FASTBOOT_COMMAND_BUFFER_SIZE w) in
  let w := if rc r =? 0 then w
           else snd (fastboot_set_status w FASTBOOT_STATUS_USB_ERROR) in
  set_rx_state FASTBOOT_RX_STATE_COMMAND w.

Definition fastboot_rx_enter_waiting_tx_for_process (w : world) : world :=
  set_rx_state FASTBOOT_RX_STATE_WAITING_TX_FOR_PROCESS w.

Definition fastboot_rx_enter_waiting_tx_for_reboot_bootloader (w : world)
  : world :=
  set_rx_state FASTBOOT_RX_STATE_WAITING_TX_FOR_REBOOT_BOOTLOADER w.

(** *** TX state entry *)

Definition fastboot_tx_enter_idle (w : world) : world :=
  set_tx_state FASTBOOT_TX_STATE_IDLE w.

(** The write is given [tx_buffer] and [strlen(tx_buffer)]: the log keeps
    those bytes as they are when the write is armed.  [cstr] ends at the
    first NUL or, if there is none, at the end of the list; in C a
    [tx_buffer] with no NUL in its 65 bytes makes [strlen] read on behind
    the array, which has no defined result, so for such a buffer the frame
    in the log says nothing of the C program.  The driver builds no such
    buffer: every message it passes has at most 60 bytes. *)
Definition fastboot_tx_enter_send_response (w : world) : world :=
  let r := next_reply w in
  let w := emit (E_usb_device_write_ep1_in (cstr (tx_buffer w)) (rc r)) w in
  let w := if rc r =? 0 then w
           else snd (fastboot_set_status w FASTBOOT_STATUS_USB_ERROR) in
  set_tx_state FASTBOOT_TX_STATE_SEND_RESPONSE w.

(** *** Response emission *)

Definition response_tag (type : fastboot_response_type) : list ascii :=
  match type with
  | FASTBOOT_RESPONSE_INFO => str "INFO"
  | FASTBOOT_RESPONSE_FAIL => str "FAIL"
  | FASTBOOT_RESPONSE_OKAY => str "OKAY"
  | FASTBOOT_RESPONSE_DATA => str "DATA"
  end.

(** The body of [fastboot_send_response].  In C it and
    [fastboot_rx_enter_download] call each other; the body takes the
    latter as an argument and the knot is tied below.  [message] is [None]
    for a NULL pointer. *)
Definition fastboot_send_response_with (rx_enter_download : world -> world)
  (w : world) (type : fastboot_response_type)
  (disposition : fastboot_disposition) (message : option (list ascii))
  : world :=
  let w := set_tx_buffer (repeat NUL BUFFER_BYTES) w in
  let w := set_tx_buffer (strcpy (tx_buffer w) (response_tag type)) w in
  let w := match message with
           | Some m =>
               set_tx_buffer (strncpy (tx_buffer w) 4 m (BUFFER_BYTES - 4)) w
           | None => w
           end in
  let w := match disposition with
           | FASTBOOT_DISPOSITION_NORMAL => fastboot_rx_enter_command w
           | FASTBOOT_DISPOSITION_DOWNLOAD => rx_enter_download w
           | FASTBOOT_DISPOSITION_REBOOT_BOOTLOADER =>
               fastboot_rx_enter_waiting_tx_for_reboot_bootloader w
           end in
  fastboot_tx_enter_send_response w.

(** The call that [fastboot_rx_enter_download] makes: its disposition is
    NORMAL, a case that does not use the function argument. *)
Definition fastboot_send_response_nested
  : world -> fastboot_response_type -> fastboot_disposition ->
    option (list ascii) -> world :=
  fastboot_send_response_with (fun w => w).

(** [MIN] of utils/util.h *)
Definition MIN (a b : Z) : Z := if a <? b then a else b.

Definition fastboot_rx_enter_download (w : world) : world :=
  if download_head w <? download_size w then
    let w := emit (E_set_text (TEXT_DOWNLOADING (download_head w / 1024)
                                 (download_size w / 1024))) w in
    let len := MIN (u32 (download_size w - download_head w))
                 (USB_EP_BUFFER_MAX_SIZE p) in
    let r := next_reply w in
    let w := emit (E_usb_device_read_ep1_out
                     (INTO_DOWNLOAD_BUFFER (download_head w)) len (rc r))
               (set_ep1_out_len len w) in
    let w := if rc r =? 0 then w
             else snd (fastboot_set_status w FASTBOOT_STATUS_USB_ERROR) in
    set_rx_state FASTBOOT_RX_STATE_DOWNLOAD w
  else
    let w := set_tight_turnaround false w in
    fastboot_send_response_nested w FASTBOOT_RESPONSE_OKAY
      FASTBOOT_DISPOSITION_NORMAL (Some (str "got it!")).

(** [fastboot_send_response] *)
Definition fastboot_send_response
  : world -> fastboot_response_type -> fastboot_disposition ->
    option (list ascii) -> world :=
  fastboot_send_response_with fastboot_rx_enter_download.

(** *** The command interpreter *)

Definition is_between (lo hi : string) (ch : ascii) : bool :=
  (code (peek (str lo)) <=? code ch) && (code ch <=? code (peek (str hi))).

(** The [for] loop of the [download:] branch, [count] rounds from index
    [i] on: whether every byte was a hex digit, and [download_size]. *)
Fixpoint parse_size (command : list ascii) (i count : nat)
  (download_size : Z) : bool * Z :=
  match count with
  | O => (true, download_size)
  | S count' =>
      let download_size := u32 (Z.shiftl download_size 4) in
      let ch := nth i command NUL in
      if is_between "0" "9" ch then
        parse_size command (S i) count'
          (Z.lor download_size (code ch - code (peek (str "0"))))
      else if is_between "a" "f" ch then
        parse_size command (S i) count'
          (Z.lor download_size (code ch - code (peek (str "a")) + 10))
      else if is_between "A" "F" ch then
        parse_size command (S i) count'
          (Z.lor download_size (code ch - code (peek (str "A")) + 10))
      else (false, download_size)
  end.

(** [char message[61] = "unknown command: "]: the rest of the array is
    zero. *)
Definition unknown_command_message_init : list ascii :=
  str "unknown command: " ++ repeat NUL (61 - 17).

(** The message of the last branch.  [strncat] is given
    [sizeof(message)-strlen(message)] = 44 and stores its terminator after
    the bytes it appends: for a line of 44 bytes or more that is index 61
    of an array of 61, the byte the list has in excess.  C gives a store
    behind the array no meaning.  The list records that the store was
    made; what is computed from it for such a line is what the program
    does where the byte behind [message] is of no consequence, and is not
    a consequence of the C text. *)
Definition unknown_command_message (command : list ascii) : list ascii :=
  let message := unknown_command_message_init in
  let message :=
    strncat message command (61 - length (cstr message)) in
  write_at message 60 [NUL].

Definition fastboot_handle_command (w : world) : world :=
  let w := emit (G_handle_command (rx_state w) (tx_state w)) w in
  let command := rx_buffer w in
  if strncmp command (str "getvar:") 7 =? 0 then
    let variable := skipn 7 command in
    if strcmp variable (str "version") =? 0 then
      fastboot_send_response w FASTBOOT_RESPONSE_OKAY
        FASTBOOT_DISPOSITION_NORMAL (Some (str "0.4"))
    else if strcmp variable (str "product") =? 0 then
      fastboot_send_response w FASTBOOT_RESPONSE_OKAY
        FASTBOOT_DISPOSITION_NORMAL (Some (str "Nyx"))
    else if strcmp variable (str "max-download-size") =? 0 then
      let message := s_printf_08X (fastboot_download_capacity p) in
      fastboot_send_response w FASTBOOT_RESPONSE_OKAY
        FASTBOOT_DISPOSITION_NORMAL (Some message)
    else
      fastboot_send_response w FASTBOOT_RESPONSE_FAIL
        FASTBOOT_DISPOSITION_NORMAL (Some (str "unknown variable"))
  else if strcmp command (str "reboot-bootloader") =? 0 then
    fastboot_send_response w FASTBOOT_RESPONSE_OKAY
      FASTBOOT_DISPOSITION_REBOOT_BOOTLOADER (Some (str ""))
  else if strncmp command (str "download:") 9 =? 0 then
    let '(parsed_int_ok, download_size) := parse_size command 9 8 0 in
    if negb parsed_int_ok then
      fastboot_send_response w FASTBOOT_RESPONSE_FAIL
        FASTBOOT_DISPOSITION_NORMAL (Some (str "failed to parse size"))
    else if download_size >? fastboot_download_capacity p then
      fastboot_send_response w FASTBOOT_RESPONSE_FAIL
        FASTBOOT_DISPOSITION_NORMAL (Some (str "download size too large"))
    else
      let w := set_download 0 download_size 0 w in
      let message := s_printf_08x download_size in
      fastboot_send_response w FASTBOOT_RESPONSE_DATA
        FASTBOOT_DISPOSITION_DOWNLOAD (Some message)
  else
    let message := unknown_command_message command in
    fastboot_send_response w FASTBOOT_RESPONSE_FAIL
      FASTBOOT_DISPOSITION_NORMAL (Some message).

(** *** Periodic maintenance *)

(** [_system_maintenance]; [timer_dram] and [timer_status_bar] are its
    statics. *)
Definition _system_maintenance (w : world) : world :=
  let time := tmr (next_reply w) in
  let w := emit (E_get_tmr_ms time) w in
  if timer_dram w <? time then
    let w := emit E_minerva_periodic_training w in
    let t := tmr (next_reply w) in
    let w := emit (E_get_tmr_ms t) w in
    set_timers (u32 (t + 100)) (timer_status_bar w) w
  else if timer_status_bar w <? time then
    let w := emit (E_system_maintenance true) w in
    let t := tmr (next_reply w) in
    let w := emit (E_get_tmr_ms t) w in
    set_timers (timer_dram w) (u32 (t + 30000)) w
  else w.

(** *** RX state process *)

Definition fastboot_rx_state_idle (w : world) : world := w.

(** A poll that answers 0 has stored the transfer: at most the length
    that was asked, at the front of the buffer, and its byte count. *)
Definition delivered (w : world) (r : reply) : list ascii :=
  firstn (Z.to_nat (ep1_out_len w)) (bytes r).

Definition fastboot_rx_state_command (w : world) : world :=
  let r := next_reply w in
  let w := emit (E_usb_device_ep1_out_reading_poll (rc r) (bytes r)) w in
  if rc r =? 0 then
    let got := delivered w r in
    let w := set_rx (write_at (rx_buffer w) 0 got)
               (Z.of_nat (length got)) w in
    let w := set_rx (write_at (rx_buffer w) (Z.to_nat (rx_length w)) [NUL])
               (rx_length w) w in
    fastboot_rx_enter_waiting_tx_for_process w
  else if rc r =? 3 then w
  else snd (fastboot_set_status w FASTBOOT_STATUS_USB_ERROR).

Definition fastboot_rx_state_download (w : world) : world :=
  let r := next_reply w in
  let w := emit (E_usb_device_ep1_out_reading_poll (rc r) (bytes r)) w in
  if rc r =? 0 then
    let got := delivered w r in
    let w := set_download (download_head w) (download_size w)
               (Z.of_nat (length got)) w in
    let w := set_download (u32 (download_head w + download_amount w))
               (download_size w) (download_amount w) w in
    fastboot_rx_enter_download w
  else if rc r =? 3 then w
  else snd (fastboot_set_status w FASTBOOT_STATUS_USB_ERROR).

Definition fastboot_rx_state_waiting_tx_for_process (w : world) : world :=
  match tx_state w with
  | FASTBOOT_TX_STATE_IDLE =>
      let w := fastboot_rx_enter_idle w in
      fastboot_handle_command w
  | _ => w
  end.

Definition fastboot_rx_state_waiting_tx_for_reboot_bootloader (w : world)
  : world :=
  match tx_state w with
  | FASTBOOT_TX_STATE_IDLE =>
      let w := fastboot_rx_enter_idle w in
      snd (fastboot_set_status w FASTBOOT_STATUS_REBOOT_BOOTLOADER)
  | _ => w
  end.

(** *** TX state process *)

Definition fastboot_tx_state_idle (w : world) : world := w.

Definition fastboot_tx_state_send_response (w : world) : world :=
  let r := next_reply w in
  let w := emit (E_usb_device_ep1_in_writing_poll (rc r)) w in
  if rc r =? 0 then fastboot_tx_enter_idle w
  else if rc r =? 3 then w
  else snd (fastboot_set_status w FASTBOOT_STATUS_USB_ERROR).

(** *** The scheduling loop *)

(** The two [switch]es of the loop body: the state's name for the display
    and the session after the step. *)
Definition rx_step (w : world) : string * world :=
  match rx_state w with
  | FASTBOOT_RX_STATE_IDLE => ("idle"%string, fastboot_rx_state_idle w)
  | FASTBOOT_RX_STATE_COMMAND =>
      ("command"%string, fastboot_rx_state_command w)
  | FASTBOOT_RX_STATE_DOWNLOAD =>
      ("download"%string, fastboot_rx_state_download w)
  | FASTBOOT_RX_STATE_WAITING_TX_FOR_PROCESS =>
      ("wtx process"%string, fastboot_rx_state_waiting_tx_for_process w)
  | FASTBOOT_RX_STATE_WAITING_TX_FOR_REBOOT_BOOTLOADER =>
      ("wtx reboot"%string,
       fastboot_rx_state_waiting_tx_for_reboot_bootloader w)
  | FASTBOOT_RX_STATE_INVALID =>
      ("invalid"%string,
       snd (fastboot_set_status w FASTBOOT_STATUS_INVALID_STATE))
  end.

Definition tx_step (w : world) : string * world :=
  match tx_state w with
  | FASTBOOT_TX_STATE_IDLE => ("idle"%string, fastboot_tx_state_idle w)
  | FASTBOOT_TX_STATE_SEND_RESPONSE =>
      ("send response"%string, fastboot_tx_state_send_response w)
  | FASTBOOT_TX_STATE_INVALID =>
      ("invalid"%string,
       snd (fastboot_set_status w FASTBOOT_STATUS_INVALID_STATE))
  end.

(** One round of the [while] body: [true] when it left through [break]. *)
Definition tick (w : world) : bool * world :=
  let w := if negb (tight_turnaround w) then _system_maintenance w
           else w in
  let r := next_reply w in
  let w := emit (E_usb_device_get_suspended (flag r)) w in
  if flag r then (true, w)
  else
    let w := fastboot_handle_ep0_ctrl w in
    let '(rx_state_name, w) := rx_step w in
    let '(tx_state_name, w) := tx_step w in
    let w := if negb (tight_turnaround w)
             then emit (E_set_text (TEXT_STATES rx_state_name tx_state_name))
                    w
             else w in
    (false, w).

(** [while (fastboot.status == FASTBOOT_STATUS_NORMAL)], at most [fuel]
    rounds: [None] when the loop is still running after them. *)
Fixpoint scheduling_loop (fuel : nat) (w : world) : option world :=
  if status_eqb (status w) FASTBOOT_STATUS_NORMAL then
    match fuel with
    | O => None
    | S fuel' =>
        let '(broke, w) := tick w in
        if broke then Some w else scheduling_loop fuel' w
    end
  else Some w.

(** The session after [memset] and the assignment of [status]; the two
    statics keep what earlier runs left in them. *)
Definition fresh_session (dram bar : Z) : world :=
  Build_world FASTBOOT_STATUS_NORMAL FASTBOOT_RX_STATE_INVALID
    FASTBOOT_TX_STATE_INVALID false (repeat NUL BUFFER_BYTES) 0 0 0 0
    (repeat NUL BUFFER_BYTES) 0 dram bar 0 [].

(** The [switch] on the status after the loop. *)
Definition ended_text (w : world) : text :=
  match status w with
  | FASTBOOT_STATUS_NORMAL => TEXT_ENDED
  | FASTBOOT_STATUS_PROTOCOL_RESET => TEXT_ENDED_PROTOCOL_RESET
  | FASTBOOT_STATUS_INVALID_STATE =>
      TEXT_ENDED_INVALID_STATE (rx_state w) (tx_state w)
  | FASTBOOT_STATUS_USB_ERROR => TEXT_ENDED_USB_ERROR
  | FASTBOOT_STATUS_REBOOT_BOOTLOADER => TEXT_ENDED_REBOOTING
  end.

(** From the label [exit] on. *)
Definition exit_path (w : world) : world :=
  let w := emit (E_usbd_end true false) w in
  if status_eqb (status w) FASTBOOT_STATUS_REBOOT_BOOTLOADER
  then emit E_reload_nyx w
  else w.

(** [usb_device_gadget_fastboot]: the result and the final session, or
    [None] when the loop outlasts [fuel] rounds. *)
Definition usb_device_gadget_fastboot (fuel : nat) (dram bar : Z)
  : option (Z * world) :=
  let res := 0 in
  let w := emit (E_set_text TEXT_STARTED_USB) (fresh_session dram bar) in
  let r := next_reply w in
  let w := emit (E_usb_device_init (rc r)) w in
  if negb (rc r =? 0) then
    let w := emit (E_usbd_end false true) w in
    Some (1, w)
  else
    let r := next_reply w in
    let w := emit (E_usb_device_ep0_initialize (rc r)) w in
    if negb (rc r =? 0) then
      let w := emit (E_set_text TEXT_TIMED_OUT) w in
      let res := 1 in
      Some (res, exit_path w)
    else
      let w := fastboot_handle_ep0_ctrl w in
      let w := fastboot_rx_enter_command w in
      let w := fastboot_tx_enter_idle w in
      match scheduling_loop fuel w with
      | None => None
      | Some w =>
          let w := emit (E_set_text (ended_text w)) w in
          Some (res, exit_path w)
      end.

End Driver.

(** * Notions used by the statements *)

(** ** Severity *)

(** The order of the statuses as the documents give it, least severe
    first; [RebootBootloader] is last. *)
Definition severity_order : list fastboot_status :=
  [ FASTBOOT_STATUS_NORMAL; FASTBOOT_STATUS_PROTOCOL_RESET;
    FASTBOOT_STATUS_INVALID_STATE; FASTBOOT_STATUS_USB_ERROR;
    FASTBOOT_STATUS_REBOOT_BOOTLOADER ].

Fixpoint position (s : fastboot_status) (l : list fastboot_status) : nat :=
  match l with
  | [] => O
  | x :: rest => if status_eqb s x then O else S (position s rest)
  end.

Definition severity_le (a b : fastboot_status) : bool :=
  Nat.leb (position a severity_order) (position b severity_order).

Definition severity_lt (a b : fastboot_status) : bool :=
  Nat.ltb (position a severity_order) (position b severity_order).

(** A sequence of raise attempts, in order. *)
Definition raise_all (w : world) (attempts : list fastboot_status) : world :=
  fold_left (fun w s => snd (fastboot_set_status w s)) attempts w.

(** ** Scripts for the outside *)

Definition ok_reply : reply := Build_reply 0 false [] 0.

(** Every call is answered alike. *)
Definition always (r : reply) : oracle := fun _ => r.

(** A platform with the spec's example capacity. *)
Definition example_platform (o : oracle) : platform :=
  Build_platform 134217728 4096 o.

(** A session about to run the interpreter on [line]. *)
Definition holding (line : string) : world :=
  Build_world FASTBOOT_STATUS_NORMAL FASTBOOT_RX_STATE_IDLE
    FASTBOOT_TX_STATE_IDLE false
    (write_at (repeat NUL BUFFER_BYTES) 0 (str line))
    (Z.of_nat (length (str line))) 0 0 0
    (repeat NUL BUFFER_BYTES) 0 0 0 64 [].

(** ** Responses *)

(** The 65 bytes of [tx_buffer] once a response is built: the tag, then the
    61 bytes [strncpy] stores, or the zeros of [memset] for no message. *)
Definition response_buffer (type : fastboot_response_type)
  (message : option (list ascii)) : list ascii :=
  response_tag type
  ++ match message with
     | Some m => strncpy_bytes m (BUFFER_BYTES - 4)
     | None => repeat NUL (BUFFER_BYTES - 4)
     end.

(** The bytes a write of that buffer is given. *)
Definition response_frame (type : fastboot_response_type)
  (message : option (list ascii)) : list ascii :=
  cstr (response_buffer type message).

(** The frames given to the transport, oldest first. *)
Fixpoint frames_written (l : list event) : list (list ascii) :=
  match l with
  | [] => []
  | E_usb_device_write_ep1_in frame _ :: rest => frame :: frames_written rest
  | _ :: rest => frames_written rest
  end.

(** What each disposition is to have done to RX by the time the write is
    armed: the calls logged for it and the RX state. *)
Definition rx_arming (d : fastboot_disposition) (w : world)
  (calls : list event) (rx : fastboot_rx_state) : Prop :=
  match d with
  | FASTBOOT_DISPOSITION_NORMAL =>
      (exists c, calls = [E_usb_device_read_ep1_out INTO_RX_BUFFER
                            FASTBOOT_COMMAND_BUFFER_SIZE c])
      /\ rx = FASTBOOT_RX_STATE_COMMAND
  | FASTBOOT_DISPOSITION_DOWNLOAD =>
      (exists t len c,
          calls = [E_set_text t;
                   E_usb_device_read_ep1_out
                     (INTO_DOWNLOAD_BUFFER (download_head w)) len c])
      /\ rx = FASTBOOT_RX_STATE_DOWNLOAD
  | FASTBOOT_DISPOSITION_REBOOT_BOOTLOADER =>
      calls = [] /\ rx = FASTBOOT_RX_STATE_WAITING_TX_FOR_REBOOT_BOOTLOADER
  end.

(** One call of [fastboot_send_response] resolves its disposition and only
    then arms the write of its frame, the last call it logs. *)
Definition rx_armed_before_tx (p : platform) (w : world)
  (type : fastboot_response_type) (d : fastboot_disposition)
  (message : option (list ascii)) : Prop :=
  let w' := fastboot_send_response p w type d message in
  exists calls c,
    log w' = log w ++ calls
             ++ [E_usb_device_write_ep1_in (response_frame type message) c]
    /\ rx_arming d w calls (rx_state w')
    /\ tx_state w' = FASTBOOT_TX_STATE_SEND_RESPONSE.

(** ** Command lines *)

(** The line the interpreter sees: the C string in [rx_buffer]. *)
Definition line (w : world) : list ascii := cstr (rx_buffer w).

Definition starts_with (prefix : string) (l : list ascii) : Prop :=
  firstn (length (str prefix)) l = str prefix.


(** The hex digits, as the documents list them: 0-9, a-f, A-F. *)
Definition is_hex_digit (ch : ascii) : bool :=
  existsb (Ascii.eqb ch) (str "0123456789abcdefABCDEF").

Fixpoint index_of (ch : ascii) (l : list ascii) : option Z :=
  match l with
  | [] => None
  | x :: rest =>
      if Ascii.eqb ch x then Some 0
      else option_map Z.succ (index_of ch rest)
  end.

Definition hex_value (ch : ascii) : Z :=
  match index_of ch (str "0123456789abcdef") with
  | Some v => v
  | None =>
      match index_of ch (str "0123456789ABCDEF") with
      | Some v => v
      | None => 0
      end
  end.

(** The number a row of hex digits writes, most significant first. *)
Definition add_digit (acc : Z) (ch : ascii) : Z := 16 * acc + hex_value ch.

Definition hex_number (digits : list ascii) : Z :=
  fold_left add_digit digits 0.

(** The 8 bytes that follow [download:] in the buffer. *)
Definition size_window (buf : list ascii) : list ascii :=
  firstn 8 (skipn 9 buf).

(** The interpreter, run on [w], answered [frame] and re-armed the command
    read: the calls it logged, the two machine states, and the status,
    which moves only when the transport refuses one of the two calls. *)
Definition answered_with (w w' : world) (frame : list ascii) : Prop :=
  exists c1 c2 : Z,
    log w' = log w
             ++ [G_handle_command (rx_state w) (tx_state w);
                 E_usb_device_read_ep1_out INTO_RX_BUFFER
                   FASTBOOT_COMMAND_BUFFER_SIZE c1;
                 E_usb_device_write_ep1_in frame c2]
    /\ rx_state w' = FASTBOOT_RX_STATE_COMMAND
    /\ tx_state w' = FASTBOOT_TX_STATE_SEND_RESPONSE
    /\ (c1 = 0 -> c2 = 0 -> status w' = status w).

Definition download_untouched (w w' : world) : Prop :=
  download_head w' = download_head w
  /\ download_size w' = download_size w
  /\ download_amount w' = download_amount w.

(** ** Sessions in the loop *)

(** The session as the loop first finds it, when both initialisations
    succeed. *)
Definition session_at_loop (p : platform) (dram bar : Z) : world :=
  let w := emit (E_set_text TEXT_STARTED_USB) (fresh_session dram bar) in
  let w := emit (E_usb_device_init (rc (next_reply p w))) w in
  let w := emit (E_usb_device_ep0_initialize (rc (next_reply p w))) w in
  let w := fastboot_handle_ep0_ctrl p w in
  let w := fastboot_rx_enter_command p w in
  fastboot_tx_enter_idle w.

(** The sessions the [while] test sees. *)
Inductive at_loop_head (p : platform) : world -> Prop :=
| head_first (dram bar : Z) :
    rc (answer p 1%nat) = 0 -> rc (answer p 2%nat) = 0 ->
    at_loop_head p (session_at_loop p dram bar)
| head_next (w : world) :
    at_loop_head p w ->
    status w = FASTBOOT_STATUS_NORMAL ->
    fst (tick p w) = false ->
    at_loop_head p (snd (tick p w)).

(** [n] rounds of the loop body, one after the other. *)
Fixpoint ticks (p : platform) (n : nat) (w : world) : world :=
  match n with
  | O => w
  | S n' => ticks p n' (snd (tick p w))
  end.

(** An outside that accepts and completes every call at once and delivers
    the given lines at the given calls. *)
Definition delivering (lines : list (nat * string)) : oracle :=
  fun n =>
    match find (fun entry => Nat.eqb (fst entry) n) lines with
    | Some entry => Build_reply 0 false (str (snd entry)) 0
    | None => ok_reply
    end.

(** Whether the loop runs [n] more rounds from [w]: the status is Normal
    before each and none leaves through [break]. *)
Fixpoint keeps_running (p : platform) (n : nat) (w : world) : bool :=
  match n with
  | O => true
  | S n' =>
      status_eqb (status w) FASTBOOT_STATUS_NORMAL
      && negb (fst (tick p w))
      && keeps_running p n' (snd (tick p w))
  end.

(** A session in Command, its read in flight. *)
Definition listening : world :=
  set_rx_state FASTBOOT_RX_STATE_COMMAND (holding "getvar:version").

(** Two lines in a row, the second shorter than the first. *)
Definition two_lines : platform :=
  example_platform
    (delivering [(8%nat, "getvar:version"%string);
                 (21%nat, "download:"%string)]).

(** A download of two chunks. *)
Definition long_download : platform :=
  example_platform (delivering [(8%nat, "download:00002000"%string)]).

(** The host asks for the bootloader, over and over. *)
Definition rebooting : platform :=
  example_platform
    (always (Build_reply 0 false (str "reboot-bootloader") 0)).

(** The session a run ends with. *)
Definition final_session (p : platform) (fuel : nat) (dram bar : Z) : world :=
  match usb_device_gadget_fastboot p fuel dram bar with
  | Some (_, w) => w
  | None => fresh_session dram bar
  end.

(** Every transport call fails. *)
Definition failing : platform :=
  example_platform (always (Build_reply 1 false [] 0)).

(** A session in the WaitingTxForProcess gate, TX idle. *)
Definition at_the_gate : world :=
  set_rx_state FASTBOOT_RX_STATE_WAITING_TX_FOR_PROCESS
    (holding "getvar:version").

(** The scenario of the documents: [download:00000010] and then 16 bytes
    of payload. *)
Definition sixteen_bytes : platform :=
  example_platform
    (delivering [(8%nat, "download:00000010"%string);
                 (22%nat, "0123456789abcdef"%string)]).

(** Every byte of [rx_buffer] from index [rx_length] on is zero. *)
Definition zero_filled_beyond_used (w : world) : Prop :=
  forall i : nat,
    (Z.to_nat (rx_length w) <= i < length (rx_buffer w))%nat ->
    nth i (rx_buffer w) NUL = NUL.

(** ** Readings of the log *)

Definition rx_is_idle (s : fastboot_rx_state) : bool :=
  match s with FASTBOOT_RX_STATE_IDLE => true | _ => false end.

Definition tx_is_idle (s : fastboot_tx_state) : bool :=
  match s with FASTBOOT_TX_STATE_IDLE => true | _ => false end.

(** Every entry of the interpreter found RX and TX idle. *)
Definition interpreter_entry_ok (e : event) : bool :=
  match e with
  | G_handle_command rx tx => rx_is_idle rx && tx_is_idle tx
  | _ => true
  end.

Definition interpreter_gated (l : list event) : bool :=
  forallb interpreter_entry_ok l.

(** Neither teardown nor restart. *)
Definition inside_loop (e : event) : bool :=
  match e with
  | E_usbd_end _ _ => false
  | E_reload_nyx => false
  | _ => true
  end.

(** Where the last response stands, read off the log: armed; armed and
    then found complete by a poll; found complete and then a later round
    of the loop begun (each round asks [usb_device_get_suspended] once,
    before it steps RX). *)
Inductive tx_phase : Type :=
| NothingArmed
| Armed (frame : list ascii)
| Completed (frame : list ascii)
| CompletedEarlier (frame : list ascii).

Definition observe (ph : tx_phase) (e : event) : tx_phase :=
  match e with
  | E_usb_device_write_ep1_in frame _ => Armed frame
  | E_usb_device_ep1_in_writing_poll c =>
      if c =? 0
      then match ph with Armed frame => Completed frame | _ => ph end
      else ph
  | E_usb_device_get_suspended _ =>
      match ph with Completed frame => CompletedEarlier frame | _ => ph end
  | _ => ph
  end.

Definition tx_phase_of (l : list event) : tx_phase :=
  fold_left observe l NothingArmed.

Definition is_write (e : event) : bool :=
  match e with E_usb_device_write_ep1_in _ _ => true | _ => false end.

(** The log shows [frame] armed, later a poll that found the write
    complete, later the beginning of another round, and no other write
    armed after it. *)
Definition left_tx_a_round_ago (frame : list ascii) (l : list event) : Prop :=
  exists t1 c t2 t3 b t4,
    l = t1 ++ E_usb_device_write_ep1_in frame c :: t2
           ++ E_usb_device_ep1_in_writing_poll 0 :: t3
           ++ E_usb_device_get_suspended b :: t4
    /\ forallb (fun e => negb (is_write e)) (t2 ++ t3 ++ t4) = true.

(** ** What holds of every session in the loop *)

Definition OKAY_frame : list ascii := str "OKAY".

(** While RX waits in the reboot gate, the response in TX is the [OKAY] of
    [reboot-bootloader]: armed while TX sends, and found complete once TX
    is idle ([when_idle] says how long ago). *)
Definition reboot_gate (when_idle : tx_phase -> Prop) (w : world) : Prop :=
  rx_state w = FASTBOOT_RX_STATE_WAITING_TX_FOR_REBOOT_BOOTLOADER ->
  match tx_state w with
  | FASTBOOT_TX_STATE_SEND_RESPONSE =>
      tx_phase_of (log w) = Armed OKAY_frame
  | FASTBOOT_TX_STATE_IDLE => when_idle (tx_phase_of (log w))
  | FASTBOOT_TX_STATE_INVALID => False
  end.

Definition complete (ph : tx_phase) : Prop :=
  ph = Completed OKAY_frame \/ ph = CompletedEarlier OKAY_frame.

Definition complete_earlier (ph : tx_phase) : Prop :=
  ph = CompletedEarlier OKAY_frame.

(** What the three readings of the log and [tight_turnaround] keep. *)
Definition steady (w : world) : Prop :=
  tight_turnaround w = false
  /\ interpreter_gated (log w) = true
  /\ forallb inside_loop (log w) = true.

(** At the [while] test. *)
Definition loop_invariant (w : world) : Prop :=
  steady w
  /\ reboot_gate complete w
  /\ (status w = FASTBOOT_STATUS_REBOOT_BOOTLOADER ->
      tx_phase_of (log w) = CompletedEarlier OKAY_frame).

(** Between the call of [usb_device_get_suspended] and the RX step. *)
Definition before_rx_step (w : world) : Prop :=
  steady w
  /\ reboot_gate complete_earlier w
  /\ status w <> FASTBOOT_STATUS_REBOOT_BOOTLOADER.

(** Between the RX step and the TX step. *)
Definition before_tx_step (w : world) : Prop :=
  steady w
  /\ reboot_gate complete_earlier w
  /\ (status w = FASTBOOT_STATUS_REBOOT_BOOTLOADER ->
      tx_phase_of (log w) = CompletedEarlier OKAY_frame
      /\ tx_state w = FASTBOOT_TX_STATE_IDLE).

(** Two sessions that differ in nothing the invariants read. *)
Definition same_standing (w w' : world) : Prop :=
  rx_state w' = rx_state w
  /\ tx_state w' = tx_state w
  /\ status w' = status w
  /\ tight_turnaround w' = tight_turnaround w
  /\ tx_phase_of (log w') = tx_phase_of (log w)
  /\ interpreter_gated (log w') = interpreter_gated (log w)
  /\ forallb inside_loop (log w') = forallb inside_loop (log w).

(** What a phase says of the log it was read from. *)
Definition no_write (l : list event) : Prop :=
  forallb (fun e => negb (is_write e)) l = true.

Definition history (ph : tx_phase) (l : list event) : Prop :=
  match ph with
  | NothingArmed => True
  | Armed frame =>
      exists t1 c t2,
        l = t1 ++ E_usb_device_write_ep1_in frame c :: t2 /\ no_write t2
  | Completed frame =>
      exists t1 c t2 t3,
        l = t1 ++ E_usb_device_write_ep1_in frame c :: t2
               ++ E_usb_device_ep1_in_writing_poll 0 :: t3
        /\ no_write (t2 ++ t3)
  | CompletedEarlier frame => left_tx_a_round_ago frame l
  end.

(** A log that only grew. *)
Definition extends (l l' : list event) : Prop := exists more, l' = l ++ more.

(** A step that only appends to the log. *)
Definition grows (f : world -> world) : Prop :=
  forall w : world, extends (log w) (log (f w)).

(** The two buffers have their 65 bytes, and a read armed for a command
    asks for 64. *)
Definition buffers_sized (w : world) : Prop :=
  length (rx_buffer w) = BUFFER_BYTES
  /\ length (tx_buffer w) = BUFFER_BYTES
  /\ (rx_state w = FASTBOOT_RX_STATE_COMMAND ->
      ep1_out_len w = FASTBOOT_COMMAND_BUFFER_SIZE).

(** ** The shape of the sessions in the loop *)

(** The names the two [switch]es of the loop body have for the states
    that do something: no display of [idle] for RX, none of [invalid]. *)
Definition rx_name_of_a_working_state (name : string) : bool :=
  (String.eqb name "command" || String.eqb name "download"
   || String.eqb name "wtx process" || String.eqb name "wtx reboot")%bool.

Definition tx_name_of_a_working_state (name : string) : bool :=
  (String.eqb name "idle" || String.eqb name "send response")%bool.

Definition shows_working_states (e : event) : bool :=
  match e with
  | E_set_text (TEXT_STATES rx_state_name tx_state_name) =>
      rx_name_of_a_working_state rx_state_name
      && tx_name_of_a_working_state tx_state_name
  | E_set_text (TEXT_ENDED_INVALID_STATE _ _) => false
  | _ => true
  end.

(** A read asks for bytes its buffer has room for: 64 for a command, and
    for a download a stretch of the RAM disk between its start and its
    capacity. *)
Definition read_within (capacity : Z) (e : event) : bool :=
  match e with
  | E_usb_device_read_ep1_out INTO_RX_BUFFER len _ =>
      len =? FASTBOOT_COMMAND_BUFFER_SIZE
  | E_usb_device_read_ep1_out (INTO_DOWNLOAD_BUFFER offset) len _ =>
      (0 <=? offset) && (offset + len <=? capacity)
  | _ => true
  end.

(** A written frame has at most the 64 bytes of a command buffer. *)
Definition frame_fits (e : event) : bool :=
  match e with
  | E_usb_device_write_ep1_in frame _ => (length frame <=? 64)%nat
  | _ => true
  end.

Definition entry_ok (p : platform) (e : event) : bool :=
  shows_working_states e
  && read_within (fastboot_download_capacity p) e
  && frame_fits e.

(** What the steps of a round keep whatever the state of RX. *)
Definition settled (p : platform) (w : world) : Prop :=
  tx_state w <> FASTBOOT_TX_STATE_INVALID
  /\ status w <> FASTBOOT_STATUS_INVALID_STATE
  /\ 0 <= download_head w
  /\ download_head w <= download_size w
  /\ download_size w <= Z.max 0 (fastboot_download_capacity p)
  /\ download_size w < 2 ^ 32
  /\ (length (cstr (tx_buffer w)) <= 64)%nat
  /\ forallb (entry_ok p) (log w) = true.

(** What every session of the loop has, also between the steps of a
    round: RX is idle only once the status is RebootBootloader, and in
    Download bytes are still due and no more of them were asked than
    that. *)
Definition sound (p : platform) (w : world) : Prop :=
  settled p w
  /\ rx_state w <> FASTBOOT_RX_STATE_INVALID
  /\ (rx_state w = FASTBOOT_RX_STATE_IDLE ->
      status w = FASTBOOT_STATUS_REBOOT_BOOTLOADER)
  /\ (rx_state w = FASTBOOT_RX_STATE_DOWNLOAD ->
      download_head w < download_size w
      /\ ep1_out_len w <= download_size w - download_head w).

(** The arguments of the calls of [usbd_end], in order. *)
Definition teardowns (l : list event) : list (bool * bool) :=
  flat_map (fun e => match e with
                     | E_usbd_end a b => [(a, b)]
                     | _ => []
                     end) l.

(** The cable is pulled during the first round of the loop. *)
Definition cable_pulled : platform :=
  example_platform
    (fun n => if Nat.eqb n 6 then Build_reply 0 true [] 0 else ok_reply).

(** A download of 16 bytes whose only chunk is about to be polled, and an
    outside that delivers it. *)
Definition awaiting_sixteen_bytes : world :=
  set_rx_state FASTBOOT_RX_STATE_DOWNLOAD
    (set_ep1_out_len 16 (set_download 0 16 0 (holding ""))).

Definition payload_arrives : platform :=
  example_platform (always (Build_reply 0 false (str "0123456789abcdef") 0)).

(** No step lowers the status. *)
Definition raises_only (f : world -> world) : Prop :=
  forall w : world, status_val (status w) <= status_val (status (f w)).

(** * The earlier, synchronous version of the driver *)

(** [unnamed/part_000] is the same driver before it had two state
    machines: one [state], transfers that block until they are done, and
    the disposition of a response resolved after its write, not before.
    It is embedded the same way, with a session record and a log of its
    own. *)
Module Earlier.

Inductive fastboot_status : Type :=
| FASTBOOT_STATUS_NORMAL
| FASTBOOT_STATUS_PROTOCOL_RESET
| FASTBOOT_STATUS_INVALID_STATE
| FASTBOOT_STATUS_USB_ERROR.

Definition status_val (s : fastboot_status) : Z :=
  match s with
  | FASTBOOT_STATUS_NORMAL => 0
  | FASTBOOT_STATUS_PROTOCOL_RESET => 1
  | FASTBOOT_STATUS_INVALID_STATE => 2
  | FASTBOOT_STATUS_USB_ERROR => 3
  end.

Definition status_eqb (a b : fastboot_status) : bool :=
  status_val a =? status_val b.

Inductive fastboot_state : Type :=
| FASTBOOT_STATE_INITIAL
| FASTBOOT_STATE_RECEIVE_HOST_COMMAND
| FASTBOOT_STATE_SEND_RESPONSE
| FASTBOOT_STATE_DOWNLOAD.

Inductive fastboot_disposition : Type :=
| FASTBOOT_DISPOSITION_CANCEL
| FASTBOOT_DISPOSITION_DOWNLOAD.

Definition disposition_val (d : fastboot_disposition) : Z :=
  match d with
  | FASTBOOT_DISPOSITION_CANCEL => 0
  | FASTBOOT_DISPOSITION_DOWNLOAD => 1
  end.

Inductive text : Type :=
| TEXT_STARTED_USB
| TEXT_HANDLING_COMMAND
| TEXT_DOWNLOADING (head_kib size_kib : Z)
| TEXT_ENDED
| TEXT_TIMED_OUT.

(** One entry per call that leaves the driver.  The transfers are asked
    with [sync] true: their entry has the answer of the finished
    transfer. *)
Inductive event : Type :=
| E_set_text (t : text)
| E_usb_device_init (rc : Z)
| E_usbd_end (a b : bool)
| E_usb_device_ep0_initialize (rc : Z)
| E_usbd_handle_ep0_pending_control_transfer (r : bool)
| E_usb_device_get_suspended (r : bool)
| E_usb_device_read_ep1_out (target : read_target) (len : Z) (rc : Z)
| E_usb_device_write_ep1_in (frame : list ascii) (rc : Z)
| E_get_tmr_ms (t : Z)
| E_minerva_periodic_training
| E_system_maintenance (b : bool)
| E_reload_nyx.

(** [usbd_gadget_fastboot_t] of that version, the two statics of
    [_system_maintenance] and the log.  [overlay] is the storage of the
    anonymous union: [send_response.disposition] and [usb_error.code] are
    the same word. *)
Record session : Type := {
  status : fastboot_status;
  state : fastboot_state;
  overlay : Z;
  buffer_used : Z;
  buffer : list ascii;              (* char [65] *)
  download_head : Z;
  download_size : Z;
  download_amount : Z;
  timer_dram : Z;
  timer_status_bar : Z;
  log : list event
}.

Definition set_status (v : fastboot_status) (w : session) : session :=
  Build_session v (state w) (overlay w) (buffer_used w) (buffer w)
    (download_head w) (download_size w) (download_amount w) (timer_dram w)
    (timer_status_bar w) (log w).

Definition set_state (v : fastboot_state) (w : session) : session :=
  Build_session (status w) v (overlay w) (buffer_used w) (buffer w)
    (download_head w) (download_size w) (download_amount w) (timer_dram w)
    (timer_status_bar w) (log w).

Definition set_overlay (v : Z) (w : session) : session :=
  Build_session (status w) (state w) v (buffer_used w) (buffer w)
    (download_head w) (download_size w) (download_amount w) (timer_dram w)
    (timer_status_bar w) (log w).

Definition set_buffer_used (v : Z) (w : session) : session :=
  Build_session (status w) (state w) (overlay w) v (buffer w)
    (download_head w) (download_size w) (download_amount w) (timer_dram w)
    (timer_status_bar w) (log w).

Definition set_buffer (v : list ascii) (w : session) : session :=
  Build_session (status w) (state w) (overlay w) (buffer_used w) v
    (download_head w) (download_size w) (download_amount w) (timer_dram w)
    (timer_status_bar w) (log w).

Definition set_download (head size amount : Z) (w : session) : session :=
  Build_session (status w) (state w) (overlay w) (buffer_used w) (buffer w)
    head size amount (timer_dram w) (timer_status_bar w) (log w).

Definition set_timers (dram bar : Z) (w : session) : session :=
  Build_session (status w) (state w) (overlay w) (buffer_used w) (buffer w)
    (download_head w) (download_size w) (download_amount w) dram bar
    (log w).

Definition emit (e : event) (w : session) : session :=
  Build_session (status w) (state w) (overlay w) (buffer_used w) (buffer w)
    (download_head w) (download_size w) (download_amount w) (timer_dram w)
    (timer_status_bar w) (log w ++ [e]).

Section Driver.

Variable p : platform.

Definition next_reply (w : session) : reply := answer p (length (log w)).

Definition fastboot_set_status (w : session) (new_status : fastboot_status)
  : bool * session :=
  if status_val (status w) <=? status_val new_status
  then (true, set_status new_status w)
  else (false, w).

Definition fastboot_handle_ep0_ctrl (w : session) : session :=
  let r := next_reply w in
  let w := emit (E_usbd_handle_ep0_pending_control_transfer (flag r)) w in
  if flag r
  then snd (fastboot_set_status w FASTBOOT_STATUS_PROTOCOL_RESET)
  else w.

(** [fastboot_check_code]: whether the transfer is done, and the session:
    an error other than 3 raises the status and, where it did, stores the
    code over the disposition. *)
Definition fastboot_check_code (w : session) (res : Z) : bool * session :=
  if res =? 0 then (true, w)
  else if res =? 3 then (false, w)
  else
    let '(raised, w) := fastboot_set_status w FASTBOOT_STATUS_USB_ERROR in
    (false, if raised then set_overlay res w else w).

Definition fastboot_enter_receive_host_command (w : session) : session :=
  set_state FASTBOOT_STATE_RECEIVE_HOST_COMMAND w.

(** [fastboot_enter_send_response]: the response is built over the command
    in [buffer] (there is no [memset] here) and the disposition is kept
    for after the write. *)
Definition fastboot_enter_send_response (w : session)
  (type : fastboot_response_type) (disposition : fastboot_disposition)
  (message : option (list ascii)) : session :=
  let w := set_buffer (strcpy (buffer w) (response_tag type)) w in
  let w := match message with
           | Some m =>
               set_buffer (strncpy (buffer w) 4 m (BUFFER_BYTES - 4)) w
           | None => w
           end in
  let w := set_overlay (disposition_val disposition) w in
  set_state FASTBOOT_STATE_SEND_RESPONSE w.

Definition fastboot_enter_download (w : session) : session :=
  if download_head w <? download_size w then
    let w := emit (E_set_text (TEXT_DOWNLOADING (download_head w / 1024)
                                 (download_size w / 1024))) w in
    set_state FASTBOOT_STATE_DOWNLOAD w
  else
    fastboot_enter_send_response w FASTBOOT_RESPONSE_OKAY
      FASTBOOT_DISPOSITION_CANCEL (Some (str "got it!")).

Definition fastboot_handle_command (w : session) : session :=
  let w := emit (E_set_text TEXT_HANDLING_COMMAND) w in
  let w := set_buffer
             (write_at (buffer w) (Z.to_nat (buffer_used w)) [NUL]) w in
  if strncmp (buffer w) (str "getvar:") 7 =? 0 then
    let variable := skipn 7 (buffer w) in
    if strcmp variable (str "version") =? 0 then
      fastboot_enter_send_response w FASTBOOT_RESPONSE_OKAY
        FASTBOOT_DISPOSITION_CANCEL (Some (str "0.4"))
    else if strcmp variable (str "product") =? 0 then
      fastboot_enter_send_response w FASTBOOT_RESPONSE_OKAY
        FASTBOOT_DISPOSITION_CANCEL (Some (str "Nyx"))
    else if strcmp variable (str "max-download-size") =? 0 then
      let message := s_printf_08X (fastboot_download_capacity p) in
      fastboot_enter_send_response w FASTBOOT_RESPONSE_OKAY
        FASTBOOT_DISPOSITION_CANCEL (Some message)
    else
      fastboot_enter_send_response w FASTBOOT_RESPONSE_FAIL
        FASTBOOT_DISPOSITION_CANCEL (Some (str "unknown variable"))
  else if strcmp (buffer w) (str "reboot-bootloader") =? 0 then
    let w := fastboot_enter_send_response w FASTBOOT_RESPONSE_OKAY
               FASTBOOT_DISPOSITION_CANCEL (Some (str "")) in
    let w := emit (E_usbd_end false true) w in
    emit E_reload_nyx w
  else if strncmp (buffer w) (str "download:") 9 =? 0 then
    let '(parsed_int_ok, size) := parse_size (buffer w) 9 8 0 in
    if negb parsed_int_ok then
      fastboot_enter_send_response w FASTBOOT_RESPONSE_FAIL
        FASTBOOT_DISPOSITION_CANCEL (Some (str "failed to parse size"))
    else if size >? fastboot_download_capacity p then
      fastboot_enter_send_response w FASTBOOT_RESPONSE_FAIL
        FASTBOOT_DISPOSITION_CANCEL (Some (str "download size too large"))
    else
      let w := set_download 0 size 0 w in
      let message := s_printf_08x size in
      fastboot_enter_send_response w FASTBOOT_RESPONSE_DATA
        FASTBOOT_DISPOSITION_DOWNLOAD (Some message)
  else
    let message := unknown_command_message (buffer w) in
    fastboot_enter_send_response w FASTBOOT_RESPONSE_FAIL
      FASTBOOT_DISPOSITION_CANCEL (Some message).

Definition fastboot_state_initial (w : session) : session :=
  fastboot_enter_receive_host_command w.

(** A read that answers 0 has stored the transfer, at most the 64 bytes
    asked, and its byte count. *)
Definition fastboot_state_receive_host_command (w : session) : session :=
  let r := next_reply w in
  let len := Z.of_nat BUFFER_BYTES - 1 in
  let got := firstn (Z.to_nat len) (bytes r) in
  let w := emit (E_usb_device_read_ep1_out INTO_RX_BUFFER len (rc r)) w in
  let w := if rc r =? 0
           then set_buffer_used (Z.of_nat (length got))
                  (set_buffer (write_at (buffer w) 0 got) w)
           else w in
  let '(ok, w) := fastboot_check_code w (rc r) in
  if negb ok then w
  else fastboot_handle_command w.

(** The write, and only when it is done the disposition.  A write that
    answers 0 has stored its byte count in [buffer_used]. *)
Definition fastboot_state_send_response (w : session) : session :=
  let r := next_reply w in
  let frame := cstr (buffer w) in
  let w := emit (E_usb_device_write_ep1_in frame (rc r)) w in
  let w := if rc r =? 0
           then set_buffer_used (Z.of_nat (length frame)) w
           else w in
  let '(ok, w) := fastboot_check_code w (rc r) in
  if negb ok then w
  else if overlay w =? disposition_val FASTBOOT_DISPOSITION_CANCEL
  then fastboot_enter_receive_host_command w
  else if overlay w =? disposition_val FASTBOOT_DISPOSITION_DOWNLOAD
  then fastboot_enter_download w
  else w.

(** The rest of the download is asked in one transfer. *)
Definition fastboot_state_download (w : session) : session :=
  let r := next_reply w in
  let len := u32 (download_size w - download_head w) in
  let got := firstn (Z.to_nat len) (bytes r) in
  let w := emit (E_usb_device_read_ep1_out
                   (INTO_DOWNLOAD_BUFFER (download_head w)) len (rc r)) w in
  let w := if rc r =? 0
           then set_download (download_head w) (download_size w)
                  (Z.of_nat (length got)) w
           else w in
  let '(ok, w) := fastboot_check_code w (rc r) in
  if negb ok then w
  else
    let w := set_download (u32 (download_head w + download_amount w))
               (download_size w) (download_amount w) w in
    fastboot_enter_download w.

Definition _system_maintenance (w : session) : session :=
  let time := tmr (next_reply w) in
  let w := emit (E_get_tmr_ms time) w in
  if timer_dram w <? time then
    let w := emit E_minerva_periodic_training w in
    let t := tmr (next_reply w) in
    let w := emit (E_get_tmr_ms t) w in
    set_timers (u32 (t + 100)) (timer_status_bar w) w
  else if timer_status_bar w <? time then
    let w := emit (E_system_maintenance true) w in
    let t := tmr (next_reply w) in
    let w := emit (E_get_tmr_ms t) w in
    set_timers (timer_dram w) (u32 (t + 30000)) w
  else w.

(** One round of the [while] body: [true] when it left through [break].
    The four enumerators are all the values [state] takes, so the
    [default] case has no session to run on. *)
Definition tick (w : session) : bool * session :=
  let r := next_reply w in
  let w := emit (E_usb_device_get_suspended (flag r)) w in
  if flag r then (true, w)
  else
    let w := fastboot_handle_ep0_ctrl w in
    (false,
     match state w with
     | FASTBOOT_STATE_INITIAL => fastboot_state_initial w
     | FASTBOOT_STATE_RECEIVE_HOST_COMMAND =>
         let w := _system_maintenance w in
         fastboot_state_receive_host_command w
     | FASTBOOT_STATE_SEND_RESPONSE => fastboot_state_send_response w
     | FASTBOOT_STATE_DOWNLOAD => fastboot_state_download w
     end).

Fixpoint scheduling_loop (fuel : nat) (w : session) : option session :=
  if status_eqb (status w) FASTBOOT_STATUS_NORMAL then
    match fuel with
    | O => None
    | S fuel' =>
        let '(broke, w) := tick w in
        if broke then Some w else scheduling_loop fuel' w
    end
  else Some w.

Definition fresh_session (dram bar : Z) : session :=
  Build_session FASTBOOT_STATUS_NORMAL FASTBOOT_STATE_INITIAL 0 0
    (repeat NUL BUFFER_BYTES) 0 0 0 dram bar [].

(** [usb_device_gadget_fastboot]: the result and the final session, or
    [None] when the loop outlasts [fuel] rounds. *)
Definition usb_device_gadget_fastboot (fuel : nat) (dram bar : Z)
  : option (Z * session) :=
  let res := 0 in
  let w := emit (E_set_text TEXT_STARTED_USB) (fresh_session dram bar) in
  let r := next_reply w in
  let w := emit (E_usb_device_init (rc r)) w in
  if negb (rc r =? 0) then
    let w := emit (E_usbd_end false true) w in
    Some (1, w)
  else
    let r := next_reply w in
    let w := emit (E_usb_device_ep0_initialize (rc r)) w in
    if negb (rc r =? 0) then
      let w := emit (E_set_text TEXT_TIMED_OUT) w in
      let res := 1 in
      let w := emit (E_usbd_end true false) w in
      Some (res, w)
    else
      match scheduling_loop fuel w with
      | None => None
      | Some w =>
          let w := emit (E_set_text TEXT_ENDED) w in
          let w := emit (E_usbd_end true false) w in
          Some (res, w)
      end.

End Driver.

(** The frames given to the transport, oldest first. *)
Fixpoint frames_written (l : list event) : list (list ascii) :=
  match l with
  | [] => []
  | E_usb_device_write_ep1_in frame _ :: rest => frame :: frames_written rest
  | _ :: rest => frames_written rest
  end.

(** A session in ReceiveHostCommand. *)
Definition listening : session :=
  Build_session FASTBOOT_STATUS_NORMAL FASTBOOT_STATE_RECEIVE_HOST_COMMAND
    0 0 (repeat NUL BUFFER_BYTES) 0 0 0 0 0 [].

(** A session whose read has just stored [line]. *)
Definition holding (line : string) : session :=
  Build_session FASTBOOT_STATUS_NORMAL FASTBOOT_STATE_RECEIVE_HOST_COMMAND
    0 (Z.of_nat (length (str line)))
    (write_at (repeat NUL BUFFER_BYTES) 0 (str line)) 0 0 0 0 0 [].

(** [n] rounds of the loop body, one after the other. *)
Fixpoint ticks (p : platform) (n : nat) (w : session) : session :=
  match n with
  | O => w
  | S n' => ticks p n' (snd (tick p w))
  end.

(** The scenario of the documents: [download:00000010] and then 16 bytes
    of payload. *)
Definition sixteen_bytes : platform :=
  example_platform
    (delivering [(5%nat, "download:00000010"%string);
                 (13%nat, "0123456789abcdef"%string)]).

(** The buffer as the interpreter reads it, with the terminator it stores
    at index [buffer_used], and the line in it. *)
Definition terminated (w : session) : list ascii :=
  write_at (buffer w) (Z.to_nat (buffer_used w)) [NUL].

Definition line (w : session) : list ascii := cstr (terminated w).

End Earlier.

(** * The status ratchet *)

Lemma status_val_inj (a b : fastboot_status) :
  status_val a = status_val b -> a = b.
Proof. destruct a, b; simpl; intros H; try reflexivity; discriminate H. Qed.

Lemma status_eqb_eq (a b : fastboot_status) :
  status_eqb a b = true <-> a = b.
Proof.
  unfold status_eqb. rewrite Z.eqb_eq. split.
  - apply status_val_inj.
  - intros ->. reflexivity.
Qed.

(** The order of the enumerators is the order of severity. *)
Lemma severity_le_val (a b : fastboot_status) :
  severity_le a b = (status_val a <=? status_val b).
Proof. destruct a, b; reflexivity. Qed.

Lemma severity_lt_val (a b : fastboot_status) :
  severity_lt a b = (status_val a <? status_val b).
Proof. destruct a, b; reflexivity. Qed.

(** C10: for every current status and every requested status,
    [fastboot_set_status] stores the requested status and returns true
    exactly when the current one is below or equal to it in the order
    Normal < ProtocolReset < InvalidState < UsbError < RebootBootloader,
    and otherwise returns false and leaves the session as it was;
    RebootBootloader is strictly above UsbError, and a session at
    ProtocolReset or at UsbError is moved to RebootBootloader. *)
Theorem set_status_by_severity :
  (forall (w : world) (n : fastboot_status),
      fastboot_set_status w n
      = (severity_le (status w) n,
         if severity_le (status w) n then set_status n w else w))
  /\ (forall (w : world) (n : fastboot_status),
         status (snd (fastboot_set_status w n))
         = if severity_le (status w) n then n else status w)
  /\ severity_lt FASTBOOT_STATUS_USB_ERROR FASTBOOT_STATUS_REBOOT_BOOTLOADER
     = true
  /\ (forall w : world,
         fastboot_set_status (set_status FASTBOOT_STATUS_PROTOCOL_RESET w)
           FASTBOOT_STATUS_REBOOT_BOOTLOADER
         = (true, set_status FASTBOOT_STATUS_REBOOT_BOOTLOADER w))
  /\ (forall w : world,
         fastboot_set_status (set_status FASTBOOT_STATUS_USB_ERROR w)
           FASTBOOT_STATUS_REBOOT_BOOTLOADER
         = (true, set_status FASTBOOT_STATUS_REBOOT_BOOTLOADER w)).
Proof.
  assert (step : forall w n,
             fastboot_set_status w n
             = (severity_le (status w) n,
                if severity_le (status w) n then set_status n w else w)).
  { intros w n. unfold fastboot_set_status.
    rewrite severity_le_val.
    destruct (status_val (status w) <=? status_val n); reflexivity. }
  split; [exact step|].
  split.
  { intros w n. rewrite step. simpl.
    destruct (severity_le (status w) n); reflexivity. }
  split; [reflexivity|].
  split; intros w; reflexivity.
Qed.

(** * C strings *)

Definition no_nul (l : list ascii) : Prop := Forall (fun c => c <> NUL) l.

Lemma eqb_NUL_false (c : ascii) : c <> NUL -> Ascii.eqb c NUL = false.
Proof. intros H. apply Ascii.eqb_neq. exact H. Qed.

Lemma cstr_no_nul (l : list ascii) : no_nul (cstr l).
Proof.
  induction l as [|c l IH]; simpl.
  - constructor.
  - destruct (Ascii.eqb c NUL) eqn:E.
    + constructor.
    + constructor; [apply Ascii.eqb_neq; exact E | exact IH].
Qed.

Lemma cstr_app_nul (a b : list ascii) :
  no_nul a -> cstr (a ++ NUL :: b) = a.
Proof.
  induction 1 as [|c a Hc Ha IH]; simpl.
  - reflexivity.
  - rewrite (eqb_NUL_false c Hc). f_equal. exact IH.
Qed.

Lemma cstr_fixed (a : list ascii) : no_nul a -> cstr a = a.
Proof.
  induction 1 as [|c a Hc Ha IH]; simpl.
  - reflexivity.
  - rewrite (eqb_NUL_false c Hc). f_equal. exact IH.
Qed.

Lemma cstr_app (a b : list ascii) :
  no_nul a -> cstr (a ++ b) = a ++ cstr b.
Proof.
  induction 1 as [|c a Hc Ha IH]; simpl.
  - reflexivity.
  - rewrite (eqb_NUL_false c Hc). f_equal. exact IH.
Qed.

Lemma cstr_repeat_nul (n : nat) : cstr (repeat NUL n) = [].
Proof. destruct n; reflexivity. Qed.

Lemma no_nul_firstn (n : nat) (l : list ascii) :
  no_nul l -> no_nul (firstn n l).
Proof.
  intros H. revert n.
  induction H as [|c l Hc Hl IH]; intros [|n]; simpl.
  - constructor.
  - constructor.
  - constructor.
  - constructor; [exact Hc | apply IH].
Qed.

Lemma no_nul_app (a b : list ascii) : no_nul a -> no_nul b -> no_nul (a ++ b).
Proof. intros Ha Hb. apply Forall_app. split; assumption. Qed.

Lemma cstr_length_le (l : list ascii) : (length (cstr l) <= length l)%nat.
Proof.
  induction l as [|c l IH]; simpl; [lia|].
  destruct (Ascii.eqb c NUL); simpl; lia.
Qed.

Lemma strncpy_bytes_length (m : list ascii) (n : nat) :
  length (strncpy_bytes m n) = n.
Proof.
  unfold strncpy_bytes. rewrite length_app, repeat_length.
  pose proof (firstn_le_length n (cstr m)). lia.
Qed.

(** What [strncpy] stores reads back as the string, cut at [n] bytes. *)
Lemma cstr_strncpy_bytes (m : list ascii) (n : nat) :
  cstr (strncpy_bytes m n) = firstn n (cstr m).
Proof.
  unfold strncpy_bytes.
  rewrite cstr_app by (apply no_nul_firstn, cstr_no_nul).
  rewrite cstr_repeat_nul. apply app_nil_r.
Qed.

Lemma response_tag_no_nul (type : fastboot_response_type) :
  no_nul (response_tag type).
Proof.
  destruct type; repeat constructor; discriminate.
Qed.

Lemma response_tag_length (type : fastboot_response_type) :
  length (response_tag type) = 4%nat.
Proof. destruct type; reflexivity. Qed.

Lemma response_buffer_length type message :
  length (response_buffer type message) = BUFFER_BYTES.
Proof.
  unfold response_buffer. rewrite length_app, response_tag_length.
  destruct message.
  - rewrite strncpy_bytes_length. reflexivity.
  - rewrite repeat_length. reflexivity.
Qed.

(** The frame of a response: the tag and at most 60 bytes of message. *)
Lemma response_frame_some type (m : list ascii) :
  response_frame type (Some m)
  = response_tag type ++ firstn (BUFFER_BYTES - 4) (cstr m).
Proof.
  unfold response_frame, response_buffer.
  rewrite cstr_app by apply response_tag_no_nul.
  rewrite cstr_strncpy_bytes. reflexivity.
Qed.

(** [memset], [strcpy] of the tag and [strncpy] of the message leave
    [response_buffer] in a buffer of 65 bytes. *)
Lemma tx_buffer_built type message :
  match message with
  | Some m =>
      strncpy (strcpy (repeat NUL BUFFER_BYTES) (response_tag type)) 4 m
        (BUFFER_BYTES - 4)
  | None => strcpy (repeat NUL BUFFER_BYTES) (response_tag type)
  end = response_buffer type message.
Proof.
  unfold response_buffer. destruct message as [m|].
  - unfold strncpy, write_at. rewrite strncpy_bytes_length.
    destruct type; cbn [response_tag]; simpl; rewrite app_nil_r;
      reflexivity.
  - destruct type; reflexivity.
Qed.

(** * Response emission *)

Section Emission.

Variable p : platform.

Lemma set_tx_buffer_twice (a b : list ascii) (w : world) :
  set_tx_buffer a (set_tx_buffer b w) = set_tx_buffer a w.
Proof. reflexivity. Qed.

Lemma tx_buffer_set (a : list ascii) (w : world) :
  tx_buffer (set_tx_buffer a w) = a.
Proof. reflexivity. Qed.

(** [fastboot_send_response] is: build the buffer, resolve the
    disposition, arm the write. *)
Lemma send_response_with_eq (f : world -> world) (w : world) type d message :
  fastboot_send_response_with p f w type d message
  = fastboot_tx_enter_send_response p
      (match d with
       | FASTBOOT_DISPOSITION_NORMAL => fastboot_rx_enter_command p
       | FASTBOOT_DISPOSITION_DOWNLOAD => f
       | FASTBOOT_DISPOSITION_REBOOT_BOOTLOADER =>
           fastboot_rx_enter_waiting_tx_for_reboot_bootloader
       end (set_tx_buffer (response_buffer type message) w)).
Proof.
  unfold fastboot_send_response_with. cbv zeta.
  rewrite <- (tx_buffer_built type message).
  destruct message as [m|]; rewrite ?tx_buffer_set, ?set_tx_buffer_twice;
    destruct d; reflexivity.
Qed.

(** The nested call is the ordinary one. *)
Lemma send_response_nested_eq (w : world) type message :
  fastboot_send_response_nested p w type FASTBOOT_DISPOSITION_NORMAL message
  = fastboot_send_response p w type FASTBOOT_DISPOSITION_NORMAL message.
Proof.
  unfold fastboot_send_response_nested, fastboot_send_response.
  rewrite !send_response_with_eq. reflexivity.
Qed.

End Emission.

(** * Reading a field through the updates of a session *)

(** Projections of the setters compute; nothing else is unfolded. *)
Ltac wsimpl :=
  cbn [status rx_state tx_state tight_turnaround rx_buffer rx_length
       download_head download_size download_amount tx_buffer tx_length
       timer_dram timer_status_bar ep1_out_len log
       set_status set_rx_state set_tx_state set_tight_turnaround set_rx
       set_download set_tx_buffer set_timers set_ep1_out_len
       emit fst snd].

Ltac wsimpl_in H :=
  cbn [status rx_state tx_state tight_turnaround rx_buffer rx_length
       download_head download_size download_amount tx_buffer tx_length
       timer_dram timer_status_bar ep1_out_len log
       set_status set_rx_state set_tx_state set_tight_turnaround set_rx
       set_download set_tx_buffer set_timers set_ep1_out_len
       emit fst snd] in H.

Lemma if_same {A : Type} (c : bool) (x : A) : (if c then x else x) = x.
Proof. destruct c; reflexivity. Qed.

Lemma app_if {A B : Type} (f : A -> B) (c : bool) (a b : A) :
  f (if c then a else b) = if c then f a else f b.
Proof. destruct c; reflexivity. Qed.

(** [fastboot_set_status] writes the status and nothing else. *)
Lemma set_status_frame (w : world) (s : fastboot_status) :
  snd (fastboot_set_status w s)
  = set_status (if severity_le (status w) s then s else status w) w.
Proof.
  unfold fastboot_set_status. rewrite severity_le_val.
  destruct (_ <=? _); [reflexivity|]. destruct w; reflexivity.
Qed.

Lemma rx_state_raised (w : world) (s : fastboot_status) :
  rx_state (snd (fastboot_set_status w s)) = rx_state w.
Proof. rewrite set_status_frame. reflexivity. Qed.

Lemma tx_state_raised (w : world) (s : fastboot_status) :
  tx_state (snd (fastboot_set_status w s)) = tx_state w.
Proof. rewrite set_status_frame. reflexivity. Qed.

Lemma tight_turnaround_raised (w : world) (s : fastboot_status) :
  tight_turnaround (snd (fastboot_set_status w s)) = tight_turnaround w.
Proof. rewrite set_status_frame. reflexivity. Qed.

Lemma rx_buffer_raised (w : world) (s : fastboot_status) :
  rx_buffer (snd (fastboot_set_status w s)) = rx_buffer w.
Proof. rewrite set_status_frame. reflexivity. Qed.

Lemma rx_length_raised (w : world) (s : fastboot_status) :
  rx_length (snd (fastboot_set_status w s)) = rx_length w.
Proof. rewrite set_status_frame. reflexivity. Qed.

Lemma download_head_raised (w : world) (s : fastboot_status) :
  download_head (snd (fastboot_set_status w s)) = download_head w.
Proof. rewrite set_status_frame. reflexivity. Qed.

Lemma download_size_raised (w : world) (s : fastboot_status) :
  download_size (snd (fastboot_set_status w s)) = download_size w.
Proof. rewrite set_status_frame. reflexivity. Qed.

Lemma download_amount_raised (w : world) (s : fastboot_status) :
  download_amount (snd (fastboot_set_status w s)) = download_amount w.
Proof. rewrite set_status_frame. reflexivity. Qed.

Lemma tx_buffer_raised (w : world) (s : fastboot_status) :
  tx_buffer (snd (fastboot_set_status w s)) = tx_buffer w.
Proof. rewrite set_status_frame. reflexivity. Qed.

Lemma tx_length_raised (w : world) (s : fastboot_status) :
  tx_length (snd (fastboot_set_status w s)) = tx_length w.
Proof. rewrite set_status_frame. reflexivity. Qed.

Lemma timer_dram_raised (w : world) (s : fastboot_status) :
  timer_dram (snd (fastboot_set_status w s)) = timer_dram w.
Proof. rewrite set_status_frame. reflexivity. Qed.

Lemma timer_status_bar_raised (w : world) (s : fastboot_status) :
  timer_status_bar (snd (fastboot_set_status w s)) = timer_status_bar w.
Proof. rewrite set_status_frame. reflexivity. Qed.

Lemma ep1_out_len_raised (w : world) (s : fastboot_status) :
  ep1_out_len (snd (fastboot_set_status w s)) = ep1_out_len w.
Proof. rewrite set_status_frame. reflexivity. Qed.

Lemma log_raised (w : world) (s : fastboot_status) :
  log (snd (fastboot_set_status w s)) = log w.
Proof. rewrite set_status_frame. reflexivity. Qed.

Lemma status_raised (w : world) (s : fastboot_status) :
  status (snd (fastboot_set_status w s))
  = if severity_le (status w) s then s else status w.
Proof. rewrite set_status_frame. reflexivity. Qed.

Create Rewrite HintDb world.

#[global] Hint Rewrite @if_same status_raised
  rx_state_raised
  tx_state_raised
  tight_turnaround_raised
  rx_buffer_raised
  rx_length_raised
  download_head_raised
  download_size_raised
  download_amount_raised
  tx_buffer_raised
  tx_length_raised
  timer_dram_raised
  timer_status_bar_raised
  ep1_out_len_raised
  log_raised
  : world.

#[global] Hint Rewrite
  (app_if status)
  (app_if rx_state)
  (app_if tx_state)
  (app_if tight_turnaround)
  (app_if rx_buffer)
  (app_if rx_length)
  (app_if download_head)
  (app_if download_size)
  (app_if download_amount)
  (app_if tx_buffer)
  (app_if tx_length)
  (app_if timer_dram)
  (app_if timer_status_bar)
  (app_if ep1_out_len)
  (app_if log)
  : world.

Ltac norm := repeat (progress (wsimpl; autorewrite with world)).

Ltac norm_in H :=
  repeat (progress (wsimpl_in H; autorewrite with world in H)).

(** * The order of arming in [fastboot_send_response] *)

Section Arming.

Variable p : platform.

Lemma snoc_two {A : Type} (l : list A) (a b : A) :
  (l ++ [a]) ++ [b] = l ++ [a] ++ [b].
Proof. rewrite <- app_assoc. reflexivity. Qed.

Lemma snoc_three {A : Type} (l : list A) (a b c : A) :
  ((l ++ [a]) ++ [b]) ++ [c] = l ++ [a; b] ++ [c].
Proof. rewrite <- !app_assoc. reflexivity. Qed.

Lemma snoc_row {A : Type} (l : list A) (a b c : A) :
  ((l ++ [a]) ++ [b]) ++ [c] = l ++ [a; b; c].
Proof. rewrite <- !app_assoc. reflexivity. Qed.

Lemma armed_normal (w : world) type message :
  rx_armed_before_tx p w type FASTBOOT_DISPOSITION_NORMAL message.
Proof.
  unfold rx_armed_before_tx, fastboot_send_response. cbv zeta.
  rewrite send_response_with_eq.
  unfold fastboot_tx_enter_send_response, fastboot_rx_enter_command,
    next_reply.
  cbv zeta. norm.
  eexists. eexists. split; [|split].
  - apply snoc_two.
  - split; [eexists; reflexivity | reflexivity].
  - reflexivity.
Qed.

Lemma armed_reboot (w : world) type message :
  rx_armed_before_tx p w type FASTBOOT_DISPOSITION_REBOOT_BOOTLOADER message.
Proof.
  unfold rx_armed_before_tx, fastboot_send_response. cbv zeta.
  rewrite send_response_with_eq.
  unfold fastboot_tx_enter_send_response,
    fastboot_rx_enter_waiting_tx_for_reboot_bootloader, next_reply.
  cbv zeta. norm.
  exists []. eexists. split; [|split].
  - reflexivity.
  - split; reflexivity.
  - reflexivity.
Qed.

Lemma armed_download (w : world) type message :
  download_head w < download_size w ->
  rx_armed_before_tx p w type FASTBOOT_DISPOSITION_DOWNLOAD message.
Proof.
  intros Hlt. apply Z.ltb_lt in Hlt.
  unfold rx_armed_before_tx, fastboot_send_response. cbv zeta.
  rewrite send_response_with_eq.
  unfold fastboot_tx_enter_send_response, fastboot_rx_enter_download,
    next_reply.
  cbv zeta. norm. rewrite Hlt. norm.
  eexists. eexists. split; [|split].
  - apply snoc_three.
  - split; [do 3 eexists; reflexivity | reflexivity].
  - reflexivity.
Qed.

(** C1 (as amended): in every call of [fastboot_send_response] whose
    disposition is Normal or RebootBootloader, and in every call whose
    disposition is Download while [download_head < download_size], the
    disposition is resolved first (Normal arms the Command read, Download
    arms the Download read, RebootBootloader sets the
    WaitingTxForRebootBootloader gate and arms no read) and the write of
    the response is armed after it, as the last call made. *)
Theorem send_response_arms_rx_first (w : world) type d message :
  (d = FASTBOOT_DISPOSITION_DOWNLOAD -> download_head w < download_size w) ->
  rx_armed_before_tx p w type d message.
Proof.
  intros Hd. destruct d.
  - apply armed_normal.
  - apply armed_download. apply Hd. reflexivity.
  - apply armed_reboot.
Qed.

End Arming.

Lemma send_response_arms_rx_first_witness :
  rx_armed_before_tx (example_platform (always ok_reply))
    (set_download 0 16 0 (holding "download:00000010"))
    FASTBOOT_RESPONSE_DATA FASTBOOT_DISPOSITION_DOWNLOAD
    (Some (s_printf_08x 16)).
Proof.
  apply send_response_arms_rx_first. intros _. simpl. lia.
Defined.

(** C1 as stated fails for a download of size 0: the call with disposition
    Download arms no Download read and leaves RX in Command. *)
Lemma send_response_download_of_nothing :
  ~ rx_armed_before_tx (example_platform (always ok_reply))
      (set_download 0 0 0 (holding "download:00000000"))
      FASTBOOT_RESPONSE_DATA FASTBOOT_DISPOSITION_DOWNLOAD
      (Some (s_printf_08x 0)).
Proof.
  unfold rx_armed_before_tx. cbv zeta.
  intros (calls & c & _ & (_ & Hrx) & _).
  vm_compute in Hrx. discriminate Hrx.
Qed.

(** * String comparison *)

Lemma code_inj (a b : ascii) : code a = code b -> a = b.
Proof.
  unfold code. intros H. apply N2Z.inj in H.
  rewrite <- (ascii_N_embedding a), <- (ascii_N_embedding b), H.
  reflexivity.
Qed.

Lemma cstr_peek (a : list ascii) :
  cstr a = if Ascii.eqb (peek a) NUL then [] else peek a :: cstr (tl a).
Proof. destruct a as [|c a]; reflexivity. Qed.

(** [strncmp] is zero exactly when the two strings agree on their first
    [n] bytes. *)
Lemma strncmp_zero (n : nat) (a b : list ascii) :
  strncmp a b n = 0 <-> firstn n (cstr a) = firstn n (cstr b).
Proof.
  revert a b. induction n as [|n IH]; intros a b; simpl.
  - split; reflexivity.
  - rewrite (cstr_peek a), (cstr_peek b).
    destruct (Ascii.eqb (peek a) (peek b)) eqn:Eab; simpl.
    + apply Ascii.eqb_eq in Eab. rewrite <- Eab.
      destruct (Ascii.eqb (peek a) NUL) eqn:Ea; simpl.
      * split; reflexivity.
      * rewrite IH. split.
        -- intros ->. reflexivity.
        -- intros H. injection H as H. exact H.
    + apply Ascii.eqb_neq in Eab. split.
      * intros H. exfalso. apply Eab. apply code_inj. lia.
      * intros H. exfalso.
        destruct (Ascii.eqb (peek a) NUL) eqn:Ea;
          destruct (Ascii.eqb (peek b) NUL) eqn:Eb; simpl in H.
        -- apply Ascii.eqb_eq in Ea, Eb. congruence.
        -- discriminate H.
        -- discriminate H.
        -- injection H as H _. contradiction.
Qed.

Lemma strcmp_zero (a b : list ascii) :
  strcmp a b = 0 <-> cstr a = cstr b.
Proof.
  unfold strcmp. rewrite strncmp_zero.
  pose proof (cstr_length_le a). pose proof (cstr_length_le b).
  rewrite !firstn_all2 by lia. reflexivity.
Qed.

Lemma str_no_nul_dec (l : list ascii) :
  forallb (fun c => negb (Ascii.eqb c NUL)) l = true -> no_nul l.
Proof.
  intros H. apply Forall_forall. intros c Hc.
  rewrite forallb_forall in H. specialize (H c Hc).
  apply negb_true_iff in H. apply Ascii.eqb_neq. exact H.
Qed.

(** Comparing with a literal of [n] bytes over [n] bytes: the line starts
    with the literal. *)
Lemma strncmp_literal (a lit : list ascii) :
  no_nul lit ->
  strncmp a lit (length lit) = 0 <-> firstn (length lit) (cstr a) = lit.
Proof.
  intros Hlit. rewrite strncmp_zero.
  rewrite (cstr_fixed lit Hlit), firstn_all. reflexivity.
Qed.

Lemma strcmp_literal (a lit : list ascii) :
  no_nul lit -> strcmp a lit = 0 <-> cstr a = lit.
Proof.
  intros Hlit. rewrite strcmp_zero, (cstr_fixed lit Hlit). reflexivity.
Qed.

Lemma eqb_zero_false (x : Z) : x <> 0 -> (x =? 0) = false.
Proof. intros H. apply Z.eqb_neq. exact H. Qed.

(** The tests of the interpreter, read on the line. *)
Lemma test_getvar (buf : list ascii) :
  (strncmp buf (str "getvar:") 7 =? 0) = true
  <-> starts_with "getvar:" (cstr buf).
Proof.
  rewrite Z.eqb_eq. apply (strncmp_literal buf (str "getvar:")).
  apply str_no_nul_dec. reflexivity.
Qed.

Lemma test_reboot (buf : list ascii) :
  (strcmp buf (str "reboot-bootloader") =? 0) = true
  <-> cstr buf = str "reboot-bootloader".
Proof.
  rewrite Z.eqb_eq. apply strcmp_literal.
  apply str_no_nul_dec. reflexivity.
Qed.

Lemma test_download (buf : list ascii) :
  (strncmp buf (str "download:") 9 =? 0) = true
  <-> starts_with "download:" (cstr buf).
Proof.
  rewrite Z.eqb_eq. apply (strncmp_literal buf (str "download:")).
  apply str_no_nul_dec. reflexivity.
Qed.

Lemma not_true_false (b : bool) : ~ b = true -> b = false.
Proof. destruct b; intros H; [contradiction H|]; reflexivity. Qed.

(** * The message of the unknown-command branch *)

Lemma cstr_cut (n : nat) (a r r' : list ascii) :
  no_nul a -> cstr (firstn n (a ++ NUL :: r) ++ NUL :: r') = firstn n a.
Proof.
  intros Ha. rewrite firstn_app.
  destruct (Nat.le_gt_cases n (length a)) as [Hle|Hgt].
  - replace (n - length a)%nat with O by lia. simpl. rewrite app_nil_r.
    apply cstr_app_nul. apply no_nul_firstn. exact Ha.
  - rewrite (firstn_all2 a) by lia.
    destruct (n - length a)%nat as [|k] eqn:Ek; [lia|]. simpl.
    rewrite <- app_assoc. simpl. apply cstr_app_nul. exact Ha.
Qed.

(** The message is the prefix and the line, cut at 60 bytes. *)
Lemma cstr_unknown_command_message (command : list ascii) :
  cstr (unknown_command_message command)
  = firstn 60 (str "unknown command: " ++ cstr command).
Proof.
  unfold unknown_command_message. cbv zeta.
  change (61 - length (cstr unknown_command_message_init))%nat with 44%nat.
  unfold strncat.
  change (length (cstr unknown_command_message_init)) with 17%nat.
  unfold write_at at 2.
  change (firstn 17 unknown_command_message_init)
    with (str "unknown command: ").
  unfold write_at. rewrite <- app_assoc. simpl ([NUL] ++ _).
  rewrite app_assoc.
  rewrite cstr_cut.
  - change 60%nat with (length (str "unknown command: ") + 43)%nat.
    rewrite !firstn_app_2. f_equal.
    rewrite firstn_firstn. reflexivity.
  - apply no_nul_app.
    + apply str_no_nul_dec. reflexivity.
    + apply no_nul_firstn. apply cstr_no_nul.
Qed.



(** * The command interpreter *)

Section Interpreter.

Variable p : platform.

(** A response of disposition Normal, sent by the interpreter. *)
Lemma answered_normal (w : world) type message :
  let w' := fastboot_send_response p
              (emit (G_handle_command (rx_state w) (tx_state w)) w)
              type FASTBOOT_DISPOSITION_NORMAL message in
  answered_with w w' (response_frame type message)
  /\ download_untouched w w'
  /\ tight_turnaround w' = tight_turnaround w
  /\ tx_buffer w' = response_buffer type message.
Proof.
  cbv zeta. unfold fastboot_send_response.
  rewrite send_response_with_eq.
  unfold fastboot_tx_enter_send_response, fastboot_rx_enter_command,
    next_reply.
  cbv zeta. split; [|split; [|split]].
  - unfold answered_with. norm.
    eexists. eexists. split; [|split; [|split]].
    + apply snoc_row.
    + reflexivity.
    + reflexivity.
    + intros H1 H2. rewrite H2, H1. reflexivity.
  - unfold download_untouched. norm. repeat split.
  - norm. reflexivity.
  - norm. reflexivity.
Qed.



End Interpreter.


(** * Parsing the size *)

(** The three range tests of the loop against the digits of the
    documents, byte by byte. *)
Lemma classify_byte (ch : ascii) :
  (if is_between "0" "9" ch
   then is_hex_digit ch
        && (code ch - code (peek (str "0")) =? hex_value ch)
   else if is_between "a" "f" ch
   then is_hex_digit ch
        && (code ch - code (peek (str "a")) + 10 =? hex_value ch)
   else if is_between "A" "F" ch
   then is_hex_digit ch
        && (code ch - code (peek (str "A")) + 10 =? hex_value ch)
   else negb (is_hex_digit ch))
  && (0 <=? hex_value ch) && (hex_value ch <? 16) = true.
Proof.
  destruct ch as [[] [] [] [] [] [] [] []]; vm_compute; reflexivity.
Qed.

Lemma hex_value_range (ch : ascii) : 0 <= hex_value ch < 16.
Proof.
  pose proof (classify_byte ch) as H.
  apply andb_prop in H. destruct H as [H H2].
  apply andb_prop in H. destruct H as [_ H1].
  apply Z.leb_le in H1. apply Z.ltb_lt in H2. lia.
Qed.

(** One round of the loop. *)
Lemma parse_size_round (buf : list ascii) (i n : nat) (acc : Z) :
  parse_size buf i (S n) acc
  = if is_hex_digit (nth i buf NUL)
    then parse_size buf (S i) n
           (Z.lor (u32 (Z.shiftl acc 4)) (hex_value (nth i buf NUL)))
    else (false, u32 (Z.shiftl acc 4)).
Proof.
  cbn [parse_size]. cbv zeta.
  pose proof (classify_byte (nth i buf NUL)) as H.
  apply andb_prop in H. destruct H as [H _].
  apply andb_prop in H. destruct H as [H _].
  destruct (is_between "0" "9" (nth i buf NUL)).
  { apply andb_prop in H. destruct H as [-> H].
    apply Z.eqb_eq in H. rewrite H. reflexivity. }
  destruct (is_between "a" "f" (nth i buf NUL)).
  { apply andb_prop in H. destruct H as [-> H].
    apply Z.eqb_eq in H. rewrite H. reflexivity. }
  destruct (is_between "A" "F" (nth i buf NUL)).
  { apply andb_prop in H. destruct H as [-> H].
    apply Z.eqb_eq in H. rewrite H. reflexivity. }
  apply negb_true_iff in H. rewrite H. reflexivity.
Qed.

(** Shifting in a nibble: no bit of the 32 is lost while the number still
    fits, and the OR adds the digit. *)
Lemma shift_in_nibble (acc d : Z) :
  0 <= acc -> 16 * acc < 2 ^ 32 -> 0 <= d < 16 ->
  Z.lor (u32 (Z.shiftl acc 4)) d = 16 * acc + d.
Proof.
  intros Hacc Hfit Hd. unfold u32.
  rewrite Z.shiftl_mul_pow2 by lia.
  change (2 ^ 4) with 16.
  rewrite Z.mod_small by lia.
  rewrite <- Z.lxor_lor, <- Z.add_nocarry_lxor; try lia.
  - apply Z.bits_inj'. intros k Hk.
    rewrite Z.land_spec, Z.bits_0.
    destruct (Z.lt_ge_cases k 4) as [Hlow|Hhigh].
    + change 16 with (2 ^ 4). rewrite Z.mul_pow2_bits_low by lia.
      reflexivity.
    + rewrite <- (Z.mod_small d (2 ^ 4)) by (change (2 ^ 4) with 16; lia).
      rewrite Z.mod_pow2_bits_high by lia.
      apply andb_false_r.
  - apply Z.bits_inj'. intros k Hk.
    rewrite Z.land_spec, Z.bits_0.
    destruct (Z.lt_ge_cases k 4) as [Hlow|Hhigh].
    + change 16 with (2 ^ 4). rewrite Z.mul_pow2_bits_low by lia.
      reflexivity.
    + rewrite <- (Z.mod_small d (2 ^ 4)) by (change (2 ^ 4) with 16; lia).
      rewrite Z.mod_pow2_bits_high by lia.
      apply andb_false_r.
Qed.

Lemma skipn_nth (i : nat) (buf : list ascii) :
  (i < length buf)%nat -> skipn i buf = nth i buf NUL :: skipn (S i) buf.
Proof.
  revert buf. induction i as [|i IH]; intros [|c buf] Hlen;
    simpl in Hlen; try lia.
  - reflexivity.
  - simpl. rewrite (IH buf) by lia. reflexivity.
Qed.

(** The loop finds whether the [n] bytes from [i] on are hex digits, and
    then has the number they write. *)
Lemma parse_size_spec (n : nat) (buf : list ascii) (i : nat) (acc : Z) :
  (i + n <= length buf)%nat ->
  0 <= acc -> (acc + 1) * 16 ^ Z.of_nat n <= 2 ^ 32 ->
  fst (parse_size buf i n acc)
  = forallb is_hex_digit (firstn n (skipn i buf))
  /\ (forallb is_hex_digit (firstn n (skipn i buf)) = true ->
      snd (parse_size buf i n acc)
      = fold_left add_digit (firstn n (skipn i buf)) acc).
Proof.
  revert i acc. induction n as [|n IH]; intros i acc Hlen Hacc Hfit.
  - simpl. split; reflexivity.
  - rewrite parse_size_round.
    rewrite (skipn_nth i buf) by lia.
    cbn [firstn forallb fold_left].
    destruct (is_hex_digit (nth i buf NUL)) eqn:Ehex.
    + assert (Hpow : 16 ^ Z.of_nat (S n) = 16 * 16 ^ Z.of_nat n).
      { rewrite Nat2Z.inj_succ, Z.pow_succ_r by lia. reflexivity. }
      assert (Hp : 0 < 16 ^ Z.of_nat n) by (apply Z.pow_pos_nonneg; lia).
      pose proof (hex_value_range (nth i buf NUL)) as Hd.
      rewrite Hpow in Hfit.
      rewrite shift_in_nibble by nia.
      simpl andb. apply IH; unfold add_digit; try lia. nia.
    + simpl. split; [reflexivity | discriminate].
Qed.

Lemma hex_number_fold (digits : list ascii) :
  hex_number digits = fold_left add_digit digits 0.
Proof. reflexivity. Qed.

(** The loop of the interpreter on a buffer of 65 bytes. *)
Lemma parse_size_window (buf : list ascii) :
  length buf = BUFFER_BYTES ->
  parse_size buf 9 8 0
  = if forallb is_hex_digit (size_window buf)
    then (true, hex_number (size_window buf))
    else (false, snd (parse_size buf 9 8 0)).
Proof.
  intros Hlen.
  destruct (parse_size_spec 8 buf 9 0) as [Hfst Hsnd].
  - rewrite Hlen. unfold BUFFER_BYTES. lia.
  - lia.
  - reflexivity.
  - fold (size_window buf) in Hfst, Hsnd.
    destruct (forallb is_hex_digit (size_window buf)).
    + rewrite (surjective_pairing (parse_size buf 9 8 0)).
      rewrite Hfst, (Hsnd eq_refl). reflexivity.
    + rewrite (surjective_pairing (parse_size buf 9 8 0)) at 1.
      rewrite Hfst. reflexivity.
Qed.

(** * The download command *)

Section Download.

Variable p : platform.

Lemma download_is_not_getvar (l : list ascii) :
  starts_with "download:" l -> ~ starts_with "getvar:" l.
Proof.
  unfold starts_with. intros Hd Hg.
  assert (H : firstn 7 (firstn 9 l) = firstn 7 (str "download:")).
  { f_equal. exact Hd. }
  rewrite firstn_firstn in H. simpl Nat.min in H.
  simpl length in Hg. rewrite Hg in H. discriminate H.
Qed.

Lemma download_is_not_reboot (l : list ascii) :
  starts_with "download:" l -> l <> str "reboot-bootloader".
Proof.
  unfold starts_with. intros Hd Hr. rewrite Hr in Hd. discriminate Hd.
Qed.

(** The [download:] branch, by the bytes of the size window. *)
Lemma handle_download (w : world) :
  length (rx_buffer w) = BUFFER_BYTES ->
  starts_with "download:" (line w) ->
  fastboot_handle_command p w
  = let w1 := emit (G_handle_command (rx_state w) (tx_state w)) w in
    let size := hex_number (size_window (rx_buffer w)) in
    if forallb is_hex_digit (size_window (rx_buffer w)) then
      if size >? fastboot_download_capacity p then
        fastboot_send_response p w1 FASTBOOT_RESPONSE_FAIL
          FASTBOOT_DISPOSITION_NORMAL
          (Some (str "download size too large"))
      else
        fastboot_send_response p (set_download 0 size 0 w1)
          FASTBOOT_RESPONSE_DATA FASTBOOT_DISPOSITION_DOWNLOAD
          (Some (s_printf_08x size))
    else
      fastboot_send_response p w1 FASTBOOT_RESPONSE_FAIL
        FASTBOOT_DISPOSITION_NORMAL (Some (str "failed to parse size")).
Proof.
  intros Hlen Hd. unfold line in Hd.
  unfold fastboot_handle_command. cbv zeta. wsimpl.
  rewrite (not_true_false (strncmp _ (str "getvar:") 7 =? 0))
    by (rewrite test_getvar; apply download_is_not_getvar; exact Hd).
  rewrite (not_true_false (strcmp _ (str "reboot-bootloader") =? 0))
    by (rewrite test_reboot; apply download_is_not_reboot; exact Hd).
  rewrite (proj2 (test_download (rx_buffer w)) Hd).
  rewrite (parse_size_window _ Hlen).
  destruct (forallb is_hex_digit (size_window (rx_buffer w))); reflexivity.
Qed.

Lemma has_bad_digit (l : list ascii) :
  (exists ch, In ch l /\ is_hex_digit ch = false) ->
  forallb is_hex_digit l = false.
Proof.
  intros (ch & Hin & Hbad).
  destruct (forallb is_hex_digit l) eqn:E; [|reflexivity].
  rewrite forallb_forall in E. rewrite (E ch Hin) in Hbad. discriminate.
Qed.

(** C5: a [download:] line with a byte that is no hex digit among the 8
    bytes after the colon is answered [FAILfailed to parse size], one whose
    8 hex digits write a size above the capacity is answered
    [FAILdownload size too large]; in both cases the download fields keep
    their values, RX is back in Command with its read armed, and the
    status is the one before (so Normal stays Normal) as long as the
    transport accepts the read and the write. *)
Theorem malformed_download_answer (w : world) :
  length (rx_buffer w) = BUFFER_BYTES ->
  starts_with "download:" (line w) ->
  let w' := fastboot_handle_command p w in
  let window := size_window (rx_buffer w) in
  ((exists ch, In ch window /\ is_hex_digit ch = false) ->
   answered_with w w' (str "FAILfailed to parse size")
   /\ download_untouched w w')
  /\ (forallb is_hex_digit window = true ->
      hex_number window > fastboot_download_capacity p ->
      answered_with w w' (str "FAILdownload size too large")
      /\ download_untouched w w').
Proof.
  intros Hlen Hd. cbv zeta. rewrite (handle_download w Hlen Hd). cbv zeta.
  split.
  - intros Hbad. rewrite (has_bad_digit _ Hbad).
    pose proof (answered_normal p w FASTBOOT_RESPONSE_FAIL
                  (Some (str "failed to parse size"))) as H.
    cbv zeta in H. destruct H as (Hans & Hdl & _).
    split; [exact Hans | exact Hdl].
  - intros Hhex Hbig. rewrite Hhex.
    apply Z.gt_lt, Z.gtb_lt in Hbig. rewrite Hbig.
    pose proof (answered_normal p w FASTBOOT_RESPONSE_FAIL
                  (Some (str "download size too large"))) as H.
    cbv zeta in H. destruct H as (Hans & Hdl & _).
    split; [exact Hans | exact Hdl].
Qed.

End Download.

Lemma malformed_download_answer_witness :
  (answered_with (holding "download:0000zz10")
     (fastboot_handle_command (example_platform (always ok_reply))
        (holding "download:0000zz10"))
     (str "FAILfailed to parse size")
   /\ download_untouched (holding "download:0000zz10")
        (fastboot_handle_command (example_platform (always ok_reply))
           (holding "download:0000zz10")))
  /\ (answered_with (holding "download:08000001")
        (fastboot_handle_command (example_platform (always ok_reply))
           (holding "download:08000001"))
        (str "FAILdownload size too large")
      /\ download_untouched (holding "download:08000001")
           (fastboot_handle_command (example_platform (always ok_reply))
              (holding "download:08000001"))).
Proof.
  split.
  - refine (proj1 (malformed_download_answer
                     (example_platform (always ok_reply))
                     (holding "download:0000zz10") _ _) _).
    + reflexivity.
    + reflexivity.
    + exists "z"%char. split; [vm_compute; tauto | reflexivity].
  - refine (proj2 (malformed_download_answer
                     (example_platform (always ok_reply))
                     (holding "download:08000001") _ _) _ _).
    + reflexivity.
    + reflexivity.
    + reflexivity.
    + reflexivity.
Defined.

(** * Receiving a command line *)

(** A transfer stored at the front of a buffer and terminated: the bytes,
    a NUL, and behind it what the buffer held before. *)
Lemma terminated_reception (buf d : list ascii) :
  (length d < length buf)%nat ->
  write_at (write_at buf 0 d) (length d) [NUL]
  = d ++ NUL :: skipn (S (length d)) buf.
Proof.
  intros Hlen. unfold write_at. simpl firstn. simpl app.
  rewrite firstn_app, firstn_all, Nat.sub_diag. simpl firstn.
  rewrite app_nil_r. f_equal. simpl length. f_equal.
  rewrite skipn_app, skipn_all2 by lia. simpl app.
  replace (length d + 1 - length d)%nat with 1%nat by lia.
  rewrite skipn_skipn. reflexivity.
Qed.

Lemma starts_with_split (prefix : string) (d : list ascii) :
  starts_with prefix d -> d = str prefix ++ skipn (length (str prefix)) d.
Proof.
  unfold starts_with. intros H.
  rewrite <- H at 1. symmetry. rewrite H at 1.
  rewrite <- H at 1. apply firstn_skipn.
Qed.

Section Reception.

Variable p : platform.

(** The Command state when its poll answers 0. *)
Lemma rx_state_command_done (w : world) :
  rc (next_reply p w) = 0 ->
  fastboot_rx_state_command p w
  = let got := delivered w (next_reply p w) in
    fastboot_rx_enter_waiting_tx_for_process
      (set_rx (write_at (write_at (rx_buffer w) 0 got)
                 (Z.to_nat (Z.of_nat (length got))) [NUL])
         (Z.of_nat (length got))
         (emit (E_usb_device_ep1_out_reading_poll 0
                  (bytes (next_reply p w))) w)).
Proof.
  intros Hrc. unfold fastboot_rx_state_command. cbv zeta.
  rewrite Hrc. reflexivity.
Qed.

(** C9 (as amended): the driver puts a NUL at index [rx_length] of the
    receive buffer, whatever the bytes behind it; so every received line
    that begins with [download:] and is shorter than 17 bytes has a byte
    that is no hex digit in its size window at or before index
    [rx_length], and is answered [FAILfailed to parse size], for every
    earlier content of the buffer. *)
Theorem short_download_line_fails (w : world) :
  length (rx_buffer w) = BUFFER_BYTES ->
  ep1_out_len w = FASTBOOT_COMMAND_BUFFER_SIZE ->
  tx_state w = FASTBOOT_TX_STATE_IDLE ->
  rc (next_reply p w) = 0 ->
  starts_with "download:" (bytes (next_reply p w)) ->
  (length (bytes (next_reply p w)) < 17)%nat ->
  let received := bytes (next_reply p w) in
  let w1 := fastboot_rx_state_command p w in
  let w2 := fastboot_rx_state_waiting_tx_for_process p w1 in
  rx_state w1 = FASTBOOT_RX_STATE_WAITING_TX_FOR_PROCESS
  /\ rx_length w1 = Z.of_nat (length received)
  /\ firstn (length received) (rx_buffer w1) = received
  /\ nth (length received) (rx_buffer w1) NUL = NUL
  /\ answered_with (fastboot_rx_enter_idle w1) w2
       (str "FAILfailed to parse size").
Proof.
  intros Hbuf Hlen Htx Hrc Hstart Hshort. cbv zeta.
  rewrite (rx_state_command_done w Hrc). cbv zeta.
  unfold delivered. rewrite Hlen.
  set (d := bytes (next_reply p w)) in *.
  rewrite (firstn_all2 d)
    by (change (Z.to_nat FASTBOOT_COMMAND_BUFFER_SIZE) with 64%nat; lia).
  rewrite Nat2Z.id.
  rewrite terminated_reception
    by (rewrite Hbuf; unfold BUFFER_BYTES; lia).
  unfold fastboot_rx_enter_waiting_tx_for_process,
    fastboot_rx_state_waiting_tx_for_process, fastboot_rx_enter_idle.
  wsimpl. rewrite Htx.
  split; [reflexivity|]. split; [reflexivity|].
  split; [rewrite firstn_app, firstn_all, Nat.sub_diag; apply app_nil_r|].
  split; [rewrite app_nth2, Nat.sub_diag by lia; reflexivity|].
  match goal with
  | |- answered_with ?a (fastboot_handle_command p ?a) _ => set (w1 := a)
  end.
  assert (Hline : starts_with "download:" (line w1)).
  { unfold line, w1. wsimpl.
    rewrite (starts_with_split _ d Hstart).
    rewrite <- app_assoc.
    rewrite cstr_app by (apply str_no_nul_dec; reflexivity).
    unfold starts_with.
    rewrite firstn_app, firstn_all, Nat.sub_diag. apply app_nil_r. }
  assert (Hsize : length (rx_buffer w1) = BUFFER_BYTES).
  { unfold w1. wsimpl. rewrite length_app. cbn [length].
    rewrite length_skipn, Hbuf. unfold BUFFER_BYTES. lia. }
  assert (Hbad : exists ch, In ch (size_window (rx_buffer w1))
                            /\ is_hex_digit ch = false).
  { exists NUL. split; [|reflexivity].
    unfold w1, size_window. wsimpl.
    pose proof (starts_with_split _ d Hstart) as Hsplit.
    change (length (str "download:")) with 9%nat in Hsplit.
    assert (Hd2 : (length (skipn 9 d) < 8)%nat)
      by (rewrite length_skipn; lia).
    set (d2 := skipn 9 d) in *.
    rewrite Hsplit at 1. rewrite <- app_assoc.
    match goal with
    | |- context [skipn 9 (str "download:" ++ ?X)] =>
        change (skipn 9 (str "download:" ++ X)) with X
    end.
    rewrite firstn_app. apply in_or_app. right.
    destruct (8 - length d2)%nat as [|k] eqn:Ek; [lia|].
    cbn [firstn In]. left. reflexivity. }
  rewrite (handle_download p w1 Hsize Hline). cbv zeta.
  rewrite (has_bad_digit _ Hbad).
  pose proof (answered_normal p w1 FASTBOOT_RESPONSE_FAIL
                (Some (str "failed to parse size"))) as H.
  cbv zeta in H. destruct H as (Hans & _). exact Hans.
Qed.

End Reception.

Lemma short_download_line_fails_witness :
  answered_with
    (fastboot_rx_enter_idle
       (fastboot_rx_state_command
          (example_platform (delivering [(O, "download:12"%string)]))
          listening))
    (fastboot_rx_state_waiting_tx_for_process
       (example_platform (delivering [(O, "download:12"%string)]))
       (fastboot_rx_state_command
          (example_platform (delivering [(O, "download:12"%string)]))
          listening))
    (str "FAILfailed to parse size").
Proof.
  refine (proj2 (proj2 (proj2 (proj2
            (short_download_line_fails
               (example_platform (delivering [(O, "download:12"%string)]))
               listening _ _ _ _ _ _))))).
  - reflexivity.
  - reflexivity.
  - reflexivity.
  - reflexivity.
  - reflexivity.
  - vm_compute. lia.
Defined.

Lemma at_loop_head_ticks (p : platform) (n : nat) (w : world) :
  keeps_running p n w = true ->
  at_loop_head p w -> at_loop_head p (ticks p n w).
Proof.
  revert w. induction n as [|n IH]; intros w Hrun Hw; simpl.
  - exact Hw.
  - simpl in Hrun.
    apply andb_prop in Hrun. destruct Hrun as [Hrun Hrest].
    apply andb_prop in Hrun. destruct Hrun as [Hst Hbrk].
    apply IH; [exact Hrest|].
    apply head_next.
    + exact Hw.
    + apply status_eqb_eq. exact Hst.
    + apply negb_true_iff. exact Hbrk.
Qed.

(** C9 as stated fails in its premise: after the line [getvar:version] and
    then the line [download:] the receive buffer holds [download:], the
    NUL, and then the bytes [sion] of the line before. *)
Lemma receive_buffer_keeps_stale_bytes :
  ~ (forall w : world, at_loop_head two_lines w -> zero_filled_beyond_used w).
Proof.
  intros H.
  specialize (H (ticks two_lines 3 (session_at_loop two_lines 0 0))).
  assert (Hhead : at_loop_head two_lines
                    (ticks two_lines 3 (session_at_loop two_lines 0 0))).
  { apply at_loop_head_ticks.
    - vm_compute. reflexivity.
    - apply head_first; reflexivity. }
  specialize (H Hhead 10%nat).
  assert (Hin : (Z.to_nat (rx_length (ticks two_lines 3
                                        (session_at_loop two_lines 0 0)))
                 <= 10 < length (rx_buffer (ticks two_lines 3
                                        (session_at_loop two_lines 0 0))))%nat).
  { vm_compute. split; [lia | lia]. }
  specialize (H Hin). vm_compute in H. discriminate H.
Qed.

Lemma frames_written_app (l l' : list event) :
  frames_written (l ++ l') = frames_written l ++ frames_written l'.
Proof.
  induction l as [|e l IH]; simpl; [reflexivity|].
  destruct e; simpl; rewrite IH; reflexivity.
Qed.

(** * An accepted download *)

Lemma hex_digit_value (upper : bool) (d : Z) :
  0 <= d < 16 ->
  hex_value (hex_digit upper d) = d
  /\ is_hex_digit (hex_digit upper d) = true.
Proof.
  intros Hd.
  assert (H : d = 0 \/ d = 1 \/ d = 2 \/ d = 3 \/ d = 4 \/ d = 5 \/ d = 6
              \/ d = 7 \/ d = 8 \/ d = 9 \/ d = 10 \/ d = 11 \/ d = 12
              \/ d = 13 \/ d = 14 \/ d = 15) by lia.
  repeat (destruct H as [-> | H]); try subst d;
    destruct upper; split; reflexivity.
Qed.

Lemma hex_digits_length (upper : bool) (n : nat) (v : Z) :
  length (hex_digits upper n v) = n.
Proof.
  induction n as [|n IH]; simpl; [reflexivity|]. rewrite IH. reflexivity.
Qed.

Lemma nibble_range (v : Z) (n : nat) : 0 <= (v / 16 ^ Z.of_nat n) mod 16 < 16.
Proof. apply Z.mod_pos_bound. lia. Qed.

Lemma hex_digits_are_hex (upper : bool) (n : nat) (v : Z) :
  forallb is_hex_digit (hex_digits upper n v) = true.
Proof.
  induction n as [|n IH]; simpl; [reflexivity|].
  rewrite IH, andb_true_r.
  apply (hex_digit_value upper _ (nibble_range v n)).
Qed.

Lemma hex_digits_no_nul (upper : bool) (n : nat) (v : Z) :
  no_nul (hex_digits upper n v).
Proof.
  apply Forall_forall. intros c Hc.
  pose proof (hex_digits_are_hex upper n v) as H.
  rewrite forallb_forall in H. specialize (H c Hc).
  intros ->. discriminate H.
Qed.

(** Reading back the digits that were printed. *)
Lemma fold_hex_digits (upper : bool) (n : nat) (v acc : Z) :
  fold_left add_digit (hex_digits upper n v) acc
  = acc * 16 ^ Z.of_nat n + v mod 16 ^ Z.of_nat n.
Proof.
  revert acc. induction n as [|n IH]; intros acc.
  - simpl. rewrite Z.mod_1_r. lia.
  - cbn [hex_digits fold_left]. rewrite IH. unfold add_digit.
    rewrite (proj1 (hex_digit_value upper _ (nibble_range v n))).
    rewrite Nat2Z.inj_succ, Z.pow_succ_r by lia.
    assert (Hp : 0 < 16 ^ Z.of_nat n) by (apply Z.pow_pos_nonneg; lia).
    rewrite (Z.mul_comm 16 (16 ^ Z.of_nat n)).
    rewrite (Z.rem_mul_r v (16 ^ Z.of_nat n) 16) by lia.
    ring.
Qed.

Lemma hex_number_digits (upper : bool) (v : Z) :
  0 <= v < 2 ^ 32 -> hex_number (hex_digits upper 8 v) = v.
Proof.
  intros Hv. unfold hex_number. rewrite fold_hex_digits.
  change (16 ^ Z.of_nat 8) with (2 ^ 32).
  rewrite Z.mod_small by lia. lia.
Qed.

Section Accepted.

Variable p : platform.

(** The line [download:] and the 8 hex digits of a size [S] with
    [0 < S <= C], in either case of the letters: the download fields are
    reset to [S], the first chunk is asked of the transport and RX is in
    Download, and then the response [DATA] with the 8 lowercase digits of
    [S] is armed. *)
Lemma download_accepted (w : world) (upper : bool) (S : Z) :
  length (rx_buffer w) = BUFFER_BYTES ->
  firstn 17 (rx_buffer w) = str "download:" ++ hex_digits upper 8 S ->
  0 < S <= fastboot_download_capacity p -> S < 2 ^ 32 ->
  let w' := fastboot_handle_command p w in
  (exists c1 c2 : Z,
      log w' = log w
               ++ [G_handle_command (rx_state w) (tx_state w);
                   E_set_text (TEXT_DOWNLOADING 0 (S / 1024));
                   E_usb_device_read_ep1_out (INTO_DOWNLOAD_BUFFER 0)
                     (MIN S (USB_EP_BUFFER_MAX_SIZE p)) c1;
                   E_usb_device_write_ep1_in
                     (str "DATA" ++ hex_digits false 8 S) c2])
  /\ download_head w' = 0 /\ download_size w' = S /\ download_amount w' = 0
  /\ rx_state w' = FASTBOOT_RX_STATE_DOWNLOAD
  /\ tx_state w' = FASTBOOT_TX_STATE_SEND_RESPONSE.
Proof.
  intros Hlen Hline HS Hfit. cbv zeta.
  pose proof (firstn_skipn 17 (rx_buffer w)) as Hbuf.
  rewrite Hline in Hbuf.
  assert (Hstart : starts_with "download:" (line w)).
  { unfold line. rewrite <- Hbuf, <- app_assoc.
    rewrite cstr_app by (apply str_no_nul_dec; reflexivity).
    reflexivity. }
  assert (Hwin : size_window (rx_buffer w) = hex_digits upper 8 S).
  { rewrite <- Hbuf, <- app_assoc. unfold size_window.
    change (skipn 9 (str "download:" ++ ?x)) with x.
    rewrite firstn_app, hex_digits_length, Nat.sub_diag.
    rewrite firstn_all2 by (rewrite hex_digits_length; lia).
    apply app_nil_r. }
  rewrite (handle_download p w Hlen Hstart). cbv zeta.
  rewrite Hwin, hex_digits_are_hex, hex_number_digits by lia.
  replace (S >? fastboot_download_capacity p) with false
    by (symmetry; apply not_true_false; rewrite Z.gtb_lt; lia).
  unfold fastboot_send_response. rewrite send_response_with_eq.
  unfold fastboot_rx_enter_download. wsimpl.
  replace (0 <? S) with true by (symmetry; apply Z.ltb_lt; lia).
  unfold fastboot_tx_enter_send_response, next_reply.
  cbv zeta. norm.
  fold (response_frame FASTBOOT_RESPONSE_DATA (Some (s_printf_08x S))).
  rewrite response_frame_some. unfold s_printf_08x.
  rewrite cstr_app_nul by apply hex_digits_no_nul.
  rewrite firstn_all2 by (rewrite hex_digits_length; unfold BUFFER_BYTES; lia).
  rewrite Z.sub_0_r. unfold u32. rewrite Z.mod_small by lia.
  change (0 / 1024) with 0.
  split; [|repeat split].
  eexists. eexists. rewrite <- !app_assoc. reflexivity.
Qed.

(** The Download state when its poll answers 0 and bytes are still due:
    the next chunk is asked for, and no response is armed. *)
Lemma download_continues (w : world) :
  rc (next_reply p w) = 0 ->
  let n := Z.of_nat (length (delivered w (next_reply p w))) in
  u32 (download_head w + n) < download_size w ->
  let w' := fastboot_rx_state_download p w in
  download_head w' = u32 (download_head w + n)
  /\ rx_state w' = FASTBOOT_RX_STATE_DOWNLOAD
  /\ tx_state w' = tx_state w
  /\ frames_written (log w') = frames_written (log w).
Proof.
  intros Hrc n Hmore. cbv zeta. unfold delivered in n.
  unfold fastboot_rx_state_download. cbv zeta. rewrite Hrc.
  change (0 =? 0) with true. cbv iota.
  unfold fastboot_rx_enter_download, delivered. wsimpl. fold n.
  replace (u32 (download_head w + n) <? download_size w) with true
    by (symmetry; apply Z.ltb_lt; exact Hmore).
  norm. repeat split.
  rewrite !frames_written_app. simpl. rewrite !app_nil_r. reflexivity.
Qed.

(** The Download state when its poll answers 0 and the last byte is in:
    the Command read is armed and then the response [OKAYgot it!]. *)
Lemma download_completes (w : world) :
  rc (next_reply p w) = 0 ->
  let n := Z.of_nat (length (delivered w (next_reply p w))) in
  download_size w <= u32 (download_head w + n) ->
  let w' := fastboot_rx_state_download p w in
  frames_written (log w') = frames_written (log w) ++ [str "OKAYgot it!"]
  /\ rx_state w' = FASTBOOT_RX_STATE_COMMAND
  /\ tx_state w' = FASTBOOT_TX_STATE_SEND_RESPONSE
  /\ tight_turnaround w' = false.
Proof.
  intros Hrc n Hdone. cbv zeta. unfold delivered in n.
  unfold fastboot_rx_state_download. cbv zeta. rewrite Hrc.
  change (0 =? 0) with true. cbv iota.
  unfold fastboot_rx_enter_download, delivered. wsimpl. fold n.
  replace (u32 (download_head w + n) <? download_size w) with false
    by (symmetry; apply Z.ltb_ge; exact Hdone).
  unfold fastboot_send_response_nested. rewrite send_response_with_eq.
  unfold fastboot_tx_enter_send_response, fastboot_rx_enter_command,
    next_reply.
  cbv zeta. norm. repeat split.
  rewrite !frames_written_app. simpl. rewrite !app_nil_r. reflexivity.
Qed.

End Accepted.

(** The scenario of the documents, run: the two frames, in order. *)
Example download_of_sixteen_bytes :
  frames_written
    (log (ticks sixteen_bytes 3 (session_at_loop sixteen_bytes 0 0)))
  = [str "DATA00000010"; str "OKAYgot it!"].
Proof. vm_compute. reflexivity. Qed.

(** * A download of size zero *)

Section NothingToDownload.

Variable p : platform.

(** The Download disposition when nothing is left to read: the response
    [OKAYgot it!] is built over the one just built and its write is armed
    by the nested call, and then the outer call arms the write of the same
    buffer again. *)
Lemma send_response_download_done (w : world) type message :
  download_size w <= download_head w ->
  let w' := fastboot_send_response p w type FASTBOOT_DISPOSITION_DOWNLOAD
              message in
  (exists c1 c2 c3 : Z,
      log w' = log w
               ++ [E_usb_device_read_ep1_out INTO_RX_BUFFER
                     FASTBOOT_COMMAND_BUFFER_SIZE c1;
                   E_usb_device_write_ep1_in (str "OKAYgot it!") c2;
                   E_usb_device_write_ep1_in (str "OKAYgot it!") c3])
  /\ download_untouched w w'
  /\ rx_state w' = FASTBOOT_RX_STATE_COMMAND
  /\ tx_state w' = FASTBOOT_TX_STATE_SEND_RESPONSE
  /\ tight_turnaround w' = false.
Proof.
  intros Hdone. apply Z.ltb_ge in Hdone. cbv zeta.
  unfold fastboot_send_response. rewrite send_response_with_eq.
  unfold fastboot_rx_enter_download. wsimpl. rewrite Hdone.
  unfold fastboot_send_response_nested. rewrite send_response_with_eq.
  unfold fastboot_tx_enter_send_response, fastboot_rx_enter_command,
    next_reply, download_untouched.
  cbv zeta. norm.
  split; [|repeat split].
  do 3 eexists. apply snoc_row.
Qed.

(** C2, at its failing input: on the line [download:00000000], a size
    within every capacity, the interpreter sets the download fields to 0
    and then re-arms the Command read and hands the transport the frame
    [OKAYgot it!] twice; no write of [DATA00000000] is armed and no
    Download read. *)
Theorem download_of_size_zero (w : world) :
  length (rx_buffer w) = BUFFER_BYTES ->
  firstn 17 (rx_buffer w) = str "download:00000000" ->
  0 <= fastboot_download_capacity p ->
  let w' := fastboot_handle_command p w in
  (exists c1 c2 c3 : Z,
      log w' = log w
               ++ [G_handle_command (rx_state w) (tx_state w);
                   E_usb_device_read_ep1_out INTO_RX_BUFFER
                     FASTBOOT_COMMAND_BUFFER_SIZE c1;
                   E_usb_device_write_ep1_in (str "OKAYgot it!") c2;
                   E_usb_device_write_ep1_in (str "OKAYgot it!") c3])
  /\ download_head w' = 0 /\ download_size w' = 0 /\ download_amount w' = 0
  /\ rx_state w' = FASTBOOT_RX_STATE_COMMAND
  /\ tx_state w' = FASTBOOT_TX_STATE_SEND_RESPONSE.
Proof.
  intros Hlen Hline Hcap. cbv zeta.
  pose proof (firstn_skipn 17 (rx_buffer w)) as Hbuf.
  rewrite Hline in Hbuf.
  assert (Hstart : starts_with "download:" (line w)).
  { unfold line. rewrite <- Hbuf.
    rewrite cstr_app by (apply str_no_nul_dec; reflexivity).
    reflexivity. }
  assert (Hwin : size_window (rx_buffer w) = str "00000000").
  { rewrite <- Hbuf. reflexivity. }
  rewrite (handle_download p w Hlen Hstart). cbv zeta.
  rewrite Hwin.
  change (forallb is_hex_digit (str "00000000")) with true.
  change (hex_number (str "00000000")) with 0.
  cbv iota.
  replace (0 >? fastboot_download_capacity p) with false
    by (symmetry; apply not_true_false; rewrite Z.gtb_lt; lia).
  match goal with
  | |- context [fastboot_send_response p ?a ?t _ ?m] =>
      pose proof (send_response_download_done a t m) as H
  end.
  cbv zeta in H. wsimpl_in H.
  destruct (H (Z.le_refl 0)) as ((c1 & c2 & c3 & Hlog) & Hdl & Hrx & Htx & _).
  destruct Hdl as (Hh & Hs & Ha). wsimpl_in Hh. wsimpl_in Hs. wsimpl_in Ha.
  split; [|repeat split; assumption].
  exists c1, c2, c3. rewrite Hlog. rewrite <- app_assoc. reflexivity.
Qed.

End NothingToDownload.

Lemma download_of_size_zero_witness :
  frames_written
    (log (fastboot_handle_command (example_platform (always ok_reply))
            (holding "download:00000000")))
  = [str "OKAYgot it!"; str "OKAYgot it!"].
Proof.
  destruct (download_of_size_zero (example_platform (always ok_reply))
              (holding "download:00000000"))
    as ((c1 & c2 & c3 & Hlog) & _).
  - reflexivity.
  - reflexivity.
  - simpl. lia.
  - rewrite Hlog. reflexivity.
Defined.

(** * The status never goes down *)

Lemma severity_le_true (a b : fastboot_status) :
  severity_le a b = true -> status_val a <= status_val b.
Proof. rewrite severity_le_val. apply Z.leb_le. Qed.

(** Splits on the tests met on the way and closes the comparison of the
    two statuses. *)
Ltac status_cases :=
  norm;
  repeat match goal with
    | |- context [if ?c then _ else _] => destruct c eqn:?; norm
    end;
  try lia;
  try match goal with
    | H : severity_le _ _ = true |- _ => apply severity_le_true in H; lia
    end.

Lemma raises_only_compose (f g : world -> world) :
  raises_only f -> raises_only g -> raises_only (fun w => g (f w)).
Proof.
  intros Hf Hg w. specialize (Hf w). specialize (Hg (f w)). simpl. lia.
Qed.

Section Ratchet.

Variable p : platform.

Lemma raises_only_set_status (s : fastboot_status) :
  raises_only (fun w => snd (fastboot_set_status w s)).
Proof. intros w. status_cases. Qed.

Lemma raises_only_handle_ep0_ctrl : raises_only (fastboot_handle_ep0_ctrl p).
Proof. intros w. unfold fastboot_handle_ep0_ctrl. cbv zeta. status_cases. Qed.

Lemma raises_only_rx_enter_command :
  raises_only (fastboot_rx_enter_command p).
Proof.
  intros w. unfold fastboot_rx_enter_command. cbv zeta. status_cases.
Qed.

Lemma raises_only_tx_enter_send_response :
  raises_only (fastboot_tx_enter_send_response p).
Proof.
  intros w. unfold fastboot_tx_enter_send_response. cbv zeta. status_cases.
Qed.

Lemma raises_only_send_response_with (f : world -> world) type d message :
  raises_only f ->
  raises_only (fun w => fastboot_send_response_with p f w type d message).
Proof.
  intros Hf w. rewrite send_response_with_eq.
  pose proof (raises_only_tx_enter_send_response) as Htx.
  destruct d.
  - pose proof (raises_only_rx_enter_command
                  (set_tx_buffer (response_buffer type message) w)) as H1.
    specialize (Htx (fastboot_rx_enter_command p
                       (set_tx_buffer (response_buffer type message) w))).
    wsimpl_in H1. lia.
  - pose proof (Hf (set_tx_buffer (response_buffer type message) w)) as H1.
    specialize (Htx (f (set_tx_buffer (response_buffer type message) w))).
    wsimpl_in H1. lia.
  - specialize (Htx (fastboot_rx_enter_waiting_tx_for_reboot_bootloader
                       (set_tx_buffer (response_buffer type message) w))).
    unfold fastboot_rx_enter_waiting_tx_for_reboot_bootloader in Htx.
    unfold fastboot_rx_enter_waiting_tx_for_reboot_bootloader.
    wsimpl_in Htx. exact Htx.
Qed.

Lemma raises_only_rx_enter_download :
  raises_only (fastboot_rx_enter_download p).
Proof.
  intros w. unfold fastboot_rx_enter_download. cbv zeta.
  destruct (download_head w <? download_size w).
  - status_cases.
  - pose proof (raises_only_send_response_with (fun w => w)
                  FASTBOOT_RESPONSE_OKAY FASTBOOT_DISPOSITION_NORMAL
                  (Some (str "got it!"))) as H.
    specialize (H (fun w => Z.le_refl _) (set_tight_turnaround false w)).
    exact H.
Qed.

Lemma raises_only_send_response type d message :
  raises_only (fun w => fastboot_send_response p w type d message).
Proof.
  apply raises_only_send_response_with. apply raises_only_rx_enter_download.
Qed.

Lemma raises_only_handle_command : raises_only (fastboot_handle_command p).
Proof.
  intros w. unfold fastboot_handle_command. cbv zeta.
  destruct (parse_size _ 9 8 0) as [parsed_int_ok download_size].
  repeat match goal with
    | |- context [if ?c then _ else _] => destruct c
    end;
    match goal with
    | |- _ <= status_val (status (fastboot_send_response p ?a ?t ?d ?m)) =>
        pose proof (raises_only_send_response t d m a) as H;
        wsimpl_in H; exact H
    end.
Qed.

Lemma raises_only_system_maintenance : raises_only (_system_maintenance p).
Proof. intros w. unfold _system_maintenance. cbv zeta. status_cases. Qed.

Lemma raises_only_rx_state_command :
  raises_only (fastboot_rx_state_command p).
Proof.
  intros w. unfold fastboot_rx_state_command,
    fastboot_rx_enter_waiting_tx_for_process.
  cbv zeta. status_cases.
Qed.

Lemma raises_only_rx_state_download :
  raises_only (fastboot_rx_state_download p).
Proof.
  intros w. unfold fastboot_rx_state_download. cbv zeta.
  destruct (rc (next_reply p w) =? 0).
  - match goal with
    | |- _ <= status_val (status (fastboot_rx_enter_download p ?a)) =>
        pose proof (raises_only_rx_enter_download a) as H;
        wsimpl_in H; exact H
    end.
  - status_cases.
Qed.

Lemma raises_only_rx_state_waiting_tx_for_process :
  raises_only (fastboot_rx_state_waiting_tx_for_process p).
Proof.
  intros w. unfold fastboot_rx_state_waiting_tx_for_process,
    fastboot_rx_enter_idle.
  destruct (tx_state w); try lia.
  pose proof (raises_only_handle_command
                (set_rx_state FASTBOOT_RX_STATE_IDLE w)) as H.
  wsimpl_in H. exact H.
Qed.

Lemma raises_only_rx_state_waiting_tx_for_reboot_bootloader :
  raises_only fastboot_rx_state_waiting_tx_for_reboot_bootloader.
Proof.
  intros w. unfold fastboot_rx_state_waiting_tx_for_reboot_bootloader,
    fastboot_rx_enter_idle.
  destruct (tx_state w); status_cases.
Qed.

Lemma raises_only_tx_state_send_response :
  raises_only (fastboot_tx_state_send_response p).
Proof.
  intros w. unfold fastboot_tx_state_send_response, fastboot_tx_enter_idle.
  cbv zeta. status_cases.
Qed.

Lemma raises_only_rx_step : raises_only (fun w => snd (rx_step p w)).
Proof.
  intros w. unfold rx_step.
  destruct (rx_state w); cbn [snd].
  - apply raises_only_set_status.
  - unfold fastboot_rx_state_idle. lia.
  - apply raises_only_rx_state_command.
  - apply raises_only_rx_state_download.
  - apply raises_only_rx_state_waiting_tx_for_process.
  - apply raises_only_rx_state_waiting_tx_for_reboot_bootloader.
Qed.

Lemma raises_only_tx_step : raises_only (fun w => snd (tx_step p w)).
Proof.
  intros w. unfold tx_step.
  destruct (tx_state w); cbn [snd].
  - apply raises_only_set_status.
  - unfold fastboot_tx_state_idle. lia.
  - apply raises_only_tx_state_send_response.
Qed.

(** The round, cut at its [break]: what runs before it, and the rest. *)
Lemma tick_eq (w : world) :
  tick p w
  = let w1 := if negb (tight_turnaround w) then _system_maintenance p w
              else w in
    let w2 := emit (E_usb_device_get_suspended (flag (next_reply p w1)))
                w1 in
    if flag (next_reply p w1) then (true, w2)
    else
      let w3 := fastboot_handle_ep0_ctrl p w2 in
      let w4 := snd (rx_step p w3) in
      let w5 := snd (tx_step p w4) in
      (false,
       if negb (tight_turnaround w5)
       then emit (E_set_text (TEXT_STATES (fst (rx_step p w3))
                                (fst (tx_step p w4)))) w5
       else w5).
Proof.
  unfold tick. cbv zeta.
  destruct (flag _); [reflexivity|].
  destruct (rx_step p _) as [rx_state_name w4].
  cbn [fst snd].
  destruct (tx_step p w4) as [tx_state_name w5].
  reflexivity.
Qed.

Lemma raises_only_tick : raises_only (fun w => snd (tick p w)).
Proof.
  intros w. rewrite tick_eq. cbv zeta.
  set (w1 := if negb (tight_turnaround w) then _system_maintenance p w
             else w).
  assert (H1 : status_val (status w) <= status_val (status w1)).
  { unfold w1. destruct (negb (tight_turnaround w)).
    - apply raises_only_system_maintenance.
    - lia. }
  set (w2 := emit (E_usb_device_get_suspended (flag (next_reply p w1))) w1).
  assert (H2 : status (w2) = status w1) by reflexivity.
  destruct (flag (next_reply p w1)); cbn [snd].
  - rewrite H2. exact H1.
  - pose proof (raises_only_handle_ep0_ctrl w2) as H3.
    pose proof (raises_only_rx_step (fastboot_handle_ep0_ctrl p w2)) as H4.
    pose proof (raises_only_tx_step
                  (snd (rx_step p (fastboot_handle_ep0_ctrl p w2)))) as H5.
    cbv beta in H4, H5.
    match goal with
    | |- _ <= status_val (status (if ?c then emit ?e ?a else ?a)) =>
        replace (status (if c then emit e a else a)) with (status a)
          by (destruct c; reflexivity)
    end.
    rewrite H2 in H3. lia.
Qed.

(** The loop stops where the status is not Normal, and otherwise runs one
    round and goes on from there. *)
Lemma scheduling_loop_stopped (fuel : nat) (w : world) :
  status w <> FASTBOOT_STATUS_NORMAL -> scheduling_loop p fuel w = Some w.
Proof.
  intros Hs.
  assert (E : status_eqb (status w) FASTBOOT_STATUS_NORMAL = false).
  { apply not_true_false. rewrite status_eqb_eq. exact Hs. }
  destruct fuel; simpl; rewrite E; reflexivity.
Qed.

Lemma scheduling_loop_round (fuel : nat) (w : world) :
  status w = FASTBOOT_STATUS_NORMAL ->
  scheduling_loop p (S fuel) w
  = if fst (tick p w) then Some (snd (tick p w))
    else scheduling_loop p fuel (snd (tick p w)).
Proof.
  intros Hs. simpl. rewrite Hs. simpl.
  destruct (tick p w) as [broke w']. reflexivity.
Qed.

(** C3: a call of [fastboot_set_status] with a status of lower severity
    than the current one leaves the session as it is; the raise attempts
    Normal, UsbError, ProtocolReset end at UsbError; no round of the loop
    lowers the status; and the round in which the status leaves Normal is
    run to its end and is the last one. *)
Theorem status_is_a_ratchet :
  (forall (w : world) (n : fastboot_status),
      severity_lt n (status w) = true ->
      fastboot_set_status w n = (false, w))
  /\ (forall w : world,
         status (raise_all (set_status FASTBOOT_STATUS_NORMAL w)
                   [FASTBOOT_STATUS_NORMAL; FASTBOOT_STATUS_USB_ERROR;
                    FASTBOOT_STATUS_PROTOCOL_RESET])
         = FASTBOOT_STATUS_USB_ERROR)
  /\ (forall w : world,
         severity_le (status w) (status (snd (tick p w))) = true)
  /\ (forall (fuel : nat) (w : world),
         status w = FASTBOOT_STATUS_NORMAL ->
         status (snd (tick p w)) <> FASTBOOT_STATUS_NORMAL ->
         scheduling_loop p (S fuel) w = Some (snd (tick p w)))
  /\ (forall (fuel : nat) (w : world),
         status w <> FASTBOOT_STATUS_NORMAL ->
         scheduling_loop p fuel w = Some w).
Proof.
  split; [|split; [|split; [|split]]].
  - intros w n H. rewrite severity_lt_val in H. apply Z.ltb_lt in H.
    unfold fastboot_set_status.
    replace (status_val (status w) <=? status_val n) with false
      by (symmetry; apply Z.leb_gt; exact H).
    reflexivity.
  - intros w. reflexivity.
  - intros w. rewrite severity_le_val. apply Z.leb_le.
    apply raises_only_tick.
  - intros fuel w Hs Hafter.
    rewrite (scheduling_loop_round fuel w Hs).
    destruct (fst (tick p w)); [reflexivity|].
    apply scheduling_loop_stopped. exact Hafter.
  - intros fuel w Hs. apply scheduling_loop_stopped. exact Hs.
Qed.

End Ratchet.

(** * Reading the log as it grows *)

Lemma tx_phase_snoc (l : list event) (e : event) :
  tx_phase_of (l ++ [e]) = observe (tx_phase_of l) e.
Proof. unfold tx_phase_of. rewrite fold_left_app. reflexivity. Qed.

Lemma gated_snoc (l : list event) (e : event) :
  interpreter_gated (l ++ [e])
  = interpreter_gated l && interpreter_entry_ok e.
Proof.
  unfold interpreter_gated. rewrite forallb_app. simpl.
  rewrite andb_true_r. reflexivity.
Qed.

Lemma inside_snoc (l : list event) (e : event) :
  forallb inside_loop (l ++ [e]) = forallb inside_loop l && inside_loop e.
Proof. rewrite forallb_app. simpl. rewrite andb_true_r. reflexivity. Qed.

#[global] Hint Rewrite tx_phase_snoc gated_snoc inside_snoc andb_true_r
  : world.

(** Unfolds the invariants, runs the step, and closes what the readings
    decide. *)
Ltac readings :=
  norm;
  cbn [observe interpreter_entry_ok inside_loop rx_is_idle tx_is_idle
       andb];
  norm.

Ltac open_invariants :=
  unfold loop_invariant, before_rx_step, before_tx_step, steady,
    reboot_gate, complete, complete_earlier in *.

(** Splits on every test in the goal. *)
Ltac split_tests :=
  repeat match goal with
    | |- context [if ?c then _ else _] => destruct c eqn:?
    end.

(** A status that only raises to statuses other than RebootBootloader
    have made: it was RebootBootloader before. *)
Ltac still_reboot H :=
  revert H; split_tests; intros H; try discriminate H; try exact H.

Lemma status_raised_reboot (w : world) (s : fastboot_status) :
  s <> FASTBOOT_STATUS_REBOOT_BOOTLOADER ->
  (if severity_le (status w) s then s else status w)
  = FASTBOOT_STATUS_REBOOT_BOOTLOADER ->
  status w = FASTBOOT_STATUS_REBOOT_BOOTLOADER.
Proof. destruct (severity_le (status w) s); congruence. Qed.

Lemma same_standing_refl (w : world) : same_standing w w.
Proof. repeat split. Qed.

Lemma same_standing_loop_invariant (w w' : world) :
  same_standing w w' -> loop_invariant w -> loop_invariant w'.
Proof.
  unfold same_standing. open_invariants.
  intros (-> & -> & -> & -> & -> & -> & ->). tauto.
Qed.

(** * The steps of a round and the invariants *)

Section Rounds.

Variable p : platform.

Lemma system_maintenance_standing (w : world) :
  same_standing w (_system_maintenance p w).
Proof.
  unfold same_standing, _system_maintenance. cbv zeta.
  norm. split_tests; readings; repeat split.
Qed.

(** The part of a round before its [break]. *)
Lemma before_break_keeps (w : world) :
  loop_invariant w ->
  status w = FASTBOOT_STATUS_NORMAL ->
  let w1 := if negb (tight_turnaround w) then _system_maintenance p w
            else w in
  let w2 := emit (E_usb_device_get_suspended (flag (next_reply p w1))) w1 in
  loop_invariant w2 /\ before_rx_step w2.
Proof.
  intros Hinv Hst. cbv zeta.
  set (w1 := if negb (tight_turnaround w) then _system_maintenance p w
             else w).
  assert (Hsame : same_standing w w1).
  { unfold w1. destruct (negb (tight_turnaround w)).
    - apply system_maintenance_standing.
    - apply same_standing_refl. }
  assert (Hinv1 : loop_invariant w1)
    by (apply (same_standing_loop_invariant w); assumption).
  assert (Hst1 : status w1 = FASTBOOT_STATUS_NORMAL).
  { destruct Hsame as (_ & _ & -> & _). exact Hst. }
  clear Hsame Hinv. revert Hinv1 Hst1. generalize w1. clear w1 Hst w.
  intros w. open_invariants.
  intros ((Ht & Hg & Hi) & Hgate & Hreb) Hst.
  readings. rewrite Hst.
  split; (split; [repeat split; assumption|]); split.
  - intros Hrx. specialize (Hgate Hrx).
    destruct (tx_state w).
    + exact Hgate.
    + right. destruct Hgate as [-> | ->]; reflexivity.
    + rewrite Hgate. reflexivity.
  - discriminate.
  - intros Hrx. specialize (Hgate Hrx).
    destruct (tx_state w).
    + exact Hgate.
    + destruct Hgate as [-> | ->]; reflexivity.
    + rewrite Hgate. reflexivity.
  - discriminate.
Qed.

Lemma handle_ep0_ctrl_keeps (w : world) :
  before_rx_step w -> before_rx_step (fastboot_handle_ep0_ctrl p w).
Proof.
  open_invariants. intros ((Ht & Hg & Hi) & Hgate & Hst).
  unfold fastboot_handle_ep0_ctrl. cbv zeta. readings.
  split; [repeat split; assumption|]. split.
  - exact Hgate.
  - intros H. destruct (flag (next_reply p w)).
    + apply status_raised_reboot in H; [contradiction|discriminate].
    + contradiction.
Qed.

(** A response of disposition Normal: RX ends in Command. *)
Lemma send_response_normal_keeps (f : world -> world) (w : world)
  type message :
  steady w -> status w <> FASTBOOT_STATUS_REBOOT_BOOTLOADER ->
  before_tx_step
    (fastboot_send_response_with p f w type FASTBOOT_DISPOSITION_NORMAL
       message).
Proof.
  open_invariants. intros (Ht & Hg & Hi) Hst.
  rewrite send_response_with_eq.
  unfold fastboot_tx_enter_send_response, fastboot_rx_enter_command,
    next_reply.
  cbv zeta. readings.
  split; [repeat split; assumption|]. split.
  - discriminate.
  - intros H. exfalso. apply Hst.
    still_reboot H.
Qed.

Lemma rx_enter_download_keeps (w : world) :
  steady w -> status w <> FASTBOOT_STATUS_REBOOT_BOOTLOADER ->
  let w' := fastboot_rx_enter_download p w in
  steady w'
  /\ status w' <> FASTBOOT_STATUS_REBOOT_BOOTLOADER
  /\ rx_state w' <> FASTBOOT_RX_STATE_WAITING_TX_FOR_REBOOT_BOOTLOADER.
Proof.
  intros Hsteady Hst. cbv zeta. unfold fastboot_rx_enter_download.
  cbv zeta.
  destruct (download_head w <? download_size w).
  - open_invariants. destruct Hsteady as (Ht & Hg & Hi).
    unfold next_reply. readings.
    split; [repeat split; assumption|]. split.
    + intros H. apply Hst.
      still_reboot H.
    + discriminate.
  - assert (Hsteady' : steady (set_tight_turnaround false w)).
    { unfold steady in *. wsimpl. tauto. }
    pose proof (send_response_normal_keeps (fun w => w)
                  (set_tight_turnaround false w) FASTBOOT_RESPONSE_OKAY
                  (Some (str "got it!")) Hsteady' Hst) as H.
    fold (fastboot_send_response_nested p) in H.
    destruct H as (Hs & _ & Hreb).
    split; [exact Hs|]. split.
    + intros E. destruct (Hreb E) as [_ Htx]. revert Htx.
      unfold fastboot_send_response_nested.
      rewrite send_response_with_eq.
      unfold fastboot_tx_enter_send_response. cbv zeta. norm. discriminate.
    + unfold fastboot_send_response_nested.
      rewrite send_response_with_eq.
      unfold fastboot_tx_enter_send_response, fastboot_rx_enter_command.
      cbv zeta. norm. discriminate.
Qed.

(** Any response: RX enters the reboot gate only with the frame armed. *)
Lemma send_response_keeps (w : world) type d message :
  steady w -> status w <> FASTBOOT_STATUS_REBOOT_BOOTLOADER ->
  (d = FASTBOOT_DISPOSITION_REBOOT_BOOTLOADER ->
   response_frame type message = OKAY_frame) ->
  before_tx_step (fastboot_send_response p w type d message).
Proof.
  intros Hsteady Hst Hframe. unfold fastboot_send_response.
  destruct d.
  - apply send_response_normal_keeps; assumption.
  - rewrite send_response_with_eq.
    assert (Hs1 : steady (set_tx_buffer (response_buffer type message) w)).
    { unfold steady in *. wsimpl. exact Hsteady. }
    destruct (rx_enter_download_keeps
                (set_tx_buffer (response_buffer type message) w) Hs1 Hst)
      as ((Ht & Hg & Hi) & Hst2 & Hrx2).
    revert Ht Hg Hi Hst2 Hrx2.
    generalize (fastboot_rx_enter_download p
                  (set_tx_buffer (response_buffer type message) w)).
    intros w2 Ht Hg Hi Hst2 Hrx2. open_invariants.
    unfold fastboot_tx_enter_send_response, next_reply.
    cbv zeta. readings.
    split; [repeat split; assumption|]. split.
    + intros H. contradiction.
    + intros H. exfalso. apply Hst2.
      still_reboot H.
  - specialize (Hframe eq_refl). unfold response_frame in Hframe.
    rewrite send_response_with_eq. open_invariants.
    destruct Hsteady as (Ht & Hg & Hi).
    unfold fastboot_tx_enter_send_response,
      fastboot_rx_enter_waiting_tx_for_reboot_bootloader, next_reply.
    cbv zeta. readings. rewrite Hframe.
    split; [repeat split; assumption|]. split.
    + reflexivity.
    + intros H. exfalso. apply Hst.
      still_reboot H.
Qed.

(** The interpreter, entered with RX and TX idle. *)
Lemma handle_command_keeps (w : world) :
  steady w -> status w <> FASTBOOT_STATUS_REBOOT_BOOTLOADER ->
  rx_state w = FASTBOOT_RX_STATE_IDLE ->
  tx_state w = FASTBOOT_TX_STATE_IDLE ->
  before_tx_step (fastboot_handle_command p w).
Proof.
  intros Hsteady Hst Hrx Htx.
  assert (Hs1 : steady (emit (G_handle_command (rx_state w) (tx_state w))
                          w)).
  { unfold steady in *. readings. rewrite Hrx, Htx. simpl.
    rewrite andb_true_r. exact Hsteady. }
  unfold fastboot_handle_command. cbv zeta.
  destruct (parse_size _ 9 8 0) as [parsed_int_ok download_size].
  split_tests;
    apply send_response_keeps;
    try exact Hs1; try exact Hst; try discriminate;
    try (intros _; reflexivity).
Qed.

Lemma rx_state_command_keeps (w : world) :
  before_rx_step w ->
  rx_state w = FASTBOOT_RX_STATE_COMMAND ->
  before_tx_step (fastboot_rx_state_command p w).
Proof.
  open_invariants. intros ((Ht & Hg & Hi) & _ & Hst) Hrx.
  unfold fastboot_rx_state_command,
    fastboot_rx_enter_waiting_tx_for_process, next_reply.
  cbv zeta. readings.
  split; [repeat split; assumption|]. split.
  - rewrite Hrx. intros H. exfalso. revert H. split_tests; discriminate.
  - intros H. exfalso. apply Hst. still_reboot H.
Qed.

Lemma rx_state_download_keeps (w : world) :
  before_rx_step w ->
  rx_state w = FASTBOOT_RX_STATE_DOWNLOAD ->
  before_tx_step (fastboot_rx_state_download p w).
Proof.
  intros (Hsteady & _ & Hst) Hrx.
  unfold fastboot_rx_state_download. cbv zeta.
  destruct (rc (next_reply p w) =? 0).
  - match goal with
    | |- before_tx_step (fastboot_rx_enter_download p ?a) =>
        destruct (rx_enter_download_keeps a) as (Hs & Hst2 & Hrx2)
    end.
    + unfold steady in *. readings. exact Hsteady.
    + exact Hst.
    + unfold before_tx_step, reboot_gate. split; [exact Hs|]. split.
      * intros H. contradiction.
      * intros H. contradiction.
  - open_invariants. destruct Hsteady as (Ht & Hg & Hi).
    readings.
    split; [repeat split; assumption|]. split.
    + rewrite Hrx. discriminate.
    + intros H. exfalso. apply Hst. still_reboot H.
Qed.

Lemma rx_state_waiting_tx_for_process_keeps (w : world) :
  before_rx_step w ->
  rx_state w = FASTBOOT_RX_STATE_WAITING_TX_FOR_PROCESS ->
  before_tx_step (fastboot_rx_state_waiting_tx_for_process p w).
Proof.
  intros (Hsteady & _ & Hst) Hrx.
  unfold fastboot_rx_state_waiting_tx_for_process, fastboot_rx_enter_idle.
  destruct (tx_state w) eqn:Etx.
  - unfold before_tx_step, reboot_gate. split; [exact Hsteady|]. split.
    + rewrite Hrx. discriminate.
    + intros H. contradiction.
  - apply handle_command_keeps.
    + exact Hsteady.
    + exact Hst.
    + reflexivity.
    + exact Etx.
  - unfold before_tx_step, reboot_gate. split; [exact Hsteady|]. split.
    + rewrite Hrx. discriminate.
    + intros H. contradiction.
Qed.

(** The reboot gate: the status becomes RebootBootloader only where TX is
    idle, and there the [OKAY] was found complete in an earlier round. *)
Lemma rx_state_waiting_tx_for_reboot_bootloader_keeps (w : world) :
  before_rx_step w ->
  rx_state w = FASTBOOT_RX_STATE_WAITING_TX_FOR_REBOOT_BOOTLOADER ->
  before_tx_step (fastboot_rx_state_waiting_tx_for_reboot_bootloader w).
Proof.
  open_invariants. intros ((Ht & Hg & Hi) & Hgate & Hst) Hrx.
  specialize (Hgate Hrx).
  unfold fastboot_rx_state_waiting_tx_for_reboot_bootloader,
    fastboot_rx_enter_idle.
  destruct (tx_state w) eqn:Etx.
  - contradiction.
  - readings. split; [repeat split; assumption|]. split.
    + discriminate.
    + intros _. split; [exact Hgate | exact Etx].
  - split; [repeat split; assumption|]. split.
    + rewrite Etx. intros _. exact Hgate.
    + intros H. contradiction.
Qed.

Lemma rx_step_keeps (w : world) :
  before_rx_step w -> before_tx_step (snd (rx_step p w)).
Proof.
  intros Hw. unfold rx_step. destruct (rx_state w) eqn:Erx; cbn [snd].
  - destruct Hw as (Hsteady & _ & Hst). open_invariants.
    destruct Hsteady as (Ht & Hg & Hi). readings.
    split; [repeat split; assumption|]. split.
    + rewrite Erx. discriminate.
    + intros H. exfalso. apply Hst. still_reboot H.
  - unfold fastboot_rx_state_idle.
    destruct Hw as (Hsteady & _ & Hst).
    unfold before_tx_step, reboot_gate. split; [exact Hsteady|]. split.
    + rewrite Erx. discriminate.
    + intros H. contradiction.
  - apply rx_state_command_keeps; assumption.
  - apply rx_state_download_keeps; assumption.
  - apply rx_state_waiting_tx_for_process_keeps; assumption.
  - apply rx_state_waiting_tx_for_reboot_bootloader_keeps; assumption.
Qed.

Lemma tx_step_keeps (w : world) :
  before_tx_step w -> loop_invariant (snd (tx_step p w)).
Proof.
  open_invariants. intros ((Ht & Hg & Hi) & Hgate & Hst).
  unfold tx_step. destruct (tx_state w) eqn:Etx; cbn [snd].
  - readings. split; [repeat split; assumption|]. split.
    + rewrite Etx. exact Hgate.
    + intros H. apply status_raised_reboot in H; [|discriminate].
      destruct (Hst H) as [_ H']. discriminate H'.
  - unfold fastboot_tx_state_idle.
    split; [repeat split; assumption|]. split.
    + rewrite Etx. intros H. right. exact (Hgate H).
    + intros H. exact (proj1 (Hst H)).
  - unfold fastboot_tx_state_send_response, fastboot_tx_enter_idle,
      next_reply.
    cbv zeta. readings.
    split; [repeat split; assumption|]. split.
    + intros Hrx. specialize (Hgate Hrx). rewrite Hgate, Etx.
      destruct (rc (answer p (length (log w))) =? 0).
      * left. reflexivity.
      * reflexivity.
    + intros H. exfalso.
      assert (Hreb : status w = FASTBOOT_STATUS_REBOOT_BOOTLOADER)
        by still_reboot H.
      destruct (Hst Hreb) as [_ H']. discriminate H'.
Qed.

Lemma display_keeps (w : world) (t : text) :
  loop_invariant w ->
  loop_invariant (if negb (tight_turnaround w) then emit (E_set_text t) w
                  else w).
Proof.
  intros Hw. destruct (negb (tight_turnaround w)); [|exact Hw].
  apply (same_standing_loop_invariant w); [|exact Hw].
  unfold same_standing. readings. repeat split.
Qed.

(** One round keeps the invariant, whichever way it ends. *)
Lemma tick_keeps (w : world) :
  loop_invariant w ->
  status w = FASTBOOT_STATUS_NORMAL ->
  loop_invariant (snd (tick p w)).
Proof.
  intros Hw Hst. rewrite tick_eq.
  destruct (before_break_keeps w Hw Hst) as [Hbroke Hrun].
  cbv zeta in Hbroke, Hrun. cbv zeta.
  destruct (flag _); cbn [snd].
  - exact Hbroke.
  - apply display_keeps. apply tx_step_keeps. apply rx_step_keeps.
    apply handle_ep0_ctrl_keeps. exact Hrun.
Qed.

(** The session the loop starts from. *)
Lemma session_at_loop_invariant (dram bar : Z) :
  loop_invariant (session_at_loop p dram bar).
Proof.
  unfold session_at_loop, fastboot_tx_enter_idle, fastboot_rx_enter_command,
    fastboot_handle_ep0_ctrl, fresh_session, next_reply.
  cbv zeta. open_invariants. readings.
  split; [repeat split|]. split.
  - discriminate.
  - intros H. exfalso. still_reboot H.
Qed.

Lemma at_loop_head_invariant (w : world) :
  at_loop_head p w -> loop_invariant w.
Proof.
  induction 1 as [dram bar H1 H2 | w Hw IH Hst Hrun].
  - apply session_at_loop_invariant.
  - apply tick_keeps; assumption.
Qed.

End Rounds.

(** * What the phase of TX tells of the log *)

Lemma no_write_snoc (l : list event) (e : event) :
  no_write l -> is_write e = false -> no_write (l ++ [e]).
Proof.
  unfold no_write. intros Hl He. rewrite forallb_app, Hl. simpl.
  rewrite He. reflexivity.
Qed.

Lemma no_write_app_snoc (l l' : list event) (e : event) :
  no_write (l ++ l') -> is_write e = false -> no_write (l ++ l' ++ [e]).
Proof.
  intros H He. rewrite app_assoc. apply no_write_snoc; assumption.
Qed.

(** An entry that is no write and leaves the phase as it is. *)
Lemma history_snoc (ph : tx_phase) (l : list event) (e : event) :
  is_write e = false -> history ph l -> history ph (l ++ [e]).
Proof.
  intros He. destruct ph as [|f|f|f]; simpl.
  - trivial.
  - intros (t1 & c & t2 & -> & Hn).
    exists t1, c, (t2 ++ [e]). split.
    + rewrite <- app_assoc. reflexivity.
    + apply no_write_snoc; assumption.
  - intros (t1 & c & t2 & t3 & -> & Hn).
    exists t1, c, t2, (t3 ++ [e]). split.
    + rewrite <- !app_assoc. simpl. rewrite <- app_assoc. reflexivity.
    + apply no_write_app_snoc; assumption.
  - intros (t1 & c & t2 & t3 & b & t4 & -> & Hn).
    exists t1, c, t2, t3, b, (t4 ++ [e]). split.
    + rewrite <- !app_assoc. simpl. rewrite <- !app_assoc. simpl.
      rewrite <- !app_assoc. reflexivity.
    + rewrite !app_assoc in *. apply no_write_snoc; assumption.
Qed.

(** The phase read off a log is true of it. *)
Lemma phase_history (l : list event) : history (tx_phase_of l) l.
Proof.
  induction l as [|e l IH] using rev_ind.
  - exact I.
  - rewrite tx_phase_snoc.
    destruct e; try (apply history_snoc; [reflexivity | exact IH]).
    + (* usb_device_get_suspended *)
      cbn [observe].
      destruct (tx_phase_of l) as [|f|f|f];
        try (apply history_snoc; [reflexivity | exact IH]).
      destruct IH as (t1 & c & t2 & t3 & -> & Hn).
      exists t1, c, t2, t3, r, []. split.
      * rewrite <- !app_assoc. simpl. rewrite <- !app_assoc. reflexivity.
      * rewrite app_nil_r. exact Hn.
    + (* usb_device_write_ep1_in *)
      cbn [observe history].
      exists l, rc0, []. split; reflexivity.
    + (* usb_device_ep1_in_writing_poll *)
      cbn [observe].
      destruct (rc0 =? 0) eqn:E;
        [|apply history_snoc; [reflexivity | exact IH]].
      apply Z.eqb_eq in E. subst rc0.
      destruct (tx_phase_of l) as [|f|f|f];
        try (apply history_snoc; [reflexivity | exact IH]).
      destruct IH as (t1 & c & t2 & -> & Hn).
      exists t1, c, t2, []. split.
      * rewrite <- !app_assoc. reflexivity.
      * rewrite app_nil_r. exact Hn.
Qed.

(** * Logs only grow *)

Lemma extends_refl (l : list event) : extends l l.
Proof. exists []. symmetry. apply app_nil_r. Qed.

Lemma extends_snoc (l l' : list event) (e : event) :
  extends l l' -> extends l (l' ++ [e]).
Proof.
  intros (more & ->). exists (more ++ [e]). rewrite app_assoc. reflexivity.
Qed.

Lemma extends_trans (l1 l2 l3 : list event) :
  extends l1 l2 -> extends l2 l3 -> extends l1 l3.
Proof.
  intros (m1 & ->) (m2 & ->). exists (m1 ++ m2).
  rewrite app_assoc. reflexivity.
Qed.

(** Closes [extends (log w) l] for a log [l] that the steps built by
    appending. *)
Ltac grown :=
  norm; split_tests; repeat first [apply extends_refl | apply extends_snoc].

Section Growth.

Variable p : platform.

Lemma grows_handle_ep0_ctrl : grows (fastboot_handle_ep0_ctrl p).
Proof. intros w. unfold fastboot_handle_ep0_ctrl. cbv zeta. grown. Qed.

Lemma grows_rx_enter_command : grows (fastboot_rx_enter_command p).
Proof. intros w. unfold fastboot_rx_enter_command. cbv zeta. grown. Qed.

Lemma grows_tx_enter_send_response :
  grows (fastboot_tx_enter_send_response p).
Proof.
  intros w. unfold fastboot_tx_enter_send_response. cbv zeta. grown.
Qed.

Lemma grows_send_response_with (f : world -> world) type d message :
  grows f ->
  grows (fun w => fastboot_send_response_with p f w type d message).
Proof.
  intros Hf w. rewrite send_response_with_eq.
  eapply extends_trans; [|apply grows_tx_enter_send_response].
  destruct d.
  - apply (grows_rx_enter_command
             (set_tx_buffer (response_buffer type message) w)).
  - apply (Hf (set_tx_buffer (response_buffer type message) w)).
  - apply extends_refl.
Qed.

Lemma grows_rx_enter_download : grows (fastboot_rx_enter_download p).
Proof.
  intros w. unfold fastboot_rx_enter_download. cbv zeta.
  destruct (download_head w <? download_size w).
  - grown.
  - apply (grows_send_response_with (fun w => w) FASTBOOT_RESPONSE_OKAY
             FASTBOOT_DISPOSITION_NORMAL (Some (str "got it!"))
             (fun w => extends_refl (log w))
             (set_tight_turnaround false w)).
Qed.

Lemma grows_send_response type d message :
  grows (fun w => fastboot_send_response p w type d message).
Proof.
  apply grows_send_response_with. apply grows_rx_enter_download.
Qed.

(** The interpreter logs its entry and then only appends. *)
Lemma handle_command_log (w : world) :
  exists more,
    log (fastboot_handle_command p w)
    = log w ++ G_handle_command (rx_state w) (tx_state w) :: more.
Proof.
  assert (H : extends (log w ++ [G_handle_command (rx_state w) (tx_state w)])
                (log (fastboot_handle_command p w))).
  { unfold fastboot_handle_command. cbv zeta.
    destruct (parse_size _ 9 8 0) as [parsed_int_ok download_size].
    split_tests;
      match goal with
      | |- extends _ (log (fastboot_send_response p ?a ?t ?d ?m)) =>
          apply (grows_send_response t d m a)
      end. }
  destruct H as (more & ->). exists more.
  rewrite <- app_assoc. reflexivity.
Qed.

Lemma grows_handle_command : grows (fastboot_handle_command p).
Proof.
  intros w. destruct (handle_command_log w) as (more & ->).
  eexists. reflexivity.
Qed.

(** Maintenance begins by asking the time. *)
Lemma system_maintenance_log (w : world) :
  exists t more,
    log (_system_maintenance p w) = log w ++ E_get_tmr_ms t :: more.
Proof.
  exists (tmr (next_reply p w)).
  assert (H : extends (log w ++ [E_get_tmr_ms (tmr (next_reply p w))])
                (log (_system_maintenance p w))).
  { unfold _system_maintenance. cbv zeta. grown. }
  destruct H as (more & ->). exists more.
  rewrite <- app_assoc. reflexivity.
Qed.

Lemma grows_rx_step : grows (fun w => snd (rx_step p w)).
Proof.
  intros w. unfold rx_step. destruct (rx_state w); cbn [snd].
  - grown.
  - apply extends_refl.
  - unfold fastboot_rx_state_command,
      fastboot_rx_enter_waiting_tx_for_process.
    cbv zeta. grown.
  - unfold fastboot_rx_state_download. cbv zeta.
    destruct (rc (next_reply p w) =? 0).
    + eapply extends_trans; [|apply grows_rx_enter_download].
      norm. apply extends_snoc, extends_refl.
    + grown.
  - unfold fastboot_rx_state_waiting_tx_for_process, fastboot_rx_enter_idle.
    destruct (tx_state w); try apply extends_refl.
    apply (grows_handle_command (set_rx_state FASTBOOT_RX_STATE_IDLE w)).
  - unfold fastboot_rx_state_waiting_tx_for_reboot_bootloader,
      fastboot_rx_enter_idle.
    destruct (tx_state w); grown.
Qed.

Lemma grows_tx_step : grows (fun w => snd (tx_step p w)).
Proof.
  intros w. unfold tx_step. destruct (tx_state w); cbn [snd].
  - grown.
  - apply extends_refl.
  - unfold fastboot_tx_state_send_response, fastboot_tx_enter_idle.
    cbv zeta. grown.
Qed.

(** A round with [tight_turnaround] clear: it first asks the time for the
    periodic maintenance, and, unless it breaks, ends by refreshing the
    display of the two states. *)
Lemma round_without_tight_turnaround (w : world) :
  tight_turnaround w = false ->
  (exists t more, log (snd (tick p w)) = log w ++ E_get_tmr_ms t :: more)
  /\ (fst (tick p w) = false ->
      tight_turnaround (snd (tick p w)) = false ->
      exists before rx_name tx_name,
        log (snd (tick p w))
        = before ++ [E_set_text (TEXT_STATES rx_name tx_name)]).
Proof.
  intros Ht. rewrite tick_eq. cbv zeta. rewrite Ht. cbn [negb].
  destruct (system_maintenance_log w) as (t & more & Hlog).
  set (w1 := _system_maintenance p w) in *.
  set (w2 := emit (E_usb_device_get_suspended (flag (next_reply p w1))) w1).
  assert (H2 : extends (log w1) (log w2))
    by (unfold w2; norm; apply extends_snoc, extends_refl).
  destruct (flag (next_reply p w1)); cbn [fst snd].
  - split; [|discriminate].
    destruct H2 as (more' & ->). rewrite Hlog.
    exists t, (more ++ more'). rewrite <- app_assoc. reflexivity.
  - set (w3 := fastboot_handle_ep0_ctrl p w2).
    set (w4 := snd (rx_step p w3)).
    set (w5 := snd (tx_step p w4)).
    assert (H5 : extends (log w1) (log w5)).
    { eapply extends_trans; [exact H2|].
      eapply extends_trans; [apply (grows_handle_ep0_ctrl w2)|].
      eapply extends_trans; [apply (grows_rx_step w3)|].
      apply (grows_tx_step w4). }
    split.
    + destruct H5 as (more' & H5).
      destruct (negb (tight_turnaround w5)); norm; rewrite H5, Hlog.
      * eexists t, ((more ++ more') ++ [_]).
        rewrite <- !app_assoc. reflexivity.
      * exists t, (more ++ more'). rewrite <- app_assoc. reflexivity.
    + intros _ Hafter.
      assert (Ha : tight_turnaround w5 = false).
      { destruct (negb (tight_turnaround w5)); exact Hafter. }
      rewrite Ha. cbn [negb]. norm.
      eexists. eexists. eexists. reflexivity.
Qed.

End Growth.

(** * The gates, tight turnaround, and the restart *)

Section Session.

Variable p : platform.

Lemma gated_entries (l : list event) :
  interpreter_gated l = true ->
  forall rx tx, In (G_handle_command rx tx) l ->
    rx = FASTBOOT_RX_STATE_IDLE /\ tx = FASTBOOT_TX_STATE_IDLE.
Proof.
  unfold interpreter_gated. rewrite forallb_forall.
  intros H rx tx Hin. specialize (H _ Hin). simpl in H.
  destruct rx; destruct tx; try discriminate H. split; reflexivity.
Qed.

(** C4: while [tx_state] is not Idle the WaitingTxForProcess step does
    nothing; when it is Idle the step sets [rx_state] to Idle and then
    runs the interpreter, in that same step; and in every session of the
    loop every entry of the interpreter so far found both [rx_state] and
    [tx_state] Idle. *)
Theorem interpreter_runs_behind_the_gate :
  (forall w : world,
      tx_state w <> FASTBOOT_TX_STATE_IDLE ->
      fastboot_rx_state_waiting_tx_for_process p w = w)
  /\ (forall w : world,
         tx_state w = FASTBOOT_TX_STATE_IDLE ->
         fastboot_rx_state_waiting_tx_for_process p w
         = fastboot_handle_command p (fastboot_rx_enter_idle w)
         /\ exists more,
             log (fastboot_rx_state_waiting_tx_for_process p w)
             = log w
               ++ G_handle_command FASTBOOT_RX_STATE_IDLE
                    FASTBOOT_TX_STATE_IDLE :: more)
  /\ (forall w : world,
         at_loop_head p w ->
         forall rx tx, In (G_handle_command rx tx) (log w) ->
           rx = FASTBOOT_RX_STATE_IDLE /\ tx = FASTBOOT_TX_STATE_IDLE).
Proof.
  split; [|split].
  - intros w Htx. unfold fastboot_rx_state_waiting_tx_for_process.
    destruct (tx_state w); [reflexivity | contradiction | reflexivity].
  - intros w Htx. unfold fastboot_rx_state_waiting_tx_for_process.
    rewrite Htx. split; [reflexivity|].
    destruct (handle_command_log p (fastboot_rx_enter_idle w))
      as (more & Hlog).
    exists more. rewrite Hlog. unfold fastboot_rx_enter_idle. wsimpl.
    rewrite Htx. reflexivity.
  - intros w Hw. apply gated_entries.
    apply (at_loop_head_invariant p w Hw).
Qed.

(** C7, as the code has it: [tight_turnaround] is false in every session
    of the loop, whatever the state of a download; so every round begins
    with the periodic maintenance asking the time, and every round that
    does not break ends with the refresh of the RX/TX display. *)
Theorem tight_turnaround_is_never_set (w : world) :
  at_loop_head p w ->
  tight_turnaround w = false
  /\ (status w = FASTBOOT_STATUS_NORMAL ->
      (exists t more,
          log (snd (tick p w)) = log w ++ E_get_tmr_ms t :: more)
      /\ (fst (tick p w) = false ->
          exists before rx_name tx_name,
            log (snd (tick p w))
            = before ++ [E_set_text (TEXT_STATES rx_name tx_name)])).
Proof.
  intros Hw. pose proof (at_loop_head_invariant p w Hw) as Hinv.
  assert (Ht : tight_turnaround w = false) by apply Hinv.
  split; [exact Ht|]. intros Hst.
  destruct (round_without_tight_turnaround p w Ht) as [Hfirst Hlast].
  split; [exact Hfirst|].
  intros Hrun. apply Hlast; [exact Hrun|].
  apply (tick_keeps p w Hinv Hst).
Qed.

(** The loop ends in a session that has the invariant. *)
Lemma scheduling_loop_invariant (fuel : nat) (w w' : world) :
  loop_invariant w ->
  scheduling_loop p fuel w = Some w' ->
  loop_invariant w'.
Proof.
  revert w. induction fuel as [|fuel IH]; intros w Hw Hrun.
  - simpl in Hrun.
    destruct (status_eqb (status w) FASTBOOT_STATUS_NORMAL);
      [discriminate Hrun|].
    injection Hrun as <-. exact Hw.
  - destruct (status_eqb (status w) FASTBOOT_STATUS_NORMAL) eqn:E.
    + apply status_eqb_eq in E.
      rewrite (scheduling_loop_round p fuel w E) in Hrun.
      pose proof (tick_keeps p w Hw E) as Hnext.
      destruct (fst (tick p w)).
      * injection Hrun as <-. exact Hnext.
      * apply (IH _ Hnext Hrun).
    + simpl in Hrun. rewrite E in Hrun. injection Hrun as <-. exact Hw.
Qed.

Lemma inside_loop_no_restart (l : list event) :
  forallb inside_loop l = true -> ~ In E_reload_nyx l.
Proof.
  rewrite forallb_forall. intros H Hin. specialize (H _ Hin).
  discriminate H.
Qed.

(** C6: in every run that ends with the restart action called, the
    terminal status is RebootBootloader, the call is the last of the run
    and comes right after the teardown [usbd_end], no teardown or restart
    comes before, and the log before shows the [OKAY] armed, later a poll
    that found its write complete, and later the beginning of another
    round of the loop, with no other write armed since. *)
Theorem restart_only_after_okay_left_tx (fuel : nat) (dram bar res : Z)
  (w : world) :
  usb_device_gadget_fastboot p fuel dram bar = Some (res, w) ->
  In E_reload_nyx (log w) ->
  status w = FASTBOOT_STATUS_REBOOT_BOOTLOADER
  /\ exists before,
      log w = before ++ [E_usbd_end true false; E_reload_nyx]
      /\ forallb inside_loop before = true
      /\ left_tx_a_round_ago OKAY_frame before.
Proof.
  unfold usb_device_gadget_fastboot. cbv zeta.
  destruct (negb (rc _ =? 0)).
  { intros Hrun Hin. injection Hrun as _ <-. exfalso.
    revert Hin. norm. simpl. intuition discriminate. }
  destruct (negb (rc _ =? 0)).
  { intros Hrun Hin. injection Hrun as _ <-. exfalso.
    revert Hin. unfold exit_path. cbv zeta. norm. simpl.
    intuition discriminate. }
  fold (session_at_loop p dram bar).
  destruct (scheduling_loop p fuel (session_at_loop p dram bar))
    as [w'|] eqn:Eloop; [|discriminate].
  intros Hrun Hin. injection Hrun as _ <-.
  pose proof (scheduling_loop_invariant fuel _ _
                (session_at_loop_invariant p dram bar) Eloop) as Hinv.
  destruct Hinv as ((_ & _ & Hinside) & _ & Hreb).
  revert Hin. unfold exit_path. cbv zeta. norm.
  destruct (status_eqb (status w') FASTBOOT_STATUS_REBOOT_BOOTLOADER)
    eqn:E.
  - apply status_eqb_eq in E. intros _. split; [exact E|].
    exists (log w' ++ [E_set_text (ended_text w')]).
    split; [|split].
    + rewrite <- !app_assoc. reflexivity.
    + rewrite inside_snoc, Hinside. reflexivity.
    + pose proof (phase_history (log w')) as Hh.
      rewrite (Hreb E) in Hh.
      apply (history_snoc (CompletedEarlier OKAY_frame));
        [reflexivity | exact Hh].
  - intros Hin. exfalso.
    apply in_app_or in Hin. destruct Hin as [Hin|Hin].
    + apply in_app_or in Hin. destruct Hin as [Hin|Hin].
      * exact (inside_loop_no_restart _ Hinside Hin).
      * simpl in Hin. intuition discriminate.
    + simpl in Hin. intuition discriminate.
Qed.

End Session.

Lemma status_is_a_ratchet_witness :
  status (snd (tick failing listening)) = FASTBOOT_STATUS_USB_ERROR
  /\ scheduling_loop failing 1 listening
     = Some (snd (tick failing listening)).
Proof.
  split.
  - reflexivity.
  - apply (proj1 (proj2 (proj2 (proj2 (status_is_a_ratchet failing))))).
    + reflexivity.
    + vm_compute. discriminate.
Defined.

Lemma interpreter_runs_behind_the_gate_witness :
  fastboot_rx_state_waiting_tx_for_process two_lines at_the_gate
  = fastboot_handle_command two_lines (fastboot_rx_enter_idle at_the_gate).
Proof.
  apply (proj1 (proj2 (interpreter_runs_behind_the_gate two_lines))).
  reflexivity.
Defined.

Lemma tight_turnaround_is_never_set_witness :
  rx_state (ticks long_download 2 (session_at_loop long_download 0 0))
  = FASTBOOT_RX_STATE_DOWNLOAD
  /\ download_head (ticks long_download 2 (session_at_loop long_download 0 0))
     < download_size (ticks long_download 2
                        (session_at_loop long_download 0 0))
  /\ tight_turnaround (ticks long_download 2
                         (session_at_loop long_download 0 0)) = false.
Proof.
  split; [vm_compute; reflexivity|].
  split; [vm_compute; reflexivity|].
  refine (proj1 (tight_turnaround_is_never_set long_download _ _)).
  apply at_loop_head_ticks.
  - vm_compute. reflexivity.
  - apply head_first; reflexivity.
Defined.

(** The round after: the download is in progress, and the round asks the
    time for the maintenance and refreshes the display. *)
Lemma round_during_download :
  skipn 19 (log (ticks long_download 3 (session_at_loop long_download 0 0)))
  = [E_get_tmr_ms 0; E_usb_device_get_suspended false;
     E_usbd_handle_ep0_pending_control_transfer false;
     E_usb_device_ep1_out_reading_poll 0 [];
     E_set_text (TEXT_DOWNLOADING 0 8);
     E_usb_device_read_ep1_out (INTO_DOWNLOAD_BUFFER 0) 4096 0;
     E_set_text (TEXT_STATES "download" "idle")].
Proof. vm_compute. reflexivity. Qed.

Lemma restart_only_after_okay_left_tx_witness :
  status (final_session rebooting 10 0 0)
  = FASTBOOT_STATUS_REBOOT_BOOTLOADER
  /\ exists before,
      log (final_session rebooting 10 0 0)
      = before ++ [E_usbd_end true false; E_reload_nyx]
      /\ forallb inside_loop before = true
      /\ left_tx_a_round_ago OKAY_frame before.
Proof.
  apply (restart_only_after_okay_left_tx rebooting 10 0 0 0).
  - vm_compute. reflexivity.
  - vm_compute. repeat (first [left; reflexivity | right]).
Defined.

(** * The buffers keep their size *)

Lemma write_at_length (buf : list ascii) (off : nat) (data : list ascii) :
  (off + length data <= length buf)%nat ->
  length (write_at buf off data) = length buf.
Proof.
  intros H. unfold write_at.
  rewrite !length_app, length_firstn, length_skipn. lia.
Qed.

Section Sizes.

Variable p : platform.

Lemma sized_set_status (w : world) (s : fastboot_status) :
  buffers_sized w -> buffers_sized (snd (fastboot_set_status w s)).
Proof. unfold buffers_sized. norm. tauto. Qed.

Lemma sized_handle_ep0_ctrl (w : world) :
  buffers_sized w -> buffers_sized (fastboot_handle_ep0_ctrl p w).
Proof.
  unfold buffers_sized, fastboot_handle_ep0_ctrl. cbv zeta. norm. tauto.
Qed.

Lemma sized_system_maintenance (w : world) :
  buffers_sized w -> buffers_sized (_system_maintenance p w).
Proof.
  unfold buffers_sized, _system_maintenance. cbv zeta. norm. tauto.
Qed.

Lemma sized_send_response_normal (f : world -> world) (w : world)
  type message :
  buffers_sized w ->
  buffers_sized
    (fastboot_send_response_with p f w type FASTBOOT_DISPOSITION_NORMAL
       message).
Proof.
  unfold buffers_sized. intros (Hrx & _ & _).
  rewrite send_response_with_eq.
  unfold fastboot_tx_enter_send_response, fastboot_rx_enter_command.
  cbv zeta. norm.
  split; [exact Hrx|]. split; [apply response_buffer_length|].
  reflexivity.
Qed.

Lemma sized_rx_enter_download (w : world) :
  buffers_sized w -> buffers_sized (fastboot_rx_enter_download p w).
Proof.
  intros Hw. unfold fastboot_rx_enter_download. cbv zeta.
  destruct (download_head w <? download_size w).
  - unfold buffers_sized in *. norm. destruct Hw as (Hrx & Htx & _).
    split; [exact Hrx|]. split; [exact Htx|]. discriminate.
  - apply sized_send_response_normal. exact Hw.
Qed.

Lemma sized_send_response (w : world) type d message :
  buffers_sized w ->
  buffers_sized (fastboot_send_response p w type d message).
Proof.
  intros Hw. unfold fastboot_send_response. destruct d.
  - apply sized_send_response_normal. exact Hw.
  - rewrite send_response_with_eq.
    assert (H1 : buffers_sized
                   (set_tx_buffer (response_buffer type message) w)).
    { unfold buffers_sized in *. wsimpl.
      rewrite response_buffer_length. tauto. }
    apply sized_rx_enter_download in H1. revert H1.
    generalize (fastboot_rx_enter_download p
                  (set_tx_buffer (response_buffer type message) w)).
    intros w2. unfold buffers_sized, fastboot_tx_enter_send_response.
    cbv zeta. norm. tauto.
  - rewrite send_response_with_eq.
    unfold buffers_sized in *. destruct Hw as (Hrx & _ & _).
    unfold fastboot_tx_enter_send_response,
      fastboot_rx_enter_waiting_tx_for_reboot_bootloader.
    cbv zeta. norm.
    split; [exact Hrx|]. split; [apply response_buffer_length|].
    discriminate.
Qed.

Lemma sized_handle_command (w : world) :
  buffers_sized w -> buffers_sized (fastboot_handle_command p w).
Proof.
  intros Hw.
  assert (H1 : buffers_sized
                 (emit (G_handle_command (rx_state w) (tx_state w)) w))
    by exact Hw.
  unfold fastboot_handle_command. cbv zeta.
  destruct (parse_size _ 9 8 0) as [parsed_int_ok download_size].
  split_tests; apply sized_send_response; exact H1.
Qed.

Lemma sized_rx_state_command (w : world) :
  buffers_sized w ->
  rx_state w = FASTBOOT_RX_STATE_COMMAND ->
  buffers_sized (fastboot_rx_state_command p w).
Proof.
  unfold buffers_sized. intros (Hrx & Htx & Hlen) Hstate.
  specialize (Hlen Hstate).
  unfold fastboot_rx_state_command,
    fastboot_rx_enter_waiting_tx_for_process, delivered.
  cbv zeta. norm. rewrite Hlen.
  change (Z.to_nat FASTBOOT_COMMAND_BUFFER_SIZE) with 64%nat.
  rewrite Nat2Z.id.
  assert (Hgot : (length (firstn 64 (bytes (next_reply p w))) <= 64)%nat)
    by apply firstn_le_length.
  assert (Hfirst : length (write_at (rx_buffer w) 0
                             (firstn 64 (bytes (next_reply p w))))
                   = length (rx_buffer w)).
  { apply write_at_length. rewrite Hrx. unfold BUFFER_BYTES. lia. }
  split_tests.
  - split; [|split; [exact Htx | discriminate]].
    rewrite write_at_length; [rewrite Hfirst; exact Hrx|].
    rewrite Hfirst, Hrx. unfold BUFFER_BYTES.
    change (length [NUL]) with 1%nat. lia.
  - split; [exact Hrx|]. split; [exact Htx|]. intros _. reflexivity.
Qed.

Lemma sized_rx_step (w : world) :
  buffers_sized w -> buffers_sized (snd (rx_step p w)).
Proof.
  intros Hw. unfold rx_step. destruct (rx_state w) eqn:Erx; cbn [snd].
  - apply sized_set_status. exact Hw.
  - exact Hw.
  - apply sized_rx_state_command; assumption.
  - unfold fastboot_rx_state_download. cbv zeta.
    destruct (rc (next_reply p w) =? 0).
    + apply sized_rx_enter_download.
      unfold buffers_sized in *. norm. rewrite Erx.
      destruct Hw as (Hrx & Htx & _).
      split; [exact Hrx|]. split; [exact Htx|]. discriminate.
    + destruct (rc (next_reply p w) =? 3).
      * exact Hw.
      * apply sized_set_status. exact Hw.
  - unfold fastboot_rx_state_waiting_tx_for_process, fastboot_rx_enter_idle.
    destruct (tx_state w); try exact Hw.
    apply sized_handle_command.
    unfold buffers_sized in *. wsimpl.
    destruct Hw as (Hrx & Htx & _).
    split; [exact Hrx|]. split; [exact Htx|]. discriminate.
  - unfold fastboot_rx_state_waiting_tx_for_reboot_bootloader,
      fastboot_rx_enter_idle.
    destruct (tx_state w); try exact Hw.
    apply sized_set_status.
    unfold buffers_sized in *. wsimpl.
    destruct Hw as (Hrx & Htx & _).
    split; [exact Hrx|]. split; [exact Htx|]. discriminate.
Qed.

Lemma sized_tx_step (w : world) :
  buffers_sized w -> buffers_sized (snd (tx_step p w)).
Proof.
  intros Hw. unfold tx_step. destruct (tx_state w); cbn [snd].
  - apply sized_set_status. exact Hw.
  - exact Hw.
  - unfold fastboot_tx_state_send_response, fastboot_tx_enter_idle.
    cbv zeta. unfold buffers_sized in *. norm. exact Hw.
Qed.

Lemma sized_tick (w : world) :
  buffers_sized w -> buffers_sized (snd (tick p w)).
Proof.
  intros Hw. rewrite tick_eq. cbv zeta.
  set (w1 := if negb (tight_turnaround w) then _system_maintenance p w
             else w).
  assert (H1 : buffers_sized w1).
  { unfold w1. destruct (negb (tight_turnaround w));
      [apply sized_system_maintenance|]; exact Hw. }
  destruct (flag (next_reply p w1)); cbn [snd].
  - exact H1.
  - match goal with
    | |- buffers_sized (if ?c then emit ?e ?a else ?a) =>
        assert (Ha : buffers_sized a);
          [|destruct c; exact Ha]
    end.
    apply sized_tx_step, sized_rx_step, sized_handle_ep0_ctrl. exact H1.
Qed.

(** Every session of the loop has its buffers sized. *)
Lemma at_loop_head_buffers (w : world) :
  at_loop_head p w -> buffers_sized w.
Proof.
  induction 1 as [dram bar H1 H2 | w Hw IH Hst Hrun].
  - unfold session_at_loop, fastboot_tx_enter_idle,
      fastboot_rx_enter_command, fastboot_handle_ep0_ctrl, fresh_session,
      buffers_sized.
    cbv zeta. norm. repeat split.
  - apply sized_tick. exact IH.
Qed.

End Sizes.

(** * The other branches of the interpreter *)

Lemma cstr_skipn (n : nat) (buf : list ascii) :
  (n <= length (cstr buf))%nat -> cstr (skipn n buf) = skipn n (cstr buf).
Proof.
  revert buf. induction n as [|n IH]; intros buf Hn.
  - reflexivity.
  - destruct buf as [|c buf]; simpl in Hn; [lia|].
    simpl. destruct (Ascii.eqb c NUL); simpl in Hn; [lia|].
    simpl. apply IH. lia.
Qed.

(** A line that starts with [getvar:], and the variable behind it. *)
Lemma getvar_variable (buf : list ascii) :
  starts_with "getvar:" (cstr buf) ->
  cstr (skipn 7 buf) = skipn 7 (cstr buf).
Proof.
  intros H. apply cstr_skipn.
  unfold starts_with in H.
  assert (Hl : length (firstn 7 (cstr buf)) = 7%nat)
    by (simpl length in H; rewrite H; reflexivity).
  rewrite length_firstn in Hl. lia.
Qed.

Lemma test_variable (buf : list ascii) (name : string) :
  forallb (fun c => negb (Ascii.eqb c NUL)) (str name) = true ->
  starts_with "getvar:" (cstr buf) ->
  (strcmp (skipn 7 buf) (str name) =? 0) = true
  <-> skipn 7 (cstr buf) = str name.
Proof.
  intros Hname Hg. apply str_no_nul_dec in Hname.
  rewrite Z.eqb_eq, strcmp_literal by exact Hname.
  rewrite (getvar_variable buf Hg). reflexivity.
Qed.

Section Getvar.

Variable p : platform.

(** The [getvar:] branch, by the variable. *)
Lemma handle_getvar (w : world) :
  starts_with "getvar:" (line w) ->
  fastboot_handle_command p w
  = let w1 := emit (G_handle_command (rx_state w) (tx_state w)) w in
    let variable := skipn 7 (rx_buffer w) in
    if strcmp variable (str "version") =? 0 then
      fastboot_send_response p w1 FASTBOOT_RESPONSE_OKAY
        FASTBOOT_DISPOSITION_NORMAL (Some (str "0.4"))
    else if strcmp variable (str "product") =? 0 then
      fastboot_send_response p w1 FASTBOOT_RESPONSE_OKAY
        FASTBOOT_DISPOSITION_NORMAL (Some (str "Nyx"))
    else if strcmp variable (str "max-download-size") =? 0 then
      fastboot_send_response p w1 FASTBOOT_RESPONSE_OKAY
        FASTBOOT_DISPOSITION_NORMAL
        (Some (s_printf_08X (fastboot_download_capacity p)))
    else
      fastboot_send_response p w1 FASTBOOT_RESPONSE_FAIL
        FASTBOOT_DISPOSITION_NORMAL (Some (str "unknown variable")).
Proof.
  intros Hg. unfold line in Hg.
  unfold fastboot_handle_command. cbv zeta. wsimpl.
  rewrite (proj2 (test_getvar (rx_buffer w)) Hg). reflexivity.
Qed.

(** X1: a line that is exactly [getvar:version] is answered [OKAY0.4] and
    one that is exactly [getvar:product] is answered [OKAYNyx]; RX is back
    in Command with its read armed before the write, and the download
    fields keep their values. *)
Theorem getvar_version_and_product (w : world) :
  (line w = str "getvar:version" ->
   answered_with w (fastboot_handle_command p w) (str "OKAY0.4")
   /\ download_untouched w (fastboot_handle_command p w))
  /\ (line w = str "getvar:product" ->
      answered_with w (fastboot_handle_command p w) (str "OKAYNyx")
      /\ download_untouched w (fastboot_handle_command p w)).
Proof.
  split; intros Hline.
  - assert (Hg : starts_with "getvar:" (line w))
      by (rewrite Hline; reflexivity).
    rewrite (handle_getvar w Hg). cbv zeta.
    rewrite (proj2 (test_variable (rx_buffer w) "version"
                      eq_refl Hg))
      by (fold (line w); rewrite Hline; reflexivity).
    destruct (answered_normal p w FASTBOOT_RESPONSE_OKAY
                (Some (str "0.4"))) as (Hans & Hdl & _).
    split; [exact Hans | exact Hdl].
  - assert (Hg : starts_with "getvar:" (line w))
      by (rewrite Hline; reflexivity).
    rewrite (handle_getvar w Hg). cbv zeta.
    rewrite (not_true_false (strcmp _ (str "version") =? 0)).
    + rewrite (proj2 (test_variable (rx_buffer w) "product"
                        eq_refl Hg))
        by (fold (line w); rewrite Hline; reflexivity).
      destruct (answered_normal p w FASTBOOT_RESPONSE_OKAY
                  (Some (str "Nyx"))) as (Hans & Hdl & _).
      split; [exact Hans | exact Hdl].
    + rewrite (test_variable (rx_buffer w) "version"
                 eq_refl Hg).
      fold (line w). rewrite Hline. discriminate.
Qed.

(** X2: every line that starts with [getvar:] and goes on with anything
    but [version], [product] or [max-download-size] (a longer name, a name
    with a trailing blank, no name at all) is answered
    [FAILunknown variable]; the download fields keep their values. *)
Theorem getvar_unknown_variable (w : world) :
  starts_with "getvar:" (line w) ->
  skipn 7 (line w) <> str "version" ->
  skipn 7 (line w) <> str "product" ->
  skipn 7 (line w) <> str "max-download-size" ->
  answered_with w (fastboot_handle_command p w)
    (str "FAILunknown variable")
  /\ download_untouched w (fastboot_handle_command p w).
Proof.
  intros Hg Hv Hp Hm. rewrite (handle_getvar w Hg). cbv zeta.
  rewrite (not_true_false (strcmp _ (str "version") =? 0))
    by (rewrite (test_variable (rx_buffer w) "version"
                   eq_refl Hg); exact Hv).
  rewrite (not_true_false (strcmp _ (str "product") =? 0))
    by (rewrite (test_variable (rx_buffer w) "product"
                   eq_refl Hg); exact Hp).
  rewrite (not_true_false (strcmp _ (str "max-download-size") =? 0))
    by (rewrite (test_variable (rx_buffer w) "max-download-size"
                   eq_refl Hg); exact Hm).
  destruct (answered_normal p w FASTBOOT_RESPONSE_FAIL
              (Some (str "unknown variable"))) as (Hans & Hdl & _).
  split; [exact Hans | exact Hdl].
Qed.

End Getvar.

Lemma getvar_version_and_product_witness :
  answered_with (holding "getvar:version")
    (fastboot_handle_command (example_platform (always ok_reply))
       (holding "getvar:version"))
    (str "OKAY0.4")
  /\ answered_with (holding "getvar:product")
       (fastboot_handle_command (example_platform (always ok_reply))
          (holding "getvar:product"))
       (str "OKAYNyx").
Proof.
  split.
  - apply (proj1 (getvar_version_and_product
                    (example_platform (always ok_reply))
                    (holding "getvar:version"))).
    reflexivity.
  - apply (proj2 (getvar_version_and_product
                    (example_platform (always ok_reply))
                    (holding "getvar:product"))).
    reflexivity.
Defined.

Lemma getvar_unknown_variable_witness :
  answered_with (holding "getvar:version ")
    (fastboot_handle_command (example_platform (always ok_reply))
       (holding "getvar:version "))
    (str "FAILunknown variable").
Proof.
  apply (getvar_unknown_variable (example_platform (always ok_reply))
           (holding "getvar:version ")).
  - reflexivity.
  - vm_compute. discriminate.
  - vm_compute. discriminate.
  - vm_compute. discriminate.
Defined.

(** Closes an equation between the frames of two logs. *)
Ltac frames_done :=
  rewrite !frames_written_app; cbn [frames_written app];
  rewrite ?app_nil_r, <- ?app_assoc; reflexivity.

Section Outcome.

Variable p : platform.

(** What a call of [fastboot_send_response] leaves: TX sending, the write
    of the buffer as the last call, and RX and the frames written by the
    disposition. *)
Lemma send_response_outcome (w : world) type d message :
  let w' := fastboot_send_response p w type d message in
  tx_state w' = FASTBOOT_TX_STATE_SEND_RESPONSE
  /\ (exists before c,
         log w' = before ++ [E_usb_device_write_ep1_in
                               (cstr (tx_buffer w')) c])
  /\ match d with
     | FASTBOOT_DISPOSITION_NORMAL =>
         rx_state w' = FASTBOOT_RX_STATE_COMMAND
         /\ frames_written (log w')
            = frames_written (log w) ++ [response_frame type message]
     | FASTBOOT_DISPOSITION_DOWNLOAD =>
         if download_head w <? download_size w
         then rx_state w' = FASTBOOT_RX_STATE_DOWNLOAD
              /\ frames_written (log w')
                 = frames_written (log w) ++ [response_frame type message]
         else rx_state w' = FASTBOOT_RX_STATE_COMMAND
              /\ frames_written (log w')
                 = frames_written (log w)
                   ++ [str "OKAYgot it!"; str "OKAYgot it!"]
     | FASTBOOT_DISPOSITION_REBOOT_BOOTLOADER =>
         rx_state w' = FASTBOOT_RX_STATE_WAITING_TX_FOR_REBOOT_BOOTLOADER
         /\ frames_written (log w')
            = frames_written (log w) ++ [response_frame type message]
     end.
Proof.
  cbv zeta. unfold fastboot_send_response. rewrite send_response_with_eq.
  destruct d.
  - unfold fastboot_tx_enter_send_response, fastboot_rx_enter_command,
      next_reply.
    cbv zeta. norm.
    split; [reflexivity|]. split; [eexists; eexists; reflexivity|].
    split; [reflexivity|].
    frames_done.
  - unfold fastboot_rx_enter_download. cbv zeta. wsimpl.
    destruct (download_head w <? download_size w).
    + unfold fastboot_tx_enter_send_response, next_reply.
      cbv zeta. norm.
      split; [reflexivity|]. split; [eexists; eexists; reflexivity|].
      split; [reflexivity|].
      frames_done.
    + unfold fastboot_send_response_nested. rewrite send_response_with_eq.
      unfold fastboot_tx_enter_send_response, fastboot_rx_enter_command,
        next_reply.
      cbv zeta. norm.
      split; [reflexivity|]. split; [eexists; eexists; reflexivity|].
      split; [reflexivity|].
      frames_done.
  - unfold fastboot_tx_enter_send_response,
      fastboot_rx_enter_waiting_tx_for_reboot_bootloader, next_reply.
    cbv zeta. norm.
    split; [reflexivity|]. split; [eexists; eexists; reflexivity|].
    split; [reflexivity|].
    frames_done.
Qed.

Lemma frames_written_ghost (l : list event) rx tx :
  frames_written (l ++ [G_handle_command rx tx]) = frames_written l.
Proof. rewrite frames_written_app. simpl. apply app_nil_r. Qed.

(** X4: whatever [rx_buffer] holds, the interpreter answers: it leaves TX
    in SendResponse with the write of [tx_buffer] as the last call made,
    RX in Command, Download or the reboot gate (never Idle, never the
    process gate), and it has armed one write, or two (the second case is
    the download of size 0). *)
Theorem interpreter_always_answers (w : world) :
  let w' := fastboot_handle_command p w in
  tx_state w' = FASTBOOT_TX_STATE_SEND_RESPONSE
  /\ (rx_state w' = FASTBOOT_RX_STATE_COMMAND
      \/ rx_state w' = FASTBOOT_RX_STATE_DOWNLOAD
      \/ rx_state w' = FASTBOOT_RX_STATE_WAITING_TX_FOR_REBOOT_BOOTLOADER)
  /\ (exists before c,
         log w' = before ++ [E_usb_device_write_ep1_in
                               (cstr (tx_buffer w')) c])
  /\ (length (frames_written (log w'))
      = S (length (frames_written (log w)))
      \/ length (frames_written (log w'))
         = S (S (length (frames_written (log w))))).
Proof.
  cbv zeta. unfold fastboot_handle_command. cbv zeta.
  destruct (parse_size _ 9 8 0) as [parsed_int_ok size].
  split_tests;
    match goal with
    | |- context [fastboot_send_response p ?a ?t ?d ?m] =>
        pose proof (send_response_outcome a t d m) as H;
        cbv zeta in H; cbv iota in H;
        destruct H as (Htx & Hlast & Hd)
    end;
    (split; [exact Htx|]);
    try match type of Hd with
        | if ?c then _ else _ => destruct c
        end;
    destruct Hd as [Hrx Hfr];
    (split; [rewrite Hrx; tauto|]);
    (split; [exact Hlast|]);
    rewrite Hfr; wsimpl; rewrite frames_written_ghost, length_app;
    simpl length; lia.
Qed.

(** The lines that are not [reboot-bootloader] take a branch of
    disposition Normal or Download. *)
Lemma handle_other_than_reboot (w : world) :
  line w <> str "reboot-bootloader" ->
  rx_state (fastboot_handle_command p w)
  <> FASTBOOT_RX_STATE_WAITING_TX_FOR_REBOOT_BOOTLOADER.
Proof.
  intros Hline. unfold fastboot_handle_command. cbv zeta. wsimpl.
  destruct (parse_size _ 9 8 0) as [parsed_int_ok size].
  destruct (strcmp (rx_buffer w) (str "reboot-bootloader") =? 0) eqn:Er.
  - apply test_reboot in Er. contradiction.
  - split_tests;
      match goal with
      | |- context [fastboot_send_response p ?a ?t ?d ?m] =>
          pose proof (send_response_outcome a t d m) as H;
          cbv zeta in H; cbv iota in H;
          destruct H as (_ & _ & Hd)
      end;
      try match type of Hd with
          | if ?c then _ else _ => destruct c
          end;
      destruct Hd as [Hrx _]; rewrite Hrx; discriminate.
Qed.

(** X3: the line [reboot-bootloader], and no other line, sends RX into the
    WaitingTxForRebootBootloader gate.  On that line the interpreter arms
    the write of the frame [OKAY] and nothing else: no read is armed, the
    download fields keep their values, and the status moves only if the
    transport refuses the write. *)
Theorem reboot_bootloader_answer (w : world) :
  (line w = str "reboot-bootloader" ->
   let w' := fastboot_handle_command p w in
   (exists c,
       log w' = log w ++ [G_handle_command (rx_state w) (tx_state w);
                          E_usb_device_write_ep1_in (str "OKAY") c]
       /\ (c = 0 -> status w' = status w))
   /\ rx_state w' = FASTBOOT_RX_STATE_WAITING_TX_FOR_REBOOT_BOOTLOADER
   /\ tx_state w' = FASTBOOT_TX_STATE_SEND_RESPONSE
   /\ download_untouched w w')
  /\ (line w <> str "reboot-bootloader" ->
      rx_state (fastboot_handle_command p w)
      <> FASTBOOT_RX_STATE_WAITING_TX_FOR_REBOOT_BOOTLOADER).
Proof.
  split; [|apply handle_other_than_reboot].
  intros Hline. cbv zeta.
  unfold fastboot_handle_command. cbv zeta. wsimpl.
  rewrite (not_true_false (strncmp _ (str "getvar:") 7 =? 0))
    by (rewrite test_getvar; fold (line w); rewrite Hline; discriminate).
  rewrite (proj2 (test_reboot (rx_buffer w)) Hline).
  unfold fastboot_send_response. rewrite send_response_with_eq.
  unfold fastboot_tx_enter_send_response,
    fastboot_rx_enter_waiting_tx_for_reboot_bootloader, next_reply,
    download_untouched.
  cbv zeta. norm.
  split; [|repeat split].
  eexists. split.
  - rewrite <- app_assoc. reflexivity.
  - intros ->. reflexivity.
Qed.

End Outcome.

Lemma reboot_bootloader_answer_witness :
  rx_state (fastboot_handle_command (example_platform (always ok_reply))
              (holding "reboot-bootloader"))
  = FASTBOOT_RX_STATE_WAITING_TX_FOR_REBOOT_BOOTLOADER
  /\ rx_state (fastboot_handle_command (example_platform (always ok_reply))
                 (holding "reboot-bootloader "))
     <> FASTBOOT_RX_STATE_WAITING_TX_FOR_REBOOT_BOOTLOADER.
Proof.
  split.
  - apply (proj1 (reboot_bootloader_answer
                    (example_platform (always ok_reply))
                    (holding "reboot-bootloader"))).
    reflexivity.
  - apply (proj2 (reboot_bootloader_answer
                    (example_platform (always ok_reply))
                    (holding "reboot-bootloader "))).
    vm_compute. discriminate.
Defined.

(** * The size loop and the sizes it reads *)

Lemma fold_add_digit_bounds (l : list ascii) (acc : Z) :
  0 <= acc ->
  acc * 16 ^ Z.of_nat (length l)
  <= fold_left add_digit l acc
  < (acc + 1) * 16 ^ Z.of_nat (length l).
Proof.
  revert acc. induction l as [|ch l IH]; intros acc Hacc.
  - simpl. lia.
  - cbn [fold_left length]. rewrite Nat2Z.inj_succ, Z.pow_succ_r by lia.
    pose proof (hex_value_range ch) as Hd.
    assert (Hp : 0 < 16 ^ Z.of_nat (length l))
      by (apply Z.pow_pos_nonneg; lia).
    specialize (IH (add_digit acc ch)). unfold add_digit in *.
    assert (H0 : 0 <= 16 * acc + hex_value ch) by lia.
    specialize (IH H0). nia.
Qed.

Lemma size_window_length (buf : list ascii) :
  length buf = BUFFER_BYTES -> length (size_window buf) = 8%nat.
Proof.
  intros H. unfold size_window.
  rewrite length_firstn, length_skipn, H. reflexivity.
Qed.

Lemma hex_number_u32 (buf : list ascii) :
  length buf = BUFFER_BYTES -> 0 <= hex_number (size_window buf) < 2 ^ 32.
Proof.
  intros H. unfold hex_number.
  pose proof (fold_add_digit_bounds (size_window buf) 0 (Z.le_refl 0)) as B.
  rewrite (size_window_length buf H) in B.
  change (16 ^ Z.of_nat 8) with (2 ^ 32) in B. lia.
Qed.

(** X6: on a buffer of 65 bytes the size loop succeeds exactly when the 8
    bytes after [download:] are hex digits; its result is then the number
    they write, which is below 2^32 (the 32-bit shift never drops a bit);
    and the 8 digits of any 32-bit number, in lower or upper case, are
    read back as that number. *)
Theorem size_loop_reads_every_size (buf : list ascii) :
  length buf = BUFFER_BYTES ->
  fst (parse_size buf 9 8 0) = forallb is_hex_digit (size_window buf)
  /\ (forallb is_hex_digit (size_window buf) = true ->
      snd (parse_size buf 9 8 0) = hex_number (size_window buf)
      /\ 0 <= hex_number (size_window buf) < 2 ^ 32)
  /\ (forall (upper : bool) (S : Z),
         0 <= S < 2 ^ 32 ->
         size_window buf = hex_digits upper 8 S ->
         parse_size buf 9 8 0 = (true, S)).
Proof.
  intros Hlen. pose proof (parse_size_window buf Hlen) as Hp.
  split; [|split].
  - rewrite Hp. destruct (forallb is_hex_digit (size_window buf));
      reflexivity.
  - intros Hhex. rewrite Hhex in Hp. rewrite Hp.
    split; [reflexivity | apply hex_number_u32; exact Hlen].
  - intros upper S HS Hwin. rewrite Hp, Hwin.
    rewrite hex_digits_are_hex, hex_number_digits by exact HS.
    reflexivity.
Qed.

Lemma size_loop_reads_every_size_witness :
  parse_size (rx_buffer (holding "download:DeadBeef")) 9 8 0
  = (true, 3735928559).
Proof.
  pose proof (proj1 (proj2 (size_loop_reads_every_size
                              (rx_buffer (holding "download:DeadBeef"))
                              eq_refl)) eq_refl) as [H _].
  rewrite (surjective_pairing (parse_size _ 9 8 0)).
  rewrite H.
  rewrite (proj1 (size_loop_reads_every_size
                    (rx_buffer (holding "download:DeadBeef")) eq_refl)).
  reflexivity.
Defined.

(** X7: [strncat] is told it may append 44 bytes to the 17 of the prefix,
    and it adds a terminator after what it appends: for a line of 44 bytes
    or more the three make 62 bytes stored into the array of 61; for a
    shorter line the array keeps its 61 bytes. *)
Theorem unknown_command_message_size (command : list ascii) :
  length (unknown_command_message command)
  = if (44 <=? length (cstr command))%nat then 62%nat else 61%nat.
Proof.
  unfold unknown_command_message. cbv zeta.
  change (61 - length (cstr unknown_command_message_init))%nat with 44%nat.
  unfold strncat.
  change (length (cstr unknown_command_message_init)) with 17%nat.
  unfold write_at.
  repeat rewrite ?length_app, ?length_firstn, ?length_skipn.
  change (length unknown_command_message_init) with 61%nat.
  cbn [length].
  destruct (Nat.leb_spec 44 (length (cstr command))); lia.
Qed.

Section Frames.

Variable p : platform.

(** X8: every call of [fastboot_send_response] with a message first
    builds [tx_buffer] (the [memset], the [strcpy] of the tag, the
    [strncpy] of at most 61 bytes of the message, all inside the 65
    bytes), then resolves the disposition, then arms the write.  The
    buffer the write is armed on is the one built, except for the
    Download disposition with nothing due, where the nested call has
    built [OKAYgot it!] over it.  A message of at most 60 bytes leaves
    the string of tag and message, at most 64 bytes, and a NUL in the
    last byte; a message of 61 bytes or more leaves no NUL in any of the
    65 bytes, so that [strlen(tx_buffer)] has no terminator to find
    inside the array. *)
Theorem response_frame_length (w : world) type d (m : list ascii) :
  let built := response_buffer type (Some m) in
  let resolve :=
    match d with
    | FASTBOOT_DISPOSITION_NORMAL => fastboot_rx_enter_command p
    | FASTBOOT_DISPOSITION_DOWNLOAD => fastboot_rx_enter_download p
    | FASTBOOT_DISPOSITION_REBOOT_BOOTLOADER =>
        fastboot_rx_enter_waiting_tx_for_reboot_bootloader
    end in
  let armed_on := resolve (set_tx_buffer built w) in
  fastboot_send_response p w type d (Some m)
  = fastboot_tx_enter_send_response p armed_on
  /\ built = strncpy (strcpy (repeat NUL BUFFER_BYTES) (response_tag type))
               4 m (BUFFER_BYTES - 4)
  /\ length built = BUFFER_BYTES
  /\ ((d = FASTBOOT_DISPOSITION_DOWNLOAD ->
       download_head w < download_size w) ->
      tx_buffer armed_on = built)
  /\ (d = FASTBOOT_DISPOSITION_DOWNLOAD ->
      download_size w <= download_head w ->
      tx_buffer armed_on
      = response_buffer FASTBOOT_RESPONSE_OKAY (Some (str "got it!")))
  /\ ((length (cstr m) <= 60)%nat ->
      cstr built = response_tag type ++ cstr m
      /\ (length (cstr built) <= 64)%nat
      /\ nth 64 built NUL = NUL)
  /\ ((61 <= length (cstr m))%nat -> no_nul built).
Proof.
  cbv zeta.
  split; [unfold fastboot_send_response; apply send_response_with_eq|].
  split; [symmetry; apply (tx_buffer_built type (Some m))|].
  split; [apply response_buffer_length|].
  split; [|split; [|split]].
  - intros Hdue. destruct d.
    + unfold fastboot_rx_enter_command. cbv zeta. norm. reflexivity.
    + specialize (Hdue eq_refl). apply Z.ltb_lt in Hdue.
      unfold fastboot_rx_enter_download. wsimpl. rewrite Hdue.
      cbv zeta. norm. reflexivity.
    + reflexivity.
  - intros -> Hdone. apply Z.ltb_ge in Hdone.
    unfold fastboot_rx_enter_download. wsimpl. rewrite Hdone.
    unfold fastboot_send_response_nested. rewrite send_response_with_eq.
    unfold fastboot_tx_enter_send_response, fastboot_rx_enter_command.
    cbv zeta. norm. reflexivity.
  - intros Hshort.
    fold (response_frame type (Some m)). rewrite response_frame_some.
    change (BUFFER_BYTES - 4)%nat with 61%nat.
    rewrite firstn_all2 by lia.
    split; [reflexivity|]. split.
    + rewrite length_app, response_tag_length. lia.
    + unfold response_buffer, strncpy_bytes.
      change (BUFFER_BYTES - 4)%nat with 61%nat.
      rewrite firstn_all2 by lia.
      rewrite app_assoc.
      rewrite app_nth2
        by (rewrite length_app, response_tag_length; lia).
      rewrite length_app, response_tag_length.
      apply nth_repeat.
  - intros Hlong.
    unfold response_buffer, strncpy_bytes.
    change (BUFFER_BYTES - 4)%nat with 61%nat.
    rewrite length_firstn.
    replace (61 - Nat.min 61 (length (cstr m)))%nat with O by lia.
    simpl repeat. rewrite app_nil_r.
    apply no_nul_app.
    + apply response_tag_no_nul.
    + apply no_nul_firstn, cstr_no_nul.
Qed.

End Frames.

Lemma response_frame_length_witness :
  no_nul (response_buffer FASTBOOT_RESPONSE_FAIL
            (Some (repeat "x"%char 61))).
Proof.
  refine (proj2 (proj2 (proj2 (proj2 (proj2 (proj2
            (response_frame_length (example_platform (always ok_reply))
               (holding "") FASTBOOT_RESPONSE_FAIL
               FASTBOOT_DISPOSITION_NORMAL
               (repeat "x"%char 61))))))) _).
  vm_compute. lia.
Defined.

(** * The sizes a download is accepted with *)

Section DownloadSizes.

Variable p : platform.

Lemma frame_of_digits type (upper : bool) (v : Z) :
  response_frame type (Some (hex_digits upper 8 v ++ [NUL]))
  = response_tag type ++ hex_digits upper 8 v.
Proof.
  rewrite response_frame_some.
  rewrite cstr_app_nul by apply hex_digits_no_nul.
  rewrite firstn_all2
    by (rewrite hex_digits_length; unfold BUFFER_BYTES; lia).
  reflexivity.
Qed.

(** X5: a [download:] line whose 8 digits write a number above the
    capacity is answered [FAILdownload size too large]; RX is back in
    Command and the download fields keep their values. *)
Theorem download_too_large (w : world) :
  length (rx_buffer w) = BUFFER_BYTES ->
  starts_with "download:" (line w) ->
  forallb is_hex_digit (size_window (rx_buffer w)) = true ->
  fastboot_download_capacity p < hex_number (size_window (rx_buffer w)) ->
  answered_with w (fastboot_handle_command p w)
    (str "FAILdownload size too large")
  /\ download_untouched w (fastboot_handle_command p w).
Proof.
  intros Hlen Hd Hhex Hbig.
  rewrite (handle_download p w Hlen Hd). cbv zeta. rewrite Hhex.
  replace (hex_number (size_window (rx_buffer w))
           >? fastboot_download_capacity p) with true
    by (symmetry; apply Z.gtb_lt; exact Hbig).
  destruct (answered_normal p w FASTBOOT_RESPONSE_FAIL
              (Some (str "download size too large"))) as (Hans & Hdl & _).
  split; [exact Hans | exact Hdl].
Qed.

(** X9: a [download:] line whose 8 bytes after the colon are hex digits,
    in any mix of the two cases and whatever follows them in the buffer,
    writing a number [N] with [0 < N <= C]: the download fields become
    0, [N], 0; the progress text is shown and the first chunk of
    [MIN(N, USB_EP_BUFFER_MAX_SIZE)] bytes is asked at offset 0; RX is in
    Download; and then [DATA] with the 8 digits of [N] is armed. *)
Theorem download_accepted_any_digits (w : world) :
  length (rx_buffer w) = BUFFER_BYTES ->
  starts_with "download:" (line w) ->
  forallb is_hex_digit (size_window (rx_buffer w)) = true ->
  0 < hex_number (size_window (rx_buffer w))
  <= fastboot_download_capacity p ->
  let N := hex_number (size_window (rx_buffer w)) in
  let w' := fastboot_handle_command p w in
  (exists c1 c2 : Z,
      log w' = log w
               ++ [G_handle_command (rx_state w) (tx_state w);
                   E_set_text (TEXT_DOWNLOADING 0 (N / 1024));
                   E_usb_device_read_ep1_out (INTO_DOWNLOAD_BUFFER 0)
                     (MIN N (USB_EP_BUFFER_MAX_SIZE p)) c1;
                   E_usb_device_write_ep1_in
                     (str "DATA" ++ hex_digits false 8 N) c2]
      /\ (c1 = 0 -> c2 = 0 -> status w' = status w))
  /\ download_head w' = 0 /\ download_size w' = N /\ download_amount w' = 0
  /\ rx_state w' = FASTBOOT_RX_STATE_DOWNLOAD
  /\ tx_state w' = FASTBOOT_TX_STATE_SEND_RESPONSE.
Proof.
  intros Hlen Hd Hhex HN. cbv zeta.
  pose proof (hex_number_u32 (rx_buffer w) Hlen) as H32.
  rewrite (handle_download p w Hlen Hd). cbv zeta. rewrite Hhex.
  replace (hex_number (size_window (rx_buffer w))
           >? fastboot_download_capacity p) with false
    by (symmetry; apply not_true_false; rewrite Z.gtb_lt; lia).
  set (N := hex_number (size_window (rx_buffer w))) in *.
  unfold fastboot_send_response. rewrite send_response_with_eq.
  unfold fastboot_rx_enter_download. wsimpl.
  replace (0 <? N) with true by (symmetry; apply Z.ltb_lt; lia).
  unfold fastboot_tx_enter_send_response, next_reply.
  cbv zeta. norm.
  fold (response_frame FASTBOOT_RESPONSE_DATA (Some (s_printf_08x N))).
  unfold s_printf_08x. rewrite frame_of_digits.
  rewrite Z.sub_0_r. unfold u32. rewrite Z.mod_small by lia.
  change (0 / 1024) with 0.
  split; [|repeat split].
  eexists. eexists. split.
  - rewrite <- !app_assoc. reflexivity.
  - rewrite <- !app_assoc. cbn [app].
    intros H1 H2. cbn [app] in H1, H2. rewrite H2, H1. reflexivity.
Qed.

(** X10: [getvar:max-download-size] is answered [OKAY] and 8 digits, and
    those digits are a size the driver itself accepts: a line
    [download:] followed by them starts a download of exactly the
    capacity. *)
Theorem announced_capacity_is_accepted (w w2 : world) :
  0 < fastboot_download_capacity p < 2 ^ 32 ->
  line w = str "getvar:max-download-size" ->
  exists digits : list ascii,
    length digits = 8%nat
    /\ answered_with w (fastboot_handle_command p w) (str "OKAY" ++ digits)
    /\ download_untouched w (fastboot_handle_command p w)
    /\ (length (rx_buffer w2) = BUFFER_BYTES ->
        firstn 17 (rx_buffer w2) = str "download:" ++ digits ->
        download_size (fastboot_handle_command p w2)
        = fastboot_download_capacity p
        /\ download_head (fastboot_handle_command p w2) = 0
        /\ rx_state (fastboot_handle_command p w2)
           = FASTBOOT_RX_STATE_DOWNLOAD).
Proof.
  intros HC Hline.
  exists (hex_digits true 8 (fastboot_download_capacity p)).
  split; [apply hex_digits_length|].
  assert (Hg : starts_with "getvar:" (line w))
    by (rewrite Hline; reflexivity).
  rewrite (handle_getvar p w Hg). cbv zeta.
  rewrite (not_true_false (strcmp _ (str "version") =? 0))
    by (rewrite (test_variable (rx_buffer w) "version" eq_refl Hg);
        fold (line w); rewrite Hline; discriminate).
  rewrite (not_true_false (strcmp _ (str "product") =? 0))
    by (rewrite (test_variable (rx_buffer w) "product" eq_refl Hg);
        fold (line w); rewrite Hline; discriminate).
  rewrite (proj2 (test_variable (rx_buffer w) "max-download-size"
                    eq_refl Hg))
    by (fold (line w); rewrite Hline; reflexivity).
  destruct (answered_normal p w FASTBOOT_RESPONSE_OKAY
              (Some (s_printf_08X (fastboot_download_capacity p))))
    as (Hans & Hdl & _).
  unfold s_printf_08X in Hans at 2. rewrite frame_of_digits in Hans.
  split; [exact Hans|]. split; [exact Hdl|].
  intros Hlen Hbuf.
  destruct (download_accepted p w2 true (fastboot_download_capacity p)
              Hlen Hbuf) as (_ & Hh & Hs & _ & Hrx & _); [lia | lia |].
  split; [exact Hs|]. split; [exact Hh | exact Hrx].
Qed.

End DownloadSizes.

Lemma download_too_large_witness :
  answered_with (holding "download:08000001")
    (fastboot_handle_command (example_platform (always ok_reply))
       (holding "download:08000001"))
    (str "FAILdownload size too large").
Proof.
  apply (download_too_large (example_platform (always ok_reply))
           (holding "download:08000001")).
  - reflexivity.
  - reflexivity.
  - reflexivity.
  - vm_compute. reflexivity.
Defined.

Lemma download_accepted_any_digits_witness :
  download_size
    (fastboot_handle_command (example_platform (always ok_reply))
       (holding "download:0000aBcD and more"))
  = 43981.
Proof.
  apply (download_accepted_any_digits (example_platform (always ok_reply))
           (holding "download:0000aBcD and more")).
  - reflexivity.
  - reflexivity.
  - reflexivity.
  - vm_compute. split; [reflexivity | discriminate].
Defined.

Lemma announced_capacity_is_accepted_witness :
  exists digits : list ascii,
    length digits = 8%nat
    /\ answered_with (holding "getvar:max-download-size")
         (fastboot_handle_command (example_platform (always ok_reply))
            (holding "getvar:max-download-size"))
         (str "OKAY" ++ digits).
Proof.
  destruct (announced_capacity_is_accepted
              (example_platform (always ok_reply))
              (holding "getvar:max-download-size")
              (holding "download:08000000"))
    as (digits & Hlen & Hans & _).
  - vm_compute. split; reflexivity.
  - reflexivity.
  - exists digits. split; [exact Hlen | exact Hans].
Defined.

(** * The shape of the sessions in the loop *)

Lemma entry_ok_snoc (p : platform) (l : list event) (e : event) :
  forallb (entry_ok p) (l ++ [e]) = forallb (entry_ok p) l && entry_ok p e.
Proof. rewrite forallb_app. simpl. rewrite andb_true_r. reflexivity. Qed.

Ltac log_entries Hlog :=
  rewrite ?entry_ok_snoc, ?Hlog;
  cbv beta iota delta [entry_ok shows_working_states read_within frame_fits
                       andb].

Ltac conjuncts :=
  repeat match goal with |- _ /\ _ => split end.

Ltac open_settled H :=
  destruct H as (Htx & Hst & Hh0 & Hhs & Hsc & Hs32 & Hbuf & Hlog).

Section Shape.

Variable p : platform.

Lemma settled_set_status (w : world) (s : fastboot_status) :
  s <> FASTBOOT_STATUS_INVALID_STATE ->
  settled p w -> settled p (snd (fastboot_set_status w s)).
Proof.
  intros Hs. unfold settled. norm. intros H. open_settled H.
  conjuncts; try assumption.
  destruct (severity_le (status w) s); assumption.
Qed.

Lemma settled_set_rx_state (w : world) (s : fastboot_rx_state) :
  settled p w -> settled p (set_rx_state s w).
Proof. unfold settled. norm. tauto. Qed.

Lemma settled_emit (w : world) (e : event) :
  entry_ok p e = true -> settled p w -> settled p (emit e w).
Proof.
  intros He. unfold settled. norm. intros H. open_settled H.
  conjuncts; try assumption.
  rewrite entry_ok_snoc, Hlog, He. reflexivity.
Qed.

Lemma sound_set_status (w : world) (s : fastboot_status) :
  s <> FASTBOOT_STATUS_INVALID_STATE ->
  sound p w -> sound p (snd (fastboot_set_status w s)).
Proof.
  intros Hs (H & Hrx & Hidle & Hdl).
  split; [apply settled_set_status; assumption|].
  norm. conjuncts; try assumption.
  intros E. rewrite (Hidle E). destruct s; reflexivity.
Qed.

Lemma sound_emit (w : world) (e : event) :
  entry_ok p e = true -> sound p w -> sound p (emit e w).
Proof.
  intros He (H & Hrx & Hidle & Hdl).
  split; [apply settled_emit; assumption|].
  norm. conjuncts; assumption.
Qed.

Lemma sound_set_timers (w : world) (a b : Z) :
  sound p w -> sound p (set_timers a b w).
Proof. unfold sound, settled. norm. tauto. Qed.

Lemma sound_system_maintenance (w : world) :
  sound p w -> sound p (_system_maintenance p w).
Proof.
  intros Hw. unfold _system_maintenance. cbv zeta.
  split_tests;
    repeat first [ apply sound_set_timers
                 | apply sound_emit; [reflexivity|] ];
    exact Hw.
Qed.

Lemma sound_handle_ep0_ctrl (w : world) :
  sound p w -> sound p (fastboot_handle_ep0_ctrl p w).
Proof.
  intros Hw. unfold fastboot_handle_ep0_ctrl. cbv zeta.
  split_tests;
    repeat first [ apply sound_set_status; [discriminate|]
                 | apply sound_emit; [reflexivity|] ];
    exact Hw.
Qed.

(** *** Entering a state *)

Lemma sound_rx_enter_command (w : world) :
  settled p w -> sound p (fastboot_rx_enter_command p w).
Proof.
  intros Hw. unfold fastboot_rx_enter_command. cbv zeta.
  split.
  - apply settled_set_rx_state.
    split_tests;
      repeat first [ apply settled_set_status; [discriminate|]
                   | apply settled_emit; [reflexivity|] ];
      revert Hw; unfold settled; norm; tauto.
  - norm. conjuncts; discriminate.
Qed.

Lemma settled_tx_enter_send_response (w : world) :
  settled p w -> settled p (fastboot_tx_enter_send_response p w).
Proof.
  intros Hw. unfold fastboot_tx_enter_send_response. cbv zeta.
  assert (Hfit : (length (cstr (tx_buffer w)) <= 64)%nat)
    by (open_settled Hw; assumption).
  assert (He : forall c,
             entry_ok p (E_usb_device_write_ep1_in (cstr (tx_buffer w)) c)
             = true).
  { intros c. cbn [entry_ok shows_working_states read_within frame_fits
                   andb]. apply Nat.leb_le. exact Hfit. }
  assert (H : forall w', settled p w' ->
                         settled p (set_tx_state
                                      FASTBOOT_TX_STATE_SEND_RESPONSE w')).
  { intros w'. unfold settled. norm. intros H'. open_settled H'.
    conjuncts; try assumption. discriminate. }
  apply H.
  split_tests;
    repeat first [ apply settled_set_status; [discriminate|]
                 | apply settled_emit; [apply He|] ];
    exact Hw.
Qed.

Lemma sound_tx_enter_send_response (w : world) :
  sound p w -> sound p (fastboot_tx_enter_send_response p w).
Proof.
  intros (H & Hrx & Hidle & Hdl).
  split; [apply settled_tx_enter_send_response; exact H|].
  unfold fastboot_tx_enter_send_response. cbv zeta. norm.
  conjuncts; try assumption.
  intros E. rewrite (Hidle E). destruct (_ =? 0); reflexivity.
Qed.

(** A message of at most 60 bytes leaves a frame of at most 64. *)
Lemma settled_set_tx_buffer (w : world) type (m : list ascii) :
  (length (cstr m) <= 60)%nat ->
  settled p w ->
  settled p (set_tx_buffer (response_buffer type (Some m)) w).
Proof.
  intros Hm. unfold settled. norm. intros H. open_settled H.
  conjuncts; try assumption.
  fold (response_frame type (Some m)). rewrite response_frame_some.
  rewrite length_app, response_tag_length, length_firstn. lia.
Qed.

Lemma sound_send_response_normal (f : world -> world) (w : world)
  type (m : list ascii) :
  (length (cstr m) <= 60)%nat ->
  settled p w ->
  sound p (fastboot_send_response_with p f w type
             FASTBOOT_DISPOSITION_NORMAL (Some m)).
Proof.
  intros Hm Hw. rewrite send_response_with_eq.
  apply sound_tx_enter_send_response, sound_rx_enter_command,
    settled_set_tx_buffer; assumption.
Qed.

Lemma settled_set_tight_turnaround (w : world) (b : bool) :
  settled p w -> settled p (set_tight_turnaround b w).
Proof. unfold settled. norm. tauto. Qed.

(** The next chunk is asked inside the capacity; no chunk is asked once
    the head has reached the size. *)
Lemma sound_rx_enter_download (w : world) :
  settled p w -> sound p (fastboot_rx_enter_download p w).
Proof.
  intros Hw. unfold fastboot_rx_enter_download. cbv zeta.
  destruct (download_head w <? download_size w) eqn:Ehead.
  - apply Z.ltb_lt in Ehead. open_settled Hw.
    assert (Hlen : MIN (u32 (download_size w - download_head w))
                     (USB_EP_BUFFER_MAX_SIZE p)
                   <= download_size w - download_head w).
    { unfold u32. rewrite Z.mod_small by lia. unfold MIN.
      destruct (_ <? _) eqn:E; [apply Z.ltb_lt in E | apply Z.ltb_ge in E];
        lia. }
    unfold sound, settled. norm. log_entries Hlog.
    replace (0 <=? download_head w) with true
      by (symmetry; apply Z.leb_le; lia).
    replace (download_head w + MIN _ _ <=? fastboot_download_capacity p)
      with true by (symmetry; apply Z.leb_le; lia).
    conjuncts; try assumption; try discriminate; try lia;
      try reflexivity.
    split_tests; try assumption; discriminate.
  - unfold fastboot_send_response_nested.
    apply sound_send_response_normal; [simpl; lia|].
    apply settled_set_tight_turnaround. exact Hw.
Qed.

Lemma sound_send_response (w : world) type d (m : list ascii) :
  (length (cstr m) <= 60)%nat ->
  settled p w ->
  sound p (fastboot_send_response p w type d (Some m)).
Proof.
  intros Hm Hw. unfold fastboot_send_response. destruct d.
  - apply sound_send_response_normal; assumption.
  - rewrite send_response_with_eq.
    apply sound_tx_enter_send_response, sound_rx_enter_download,
      settled_set_tx_buffer; assumption.
  - rewrite send_response_with_eq.
    apply sound_tx_enter_send_response.
    split.
    + apply settled_set_rx_state, settled_set_tx_buffer; assumption.
    + unfold fastboot_rx_enter_waiting_tx_for_reboot_bootloader. norm.
      conjuncts; discriminate.
Qed.

(** *** The interpreter *)

Lemma settled_set_download (w : world) (size : Z) :
  0 <= size <= fastboot_download_capacity p -> size < 2 ^ 32 ->
  settled p w -> settled p (set_download 0 size 0 w).
Proof.
  intros Hsize H32. unfold settled. norm. intros H. open_settled H.
  conjuncts; try assumption; lia.
Qed.

Lemma sound_handle_command (w : world) :
  length (rx_buffer w) = BUFFER_BYTES ->
  settled p w -> sound p (fastboot_handle_command p w).
Proof.
  intros Hlen Hw.
  assert (H1 : settled p (emit (G_handle_command (rx_state w) (tx_state w))
                            w))
    by (apply settled_emit; [reflexivity | exact Hw]).
  unfold fastboot_handle_command. cbv zeta. wsimpl.
  rewrite (parse_size_window _ Hlen).
  pose proof (hex_number_u32 (rx_buffer w) Hlen) as H32.
  destruct (forallb is_hex_digit (size_window (rx_buffer w)));
    cbv beta iota delta [negb];
    split_tests; apply sound_send_response;
    try exact H1;
    unfold s_printf_08X, s_printf_08x;
    try match goal with
      | |- (length (cstr (str _)) <= 60)%nat => vm_compute; lia
      | |- (length (cstr (hex_digits _ _ _ ++ [NUL])) <= 60)%nat =>
          rewrite cstr_app_nul, hex_digits_length
            by apply hex_digits_no_nul;
          lia
      | |- (length (cstr (unknown_command_message _)) <= 60)%nat =>
          rewrite cstr_unknown_command_message, length_firstn; lia
      end.
  apply settled_set_download; [|lia|exact H1].
  match goal with
  | H : (_ >? _) = false |- _ =>
      apply not_true_iff_false in H; rewrite Z.gtb_lt in H
  end.
  lia.
Qed.

(** *** The RX states *)

Lemma settled_set_rx (w : world) (buf : list ascii) (n : Z) :
  settled p w -> settled p (set_rx buf n w).
Proof. unfold settled. norm. tauto. Qed.

Lemma sound_rx_state_command (w : world) :
  sound p w ->
  rx_state w = FASTBOOT_RX_STATE_COMMAND ->
  sound p (fastboot_rx_state_command p w).
Proof.
  intros Hw Hrx. unfold fastboot_rx_state_command. cbv zeta.
  destruct (rc (next_reply p w) =? 0).
  - split.
    + unfold fastboot_rx_enter_waiting_tx_for_process.
      apply settled_set_rx_state, settled_set_rx, settled_set_rx,
        settled_emit; [reflexivity|apply Hw].
    + unfold fastboot_rx_enter_waiting_tx_for_process. norm.
      conjuncts; discriminate.
  - split_tests;
      repeat first [ apply sound_set_status; [discriminate|]
                   | apply sound_emit; [reflexivity|] ];
      exact Hw.
Qed.

(** The head moves by what the transfer delivered, which is no more than
    was asked: it does not pass the size. *)
Lemma sound_rx_state_download (w : world) :
  sound p w ->
  rx_state w = FASTBOOT_RX_STATE_DOWNLOAD ->
  sound p (fastboot_rx_state_download p w).
Proof.
  intros Hw Hrx. unfold fastboot_rx_state_download. cbv zeta.
  destruct (rc (next_reply p w) =? 0).
  - apply sound_rx_enter_download.
    destruct Hw as (H & _ & _ & Hdl). destruct (Hdl Hrx) as [Hhead Hasked].
    open_settled H.
    unfold settled, delivered. norm. log_entries Hlog.
    set (got := firstn (Z.to_nat (ep1_out_len w)) _).
    assert (Hgot : 0 <= Z.of_nat (length got)
                   <= download_size w - download_head w).
    { unfold got. rewrite length_firstn. lia. }
    unfold u32. rewrite Z.mod_small by lia.
    conjuncts; try assumption; try reflexivity; lia.
  - split_tests;
      repeat first [ apply sound_set_status; [discriminate|]
                   | apply sound_emit; [reflexivity|] ];
      exact Hw.
Qed.

Lemma sound_rx_state_waiting_tx_for_process (w : world) :
  length (rx_buffer w) = BUFFER_BYTES ->
  sound p w ->
  sound p (fastboot_rx_state_waiting_tx_for_process p w).
Proof.
  intros Hlen Hw. unfold fastboot_rx_state_waiting_tx_for_process.
  destruct (tx_state w); try exact Hw.
  apply sound_handle_command.
  - exact Hlen.
  - unfold fastboot_rx_enter_idle. apply settled_set_rx_state, Hw.
Qed.

Lemma sound_rx_state_waiting_tx_for_reboot_bootloader (w : world) :
  sound p w ->
  sound p (fastboot_rx_state_waiting_tx_for_reboot_bootloader w).
Proof.
  intros Hw. unfold fastboot_rx_state_waiting_tx_for_reboot_bootloader.
  destruct (tx_state w); try exact Hw.
  unfold fastboot_rx_enter_idle. split.
  - apply settled_set_status; [discriminate|].
    apply settled_set_rx_state, Hw.
  - norm. conjuncts; try discriminate.
    intros _. destruct (status w); reflexivity.
Qed.

(** The RX [switch], entered in a state other than Idle: the name it
    hands to the display is that of a working state. *)
Lemma sound_rx_step (w : world) :
  length (rx_buffer w) = BUFFER_BYTES ->
  sound p w ->
  rx_state w <> FASTBOOT_RX_STATE_IDLE ->
  sound p (snd (rx_step p w))
  /\ rx_name_of_a_working_state (fst (rx_step p w)) = true.
Proof.
  intros Hlen Hw Hidle. unfold rx_step.
  destruct (rx_state w) eqn:Erx; cbn [fst snd].
  - destruct Hw as (_ & Hrx & _). contradiction.
  - contradiction.
  - split; [apply sound_rx_state_command; assumption | reflexivity].
  - split; [apply sound_rx_state_download; assumption | reflexivity].
  - split; [apply sound_rx_state_waiting_tx_for_process; assumption
           | reflexivity].
  - split; [apply sound_rx_state_waiting_tx_for_reboot_bootloader;
            assumption
           | reflexivity].
Qed.

Lemma sound_tx_step (w : world) :
  sound p w ->
  sound p (snd (tx_step p w))
  /\ tx_name_of_a_working_state (fst (tx_step p w)) = true.
Proof.
  intros Hw. unfold tx_step.
  destruct (tx_state w) eqn:Etx; cbn [fst snd].
  - destruct Hw as ((Htx & _) & _). contradiction.
  - split; [exact Hw | reflexivity].
  - split; [|reflexivity].
    unfold fastboot_tx_state_send_response, fastboot_tx_enter_idle.
    cbv zeta.
    assert (H : forall w', sound p w' ->
                           sound p (set_tx_state FASTBOOT_TX_STATE_IDLE w')).
    { intros w'. unfold sound, settled. norm.
      intros ((H1 & H2) & H3). conjuncts; try assumption; try tauto.
      discriminate. }
    split_tests;
      repeat first [ apply H
                   | apply sound_set_status; [discriminate|]
                   | apply sound_emit; [reflexivity|] ];
      exact Hw.
Qed.

(** *** A round *)

Lemma sound_tick (w : world) :
  buffers_sized w ->
  sound p w ->
  status w = FASTBOOT_STATUS_NORMAL ->
  sound p (snd (tick p w)).
Proof.
  intros Hsized Hw Hst. rewrite tick_eq. cbv zeta.
  assert (Hidle : rx_state w <> FASTBOOT_RX_STATE_IDLE).
  { intros E. destruct Hw as (_ & _ & Hi & _).
    rewrite (Hi E) in Hst. discriminate Hst. }
  set (w1 := if negb (tight_turnaround w) then _system_maintenance p w
             else w).
  assert (H1 : sound p w1 /\ buffers_sized w1
               /\ rx_state w1 = rx_state w).
  { unfold w1. destruct (negb (tight_turnaround w)).
    - split; [apply sound_system_maintenance; exact Hw|].
      split; [apply sized_system_maintenance; exact Hsized|].
      unfold _system_maintenance. cbv zeta. norm. reflexivity.
    - split; [exact Hw|]. split; [exact Hsized | reflexivity]. }
  destruct H1 as (Hw1 & Hsized1 & Hrx1).
  destruct (flag (next_reply p w1)); cbn [snd].
  - apply sound_emit; [reflexivity | exact Hw1].
  - set (w2 := emit (E_usb_device_get_suspended false) w1).
    assert (Hw3 : sound p (fastboot_handle_ep0_ctrl p w2))
      by (apply sound_handle_ep0_ctrl, sound_emit;
          [reflexivity | exact Hw1]).
    assert (Hlen3 : length (rx_buffer (fastboot_handle_ep0_ctrl p w2))
                    = BUFFER_BYTES).
    { unfold fastboot_handle_ep0_ctrl, w2. cbv zeta. norm.
      apply Hsized1. }
    assert (Hrx3 : rx_state (fastboot_handle_ep0_ctrl p w2)
                   <> FASTBOOT_RX_STATE_IDLE).
    { unfold fastboot_handle_ep0_ctrl, w2. cbv zeta. norm.
      rewrite Hrx1. exact Hidle. }
    destruct (sound_rx_step _ Hlen3 Hw3 Hrx3) as [Hw4 Hname4].
    destruct (sound_tx_step _ Hw4) as [Hw5 Hname5].
    match goal with
    | |- sound p (if ?c then _ else _) => destruct c; [|exact Hw5]
    end.
    apply sound_emit; [|exact Hw5].
    cbv beta iota delta [entry_ok shows_working_states read_within
                         frame_fits].
    rewrite Hname4, Hname5. reflexivity.
Qed.

Lemma sound_session_at_loop (dram bar : Z) :
  sound p (session_at_loop p dram bar).
Proof.
  unfold sound, settled, session_at_loop, fastboot_tx_enter_idle,
    fastboot_rx_enter_command, fastboot_handle_ep0_ctrl, fresh_session,
    next_reply.
  cbv zeta. norm. rewrite !entry_ok_snoc.
  conjuncts; try discriminate; try lia; try reflexivity.
  - split_tests; discriminate.
  - simpl. lia.
Qed.

Lemma at_loop_head_sound (w : world) :
  at_loop_head p w -> sound p w.
Proof.
  intros Hw.
  induction Hw as [dram bar H1 H2 | w Hw IH Hst Hrun].
  - apply sound_session_at_loop.
  - apply sound_tick; [apply (at_loop_head_buffers p)|..]; assumption.
Qed.

Lemma forallb_weaken {A : Type} (f g : A -> bool) (l : list A) :
  (forall x, f x = true -> g x = true) ->
  forallb f l = true -> forallb g l = true.
Proof.
  intros Hfg. rewrite !forallb_forall. intros H x Hx.
  apply Hfg, H, Hx.
Qed.

(** X11: in every session the [while] test sees, neither machine is in
    its Invalid state and the status is not InvalidState; RX is in Idle
    only once the status is RebootBootloader, so that the loop, which
    runs on while the status is Normal, never steps RX in Idle; and every
    state text the loop has displayed names a working state of RX
    ([command], [download], [wtx process], [wtx reboot]) and of TX
    ([idle], [send response]). *)
Theorem loop_states_are_working_states (w : world) :
  at_loop_head p w ->
  rx_state w <> FASTBOOT_RX_STATE_INVALID
  /\ tx_state w <> FASTBOOT_TX_STATE_INVALID
  /\ status w <> FASTBOOT_STATUS_INVALID_STATE
  /\ (rx_state w = FASTBOOT_RX_STATE_IDLE ->
      status w = FASTBOOT_STATUS_REBOOT_BOOTLOADER)
  /\ forallb shows_working_states (log w) = true.
Proof.
  intros Hw. destruct (at_loop_head_sound w Hw) as (H & Hrx & Hidle & _).
  open_settled H.
  conjuncts; try assumption.
  apply (forallb_weaken (entry_ok p)); [|exact Hlog].
  unfold entry_ok. intros e He.
  apply andb_prop in He. destruct He as [He _].
  apply andb_prop in He. destruct He as [He _]. exact He.
Qed.

(** X12: in every session the [while] test sees, the head of the
    download lies between 0 and the size, and the size is 0 or at most
    the capacity, and below 2^32; while RX is in Download bytes are still
    due and no more of them were asked of the transport than are due; and
    every read the driver has armed asked for 64 bytes into the command
    buffer or for a stretch of the RAM disk that ends within the
    capacity.  (A completed transfer delivers no more than was asked.) *)
Theorem download_stays_within_capacity (w : world) :
  at_loop_head p w ->
  0 <= download_head w <= download_size w
  /\ download_size w < 2 ^ 32
  /\ (download_size w = 0
      \/ download_size w <= fastboot_download_capacity p)
  /\ (rx_state w = FASTBOOT_RX_STATE_DOWNLOAD ->
      download_head w < download_size w
      /\ ep1_out_len w <= download_size w - download_head w)
  /\ forallb (read_within (fastboot_download_capacity p)) (log w) = true.
Proof.
  intros Hw. destruct (at_loop_head_sound w Hw) as (H & _ & _ & Hdl).
  open_settled H.
  split; [lia|]. split; [exact Hs32|]. split; [lia|].
  split; [exact Hdl|].
  apply (forallb_weaken (entry_ok p)); [|exact Hlog].
  unfold entry_ok. intros e He.
  apply andb_prop in He. destruct He as [He _].
  apply andb_prop in He. destruct He as [_ He]. exact He.
Qed.

(** X13: in every session the [while] test sees, the string in
    [tx_buffer] ends inside the array, and every frame the driver has
    handed to the transport had at most 64 bytes. *)
Theorem response_frames_fit (w : world) :
  at_loop_head p w ->
  (length (cstr (tx_buffer w)) < length (tx_buffer w))%nat
  /\ forallb frame_fits (log w) = true.
Proof.
  intros Hw. destruct (at_loop_head_sound w Hw) as (H & _).
  destruct (at_loop_head_buffers p w Hw) as (_ & Hlen & _).
  open_settled H. split.
  - rewrite Hlen. unfold BUFFER_BYTES. lia.
  - apply (forallb_weaken (entry_ok p)); [|exact Hlog].
    unfold entry_ok. intros e He.
    apply andb_prop in He. destruct He as [_ He]. exact He.
Qed.

(** *** The end of a run *)

Lemma scheduling_loop_sound (fuel : nat) (w w' : world) :
  buffers_sized w -> sound p w ->
  scheduling_loop p fuel w = Some w' ->
  sound p w'.
Proof.
  revert w. induction fuel as [|fuel IH]; intros w Hsized Hw Hrun.
  - simpl in Hrun.
    destruct (status_eqb (status w) FASTBOOT_STATUS_NORMAL);
      [discriminate Hrun|].
    injection Hrun as <-. exact Hw.
  - destruct (status_eqb (status w) FASTBOOT_STATUS_NORMAL) eqn:E.
    + apply status_eqb_eq in E.
      rewrite (scheduling_loop_round p fuel w E) in Hrun.
      pose proof (sound_tick w Hsized Hw E) as Hnext.
      destruct (fst (tick p w)).
      * injection Hrun as <-. exact Hnext.
      * apply (IH _ (sized_tick p w Hsized) Hnext Hrun).
    + simpl in Hrun. rewrite E in Hrun. injection Hrun as <-. exact Hw.
Qed.

(** The loop is left with the status Normal only through its [break]. *)
Lemma scheduling_loop_break (fuel : nat) (w w' : world) :
  scheduling_loop p fuel w = Some w' ->
  status w' = FASTBOOT_STATUS_NORMAL ->
  exists before, log w' = before ++ [E_usb_device_get_suspended true].
Proof.
  revert w. induction fuel as [|fuel IH]; intros w Hrun Hst.
  - simpl in Hrun.
    destruct (status_eqb (status w) FASTBOOT_STATUS_NORMAL) eqn:E;
      [discriminate Hrun|].
    injection Hrun as <-.
    apply not_true_iff_false in E. rewrite status_eqb_eq in E.
    contradiction.
  - destruct (status_eqb (status w) FASTBOOT_STATUS_NORMAL) eqn:E.
    + apply status_eqb_eq in E.
      rewrite (scheduling_loop_round p fuel w E) in Hrun.
      destruct (fst (tick p w)) eqn:Ebrk.
      * injection Hrun as <-. revert Ebrk. rewrite tick_eq. cbv zeta.
        destruct (flag _); cbn [fst snd]; [|discriminate].
        intros _. eexists. reflexivity.
      * apply (IH _ Hrun Hst).
    + simpl in Hrun. rewrite E in Hrun. injection Hrun as <-.
      apply not_true_iff_false in E. rewrite status_eqb_eq in E.
      contradiction.
Qed.

Lemma teardowns_app (l l' : list event) :
  teardowns (l ++ l') = teardowns l ++ teardowns l'.
Proof. apply flat_map_app. Qed.

Lemma teardowns_inside_loop (l : list event) :
  forallb inside_loop l = true -> teardowns l = [].
Proof.
  induction l as [|e l IH]; simpl; [reflexivity|].
  intros H. apply andb_prop in H. destruct H as [He Hl].
  rewrite (IH Hl). destruct e; try reflexivity; discriminate He.
Qed.

(** X14: a run whose [usb_device_init] fails shows the start text, tears
    down with [usbd_end(false, true)] and returns 1; one whose
    [usb_device_ep0_initialize] fails shows the timeout text, tears down
    with [usbd_end(true, false)] and returns 1; neither enters the loop,
    touches an endpoint or restarts, however many rounds the loop is
    allowed.  A run that returns after both succeeded returns 0.  Every
    run that returns has called [usbd_end] exactly once. *)
Theorem run_result_and_teardown (fuel : nat) (dram bar : Z) :
  (rc (answer p 1%nat) <> 0 ->
   exists w,
     usb_device_gadget_fastboot p fuel dram bar = Some (1, w)
     /\ log w = [E_set_text TEXT_STARTED_USB;
                 E_usb_device_init (rc (answer p 1%nat));
                 E_usbd_end false true])
  /\ (rc (answer p 1%nat) = 0 -> rc (answer p 2%nat) <> 0 ->
      exists w,
        usb_device_gadget_fastboot p fuel dram bar = Some (1, w)
        /\ log w = [E_set_text TEXT_STARTED_USB;
                    E_usb_device_init 0;
                    E_usb_device_ep0_initialize (rc (answer p 2%nat));
                    E_set_text TEXT_TIMED_OUT;
                    E_usbd_end true false])
  /\ (forall (res : Z) (w : world),
         usb_device_gadget_fastboot p fuel dram bar = Some (res, w) ->
         (rc (answer p 1%nat) = 0 -> rc (answer p 2%nat) = 0 -> res = 0)
         /\ teardowns (log w)
            = [if rc (answer p 1%nat) =? 0 then (true, false)
               else (false, true)]).
Proof.
  unfold usb_device_gadget_fastboot. cbv zeta.
  assert (R1 : rc (next_reply p (emit (E_set_text TEXT_STARTED_USB)
                                   (fresh_session dram bar)))
               = rc (answer p 1%nat)) by reflexivity.
  destruct (negb (rc _ =? 0)) eqn:E1.
  { rewrite R1 in E1. apply negb_true_iff in E1. rewrite E1.
    apply Z.eqb_neq in E1.
    split; [intros _; eexists; split; reflexivity|].
    split; [intros H; contradiction|].
    intros res w Hrun. injection Hrun as <- <-.
    split; [intros H; contradiction | reflexivity]. }
  rewrite R1 in E1. apply negb_false_iff in E1. rewrite E1.
  apply Z.eqb_eq in E1.
  split; [intros H; contradiction|].
  match type of R1 with
  | rc (next_reply p ?a) = _ =>
      assert (R2 : rc (next_reply p
                         (emit (E_usb_device_init (rc (next_reply p a))) a))
                   = rc (answer p 2%nat)) by reflexivity
  end.
  destruct (negb (rc _ =? 0)) eqn:E2.
  { rewrite R2 in E2. apply negb_true_iff, Z.eqb_neq in E2.
    split.
    - intros _ _. eexists. split; [reflexivity|].
      replace (E_usb_device_init 0)
        with (E_usb_device_init (rc (answer p 1%nat)))
        by (rewrite E1; reflexivity).
      reflexivity.
    - intros res w Hrun. injection Hrun as <- <-.
      split; [intros _ H; contradiction|].
      unfold exit_path, fresh_session. cbv zeta. norm. reflexivity. }
  rewrite R2 in E2. apply negb_false_iff, Z.eqb_eq in E2.
  split; [intros _ H; contradiction|].
  intros res w.
  fold (session_at_loop p dram bar).
  destruct (scheduling_loop p fuel (session_at_loop p dram bar))
    as [w'|] eqn:Eloop; [|discriminate].
  intros Hrun. injection Hrun as <- <-.
  split; [reflexivity|].
  pose proof (scheduling_loop_invariant p fuel _ _
                (session_at_loop_invariant p dram bar) Eloop)
    as ((_ & _ & Hinside) & _).
  unfold exit_path. cbv zeta. norm.
  destruct (status_eqb _ _); norm;
    rewrite !teardowns_app, (teardowns_inside_loop _ Hinside);
    reflexivity.
Qed.

(** X15: a run that went through the loop never ends with the status
    InvalidState, so the text of that ending is never shown; and it ends
    with the status Normal only when [usb_device_get_suspended] answered
    true: the last three calls are then that one, the text
    [Fastboot ended] and the teardown, and there is no restart. *)
Theorem run_ends_normal_only_when_suspended (fuel : nat) (dram bar res : Z)
  (w : world) :
  rc (answer p 1%nat) = 0 -> rc (answer p 2%nat) = 0 ->
  usb_device_gadget_fastboot p fuel dram bar = Some (res, w) ->
  status w <> FASTBOOT_STATUS_INVALID_STATE
  /\ (forall rx tx,
         ~ In (E_set_text (TEXT_ENDED_INVALID_STATE rx tx)) (log w))
  /\ (status w = FASTBOOT_STATUS_NORMAL ->
      exists before,
        log w = before ++ [E_usb_device_get_suspended true;
                           E_set_text TEXT_ENDED;
                           E_usbd_end true false]).
Proof.
  intros H1 H2. unfold usb_device_gadget_fastboot. cbv zeta.
  set (w0 := emit (E_set_text TEXT_STARTED_USB) (fresh_session dram bar)).
  assert (T1 : negb (rc (next_reply p w0) =? 0) = false).
  { change (negb (rc (answer p 1%nat) =? 0) = false).
    rewrite H1. reflexivity. }
  rewrite T1.
  assert (T2 : negb (rc (next_reply p
                           (emit (E_usb_device_init (rc (next_reply p w0)))
                              w0)) =? 0) = false).
  { change (negb (rc (answer p 2%nat) =? 0) = false).
    rewrite H2. reflexivity. }
  rewrite T2. unfold w0. clear w0 T1 T2.
  fold (session_at_loop p dram bar).
  destruct (scheduling_loop p fuel (session_at_loop p dram bar))
    as [w'|] eqn:Eloop; [|discriminate].
  intros Hrun. injection Hrun as _ <-.
  assert (Hsound : sound p w').
  { apply (scheduling_loop_sound fuel (session_at_loop p dram bar)).
    - apply (at_loop_head_buffers p). apply head_first; assumption.
    - apply sound_session_at_loop.
    - exact Eloop. }
  destruct Hsound as (H & _). open_settled H.
  assert (Hstatus : status (exit_path (emit (E_set_text (ended_text w')) w'))
                    = status w').
  { unfold exit_path. cbv zeta. norm. reflexivity. }
  split; [rewrite Hstatus; exact Hst|]. split.
  - intros rx tx Hin.
    assert (Hall : forallb shows_working_states
                     (log (exit_path (emit (E_set_text (ended_text w')) w')))
                   = true).
    { unfold exit_path. cbv zeta. norm.
      assert (Hl : forallb shows_working_states (log w') = true).
      { apply (forallb_weaken (entry_ok p)); [|exact Hlog].
        unfold entry_ok. intros e He.
        apply andb_prop in He. destruct He as [He _].
        apply andb_prop in He. destruct He as [He _]. exact He. }
      assert (He : shows_working_states (E_set_text (ended_text w'))
                   = true).
      { unfold ended_text. destruct (status w'); try reflexivity.
        contradiction. }
      destruct (status_eqb _ _); norm;
        rewrite !forallb_app, Hl; cbn [forallb]; rewrite He;
        reflexivity. }
    rewrite forallb_forall in Hall. specialize (Hall _ Hin).
    discriminate Hall.
  - rewrite Hstatus. intros Hnormal.
    destruct (scheduling_loop_break fuel _ _ Eloop Hnormal)
      as (before & Hbefore).
    exists before. unfold exit_path, ended_text. cbv zeta. norm.
    rewrite Hnormal, Hbefore. cbn [status_eqb status_val Z.eqb].
    rewrite <- !app_assoc. reflexivity.
Qed.

(** X16: the Download state, its poll answering 0, in a session where
    bytes are due and no more were asked than are due (as in every
    session of the loop): the head advances by the bytes delivered,
    without wrapping and not beyond the size.  While bytes remain due RX
    stays in Download, TX is left alone and no frame is written; when the
    head reaches the size the Command read is armed and then
    [OKAYgot it!] is written at once, whatever the state of TX. *)
Theorem download_poll_advances_the_head (w : world) :
  0 <= download_head w < download_size w ->
  download_size w < 2 ^ 32 ->
  ep1_out_len w <= download_size w - download_head w ->
  rc (next_reply p w) = 0 ->
  let n := Z.of_nat (length (delivered w (next_reply p w))) in
  let w' := fastboot_rx_state_download p w in
  download_head w' = download_head w + n
  /\ download_head w' <= download_size w'
  /\ download_size w' = download_size w
  /\ (download_head w + n < download_size w ->
      rx_state w' = FASTBOOT_RX_STATE_DOWNLOAD
      /\ tx_state w' = tx_state w
      /\ frames_written (log w') = frames_written (log w))
  /\ (download_head w + n = download_size w ->
      rx_state w' = FASTBOOT_RX_STATE_COMMAND
      /\ tx_state w' = FASTBOOT_TX_STATE_SEND_RESPONSE
      /\ frames_written (log w')
         = frames_written (log w) ++ [str "OKAYgot it!"]).
Proof.
  intros Hhead H32 Hasked Hrc. cbv zeta.
  set (n := Z.of_nat (length (delivered w (next_reply p w)))).
  assert (Hn : 0 <= n <= download_size w - download_head w).
  { unfold n, delivered. rewrite length_firstn. lia. }
  assert (Hu : u32 (download_head w + n) = download_head w + n)
    by (unfold u32; apply Z.mod_small; lia).
  assert (Hfields : download_head (fastboot_rx_state_download p w)
                    = download_head w + n
                    /\ download_size (fastboot_rx_state_download p w)
                       = download_size w).
  { unfold fastboot_rx_state_download. cbv zeta. rewrite Hrc.
    change (0 =? 0) with true. cbv iota.
    unfold fastboot_rx_enter_download, fastboot_send_response_nested.
    rewrite send_response_with_eq.
    unfold fastboot_tx_enter_send_response, fastboot_rx_enter_command,
      delivered.
    cbv zeta. norm. unfold n, delivered in Hu. rewrite Hu.
    split; reflexivity. }
  destruct Hfields as [Hh Hs]. rewrite Hh, Hs.
  split; [reflexivity|]. split; [lia|]. split; [reflexivity|]. split.
  - intros Hmore.
    destruct (download_continues p w Hrc) as (_ & Hrx & Htx & Hfr).
    + fold n. rewrite Hu. exact Hmore.
    + split; [exact Hrx|]. split; [exact Htx | exact Hfr].
  - intros Hdone.
    destruct (download_completes p w Hrc) as (Hfr & Hrx & Htx & _).
    + fold n. rewrite Hu. lia.
    + split; [exact Hrx|]. split; [exact Htx | exact Hfr].
Qed.

End Shape.

Lemma download_poll_advances_the_head_witness :
  download_head (fastboot_rx_state_download payload_arrives
                   awaiting_sixteen_bytes) = 16.
Proof.
  refine (proj1 (download_poll_advances_the_head payload_arrives
                   awaiting_sixteen_bytes _ _ _ _)).
  - vm_compute. split; [discriminate | reflexivity].
  - reflexivity.
  - vm_compute. discriminate.
  - reflexivity.
Defined.

Lemma loop_states_are_working_states_witness :
  rx_state (ticks rebooting 3 (session_at_loop rebooting 0 0))
  = FASTBOOT_RX_STATE_IDLE
  /\ status (ticks rebooting 3 (session_at_loop rebooting 0 0))
     = FASTBOOT_STATUS_REBOOT_BOOTLOADER.
Proof.
  split; [vm_compute; reflexivity|].
  refine (proj1 (proj2 (proj2 (proj2
            (loop_states_are_working_states rebooting _ _)))) _).
  - apply at_loop_head_ticks.
    + vm_compute. reflexivity.
    + apply head_first; reflexivity.
  - vm_compute. reflexivity.
Defined.

Lemma download_stays_within_capacity_witness :
  rx_state (ticks long_download 2 (session_at_loop long_download 0 0))
  = FASTBOOT_RX_STATE_DOWNLOAD
  /\ forallb (read_within (fastboot_download_capacity long_download))
       (log (ticks long_download 2 (session_at_loop long_download 0 0)))
     = true.
Proof.
  split; [vm_compute; reflexivity|].
  refine (proj2 (proj2 (proj2 (proj2
            (download_stays_within_capacity long_download _ _))))).
  apply at_loop_head_ticks.
  - vm_compute. reflexivity.
  - apply head_first; reflexivity.
Defined.

Lemma response_frames_fit_witness :
  forallb frame_fits
    (log (ticks sixteen_bytes 3 (session_at_loop sixteen_bytes 0 0)))
  = true.
Proof.
  refine (proj2 (response_frames_fit sixteen_bytes _ _)).
  apply at_loop_head_ticks.
  - vm_compute. reflexivity.
  - apply head_first; reflexivity.
Defined.

Lemma run_ends_normal_only_when_suspended_witness :
  exists before,
    log (final_session cable_pulled 10 0 0)
    = before ++ [E_usb_device_get_suspended true;
                 E_set_text TEXT_ENDED;
                 E_usbd_end true false].
Proof.
  refine (proj2 (proj2 (run_ends_normal_only_when_suspended
                          cable_pulled 10 0 0 0
                          (final_session cable_pulled 10 0 0)
                          _ _ _)) _).
  - reflexivity.
  - reflexivity.
  - vm_compute. reflexivity.
  - vm_compute. reflexivity.
Defined.

(** * Sessions that are over before the first round *)

Section BeforeTheLoop.

Variable p : platform.

(** X17: when both initialisations succeed but the control-transfer
    handler reports a reset before the loop, or the first Command read
    cannot be armed, the loop body never runs, however many rounds it is
    allowed: the run returns 0 after seven calls.  The Command read has
    been asked of the transport all the same, and the closing text is
    that of the more severe of the two events. *)
Theorem session_over_before_the_first_round (fuel : nat) (dram bar : Z) :
  rc (answer p 1%nat) = 0 -> rc (answer p 2%nat) = 0 ->
  flag (answer p 3%nat) = true \/ rc (answer p 4%nat) <> 0 ->
  exists w,
    usb_device_gadget_fastboot p fuel dram bar = Some (0, w)
    /\ log w
       = [E_set_text TEXT_STARTED_USB;
          E_usb_device_init 0;
          E_usb_device_ep0_initialize 0;
          E_usbd_handle_ep0_pending_control_transfer (flag (answer p 3%nat));
          E_usb_device_read_ep1_out INTO_RX_BUFFER
            FASTBOOT_COMMAND_BUFFER_SIZE (rc (answer p 4%nat));
          E_set_text (if rc (answer p 4%nat) =? 0
                      then TEXT_ENDED_PROTOCOL_RESET
                      else TEXT_ENDED_USB_ERROR);
          E_usbd_end true false].
Proof.
  intros H1 H2 Hover. unfold usb_device_gadget_fastboot. cbv zeta.
  set (w0 := emit (E_set_text TEXT_STARTED_USB) (fresh_session dram bar)).
  assert (T1 : negb (rc (next_reply p w0) =? 0) = false).
  { change (negb (rc (answer p 1%nat) =? 0) = false).
    rewrite H1. reflexivity. }
  rewrite T1.
  assert (T2 : negb (rc (next_reply p
                           (emit (E_usb_device_init (rc (next_reply p w0)))
                              w0)) =? 0) = false).
  { change (negb (rc (answer p 2%nat) =? 0) = false).
    rewrite H2. reflexivity. }
  rewrite T2. unfold w0. clear w0 T1 T2.
  fold (session_at_loop p dram bar).
  assert (Hst : status (session_at_loop p dram bar)
                = if rc (answer p 4%nat) =? 0
                  then FASTBOOT_STATUS_PROTOCOL_RESET
                  else FASTBOOT_STATUS_USB_ERROR).
  { unfold session_at_loop, fastboot_tx_enter_idle,
      fastboot_rx_enter_command, fastboot_handle_ep0_ctrl.
    cbv zeta. norm.
    change (flag (next_reply p _)) with (flag (answer p 3%nat)).
    destruct (flag (answer p 3%nat)) eqn:E3.
    - change (rc (next_reply p _)) with (rc (answer p 4%nat)).
      destruct (rc (answer p 4%nat) =? 0); reflexivity.
    - change (rc (next_reply p _)) with (rc (answer p 4%nat)).
      destruct Hover as [Hover|Hover]; [discriminate Hover|].
      apply Z.eqb_neq in Hover. rewrite Hover. reflexivity. }
  assert (Hlog : log (session_at_loop p dram bar)
                 = [E_set_text TEXT_STARTED_USB;
                    E_usb_device_init (rc (answer p 1%nat));
                    E_usb_device_ep0_initialize (rc (answer p 2%nat));
                    E_usbd_handle_ep0_pending_control_transfer
                      (flag (answer p 3%nat));
                    E_usb_device_read_ep1_out INTO_RX_BUFFER
                      FASTBOOT_COMMAND_BUFFER_SIZE (rc (answer p 4%nat))]).
  { unfold session_at_loop, fastboot_tx_enter_idle,
      fastboot_rx_enter_command, fastboot_handle_ep0_ctrl.
    cbv zeta.
    change (flag (next_reply p (emit (E_usb_device_ep0_initialize _) _)))
      with (flag (answer p 3%nat)).
    destruct (flag (answer p 3%nat)); norm; reflexivity. }
  rewrite scheduling_loop_stopped
    by (rewrite Hst; destruct (_ =? 0); discriminate).
  eexists. split; [reflexivity|].
  unfold exit_path, ended_text. cbv zeta. norm.
  rewrite Hst, Hlog, H1, H2.
  destruct (rc (answer p 4%nat) =? 0); reflexivity.
Qed.

(** X18: in every session the [while] test sees, [rx_buffer] and
    [tx_buffer] have their 65 bytes, no store of the driver having gone
    past the end of either, and a Command read in flight was asked for
    64 bytes. *)
Theorem session_buffers_are_never_overrun (w : world) :
  at_loop_head p w ->
  length (rx_buffer w) = BUFFER_BYTES
  /\ length (tx_buffer w) = BUFFER_BYTES
  /\ (rx_state w = FASTBOOT_RX_STATE_COMMAND ->
      ep1_out_len w = FASTBOOT_COMMAND_BUFFER_SIZE).
Proof. intros Hw. exact (at_loop_head_buffers p w Hw). Qed.

End BeforeTheLoop.

Lemma session_over_before_the_first_round_witness :
  exists w,
    usb_device_gadget_fastboot
      (example_platform (always (Build_reply 0 true [] 0))) 5 0 0
    = Some (0, w)
    /\ nth 5 (log w) E_reload_nyx = E_set_text TEXT_ENDED_PROTOCOL_RESET.
Proof.
  destruct (session_over_before_the_first_round
              (example_platform (always (Build_reply 0 true [] 0))) 5 0 0)
    as (w & Hrun & Hlog).
  - reflexivity.
  - reflexivity.
  - left. reflexivity.
  - exists w. split; [exact Hrun|]. rewrite Hlog. reflexivity.
Defined.

Lemma session_buffers_are_never_overrun_witness :
  length (rx_buffer (ticks two_lines 4 (session_at_loop two_lines 0 0)))
  = BUFFER_BYTES.
Proof.
  refine (proj1 (session_buffers_are_never_overrun two_lines _ _)).
  apply at_loop_head_ticks.
  - vm_compute. reflexivity.
  - apply head_first; reflexivity.
Defined.

Lemma run_result_and_teardown_witness :
  exists w,
    usb_device_gadget_fastboot failing 3 0 0 = Some (1, w)
    /\ log w = [E_set_text TEXT_STARTED_USB;
                E_usb_device_init (rc (answer failing 1%nat));
                E_usbd_end false true].
Proof.
  apply (proj1 (run_result_and_teardown failing 3 0 0)).
  vm_compute. discriminate.
Defined.

(** * The earlier version: responses and their dispositions *)

Ltac esimpl :=
  cbn [Earlier.status Earlier.state Earlier.overlay Earlier.buffer_used
       Earlier.buffer Earlier.download_head Earlier.download_size
       Earlier.download_amount Earlier.timer_dram Earlier.timer_status_bar
       Earlier.log Earlier.set_status Earlier.set_state Earlier.set_overlay
       Earlier.set_buffer_used Earlier.set_buffer Earlier.set_download
       Earlier.set_timers Earlier.emit fst snd].

(** Without a [memset], [strcpy] of the tag and [strncpy] of the message
    still rewrite all 65 bytes. *)
Lemma earlier_buffer_built (buf : list ascii) type (m : list ascii) :
  length buf = BUFFER_BYTES ->
  strncpy (strcpy buf (response_tag type)) 4 m (BUFFER_BYTES - 4)
  = response_buffer type (Some m).
Proof.
  intros Hlen. unfold strncpy, strcpy, write_at, response_buffer.
  rewrite (cstr_fixed _ (response_tag_no_nul type)).
  rewrite strncpy_bytes_length.
  assert (Hrest : skipn 65 (response_tag type ++ [NUL] ++ skipn 5 buf) = []).
  { apply skipn_all2.
    rewrite !length_app, response_tag_length, length_skipn, Hlen.
    unfold BUFFER_BYTES. cbn [length]. lia. }
  destruct type; cbn [response_tag] in *;
    cbn [firstn app length Nat.add Nat.sub BUFFER_BYTES str
         list_ascii_of_string skipn] in *;
    rewrite Hrest, app_nil_r; reflexivity.
Qed.

Section EarlierResponses.

Variable p : platform.

(** [fastboot_enter_send_response] on a buffer of 65 bytes. *)
Lemma earlier_enter_send_response (w : Earlier.session) type d
  (m : list ascii) :
  length (Earlier.buffer w) = BUFFER_BYTES ->
  Earlier.fastboot_enter_send_response w type d (Some m)
  = Earlier.set_state Earlier.FASTBOOT_STATE_SEND_RESPONSE
      (Earlier.set_overlay (Earlier.disposition_val d)
         (Earlier.set_buffer (response_buffer type (Some m)) w)).
Proof.
  intros Hlen. unfold Earlier.fastboot_enter_send_response. cbv zeta.
  esimpl. rewrite (earlier_buffer_built _ type m Hlen). reflexivity.
Qed.

Lemma earlier_terminated_length (w : Earlier.session) :
  length (Earlier.buffer w) = BUFFER_BYTES ->
  0 <= Earlier.buffer_used w <= 64 ->
  length (Earlier.terminated w) = BUFFER_BYTES.
Proof.
  intros Hlen Hused. unfold Earlier.terminated.
  apply eq_trans with (length (Earlier.buffer w)); [|exact Hlen].
  apply write_at_length. rewrite Hlen. unfold BUFFER_BYTES.
  cbn [length]. lia.
Qed.

(** X19: in the earlier version a download of size 0 is answered as the
    protocol has it.  On [download:00000000] the interpreter builds
    [DATA00000000] and keeps the Download disposition; the next step
    writes that frame and only then resolves the disposition, which,
    nothing being due, builds [OKAYgot it!]; the step after writes it and
    returns to ReceiveHostCommand.  The two frames go out in this order,
    each once. *)
Theorem earlier_download_of_size_zero (w : Earlier.session) :
  length (Earlier.buffer w) = BUFFER_BYTES ->
  0 <= Earlier.buffer_used w <= 64 ->
  firstn 17 (Earlier.terminated w) = str "download:00000000" ->
  0 <= fastboot_download_capacity p ->
  let w1 := Earlier.fastboot_handle_command p w in
  let w2 := Earlier.fastboot_state_send_response p w1 in
  let w3 := Earlier.fastboot_state_send_response p w2 in
  rc (Earlier.next_reply p w1) = 0 ->
  rc (Earlier.next_reply p w2) = 0 ->
  Earlier.log w3
  = Earlier.log w
    ++ [Earlier.E_set_text Earlier.TEXT_HANDLING_COMMAND;
        Earlier.E_usb_device_write_ep1_in (str "DATA00000000") 0;
        Earlier.E_usb_device_write_ep1_in (str "OKAYgot it!") 0]
  /\ Earlier.state w1 = Earlier.FASTBOOT_STATE_SEND_RESPONSE
  /\ Earlier.state w2 = Earlier.FASTBOOT_STATE_SEND_RESPONSE
  /\ Earlier.state w3 = Earlier.FASTBOOT_STATE_RECEIVE_HOST_COMMAND
  /\ Earlier.download_size w3 = 0
  /\ Earlier.download_head w3 = 0.
Proof.
  intros Hlen Hused Hline Hcap.
  pose proof (earlier_terminated_length w Hlen Hused) as Hlen'.
  pose proof (firstn_skipn 17 (Earlier.terminated w)) as Hbuf.
  rewrite Hline in Hbuf.
  assert (Hstart : starts_with "download:" (cstr (Earlier.terminated w))).
  { rewrite <- Hbuf.
    rewrite cstr_app by (apply str_no_nul_dec; reflexivity).
    reflexivity. }
  assert (Hwin : size_window (Earlier.terminated w) = str "00000000").
  { rewrite <- Hbuf. reflexivity. }
  set (s1 := Earlier.set_state Earlier.FASTBOOT_STATE_SEND_RESPONSE
               (Earlier.set_overlay 1
                  (Earlier.set_buffer
                     (response_buffer FASTBOOT_RESPONSE_DATA
                        (Some (s_printf_08x 0)))
                     (Earlier.set_download 0 0 0
                        (Earlier.set_buffer (Earlier.terminated w)
                           (Earlier.emit
                              (Earlier.E_set_text
                                 Earlier.TEXT_HANDLING_COMMAND)
                              w)))))).
  assert (H1 : Earlier.fastboot_handle_command p w = s1).
  { unfold Earlier.fastboot_handle_command. cbv zeta. esimpl.
    fold (Earlier.terminated w).
    rewrite (not_true_false (strncmp _ (str "getvar:") 7 =? 0))
      by (rewrite test_getvar; apply download_is_not_getvar; exact Hstart).
    rewrite (not_true_false (strcmp _ (str "reboot-bootloader") =? 0))
      by (rewrite test_reboot; apply download_is_not_reboot; exact Hstart).
    rewrite (proj2 (test_download (Earlier.terminated w)) Hstart).
    rewrite (parse_size_window _ Hlen'), Hwin.
    change (forallb is_hex_digit (str "00000000")) with true.
    change (hex_number (str "00000000")) with 0.
    cbv iota. cbn [negb].
    replace (0 >? fastboot_download_capacity p) with false
      by (symmetry; apply not_true_false; rewrite Z.gtb_lt; lia).
    rewrite earlier_enter_send_response by (esimpl; exact Hlen').
    reflexivity. }
  set (s2 := Earlier.set_state Earlier.FASTBOOT_STATE_SEND_RESPONSE
               (Earlier.set_overlay 0
                  (Earlier.set_buffer
                     (response_buffer FASTBOOT_RESPONSE_OKAY
                        (Some (str "got it!")))
                     (Earlier.set_buffer_used 12
                        (Earlier.emit
                           (Earlier.E_usb_device_write_ep1_in
                              (str "DATA00000000") 0)
                           s1))))).
  assert (H2 : rc (Earlier.next_reply p s1) = 0 ->
               Earlier.fastboot_state_send_response p s1 = s2).
  { intros Hrc. unfold Earlier.fastboot_state_send_response. cbv zeta.
    rewrite Hrc. unfold s1 at 1 2 3 4 5. esimpl.
    change (cstr (response_buffer FASTBOOT_RESPONSE_DATA
                    (Some (s_printf_08x 0))))
      with (str "DATA00000000").
    unfold Earlier.fastboot_check_code. cbn [Z.eqb negb fst snd].
    esimpl. cbn [Earlier.disposition_val Z.eqb].
    unfold Earlier.fastboot_enter_download. esimpl. cbn [Z.ltb Z.compare].
    rewrite earlier_enter_send_response
      by (esimpl; apply response_buffer_length).
    reflexivity. }
  set (s3 := Earlier.set_state Earlier.FASTBOOT_STATE_RECEIVE_HOST_COMMAND
               (Earlier.set_buffer_used 11
                  (Earlier.emit
                     (Earlier.E_usb_device_write_ep1_in
                        (str "OKAYgot it!") 0)
                     s2))).
  assert (H3 : rc (Earlier.next_reply p s2) = 0 ->
               Earlier.fastboot_state_send_response p s2 = s3).
  { intros Hrc. unfold Earlier.fastboot_state_send_response. cbv zeta.
    rewrite Hrc. unfold s2 at 1 2 3 4 5. esimpl.
    change (cstr (response_buffer FASTBOOT_RESPONSE_OKAY
                    (Some (str "got it!"))))
      with (str "OKAYgot it!").
    unfold Earlier.fastboot_check_code. cbn [Z.eqb negb fst snd].
    esimpl. cbn [Earlier.disposition_val Z.eqb].
    reflexivity. }
  cbv zeta. rewrite H1. intros Hrc1. rewrite (H2 Hrc1).
  intros Hrc2. rewrite (H3 Hrc2).
  unfold s3, s2, s1. esimpl.
  split; [rewrite <- !app_assoc; reflexivity|].
  repeat split.
Qed.


End EarlierResponses.

(** The scenario of the documents, run in the earlier version. *)
Example earlier_download_of_sixteen_bytes :
  Earlier.frames_written
    (Earlier.log (Earlier.ticks Earlier.sixteen_bytes 5
                    (Earlier.fresh_session 0 0)))
  = [str "DATA00000010"; str "OKAYgot it!"].
Proof. vm_compute. reflexivity. Qed.

Lemma earlier_download_of_size_zero_witness :
  Earlier.frames_written
    (Earlier.log
       (Earlier.fastboot_state_send_response
          (example_platform (always ok_reply))
          (Earlier.fastboot_state_send_response
             (example_platform (always ok_reply))
             (Earlier.fastboot_handle_command
                (example_platform (always ok_reply))
                (Earlier.holding "download:00000000")))))
  = [str "DATA00000000"; str "OKAYgot it!"].
Proof.
  destruct (earlier_download_of_size_zero
              (example_platform (always ok_reply))
              (Earlier.holding "download:00000000"))
    as (Hlog & _).
  - reflexivity.
  - vm_compute. split; discriminate.
  - reflexivity.
  - vm_compute. discriminate.
  - reflexivity.
  - reflexivity.
  - rewrite Hlog. reflexivity.
Defined.

